(** * Session restore and synchronisation engine: a shallow embedding

    The development follows the client-side orchestration code of the
    repository: the snapshot reconciliation and restore sequence of
    [useChatHistory], the message-history store operation, the two periodic
    sync services, and the two route handlers that save and load project
    files.  Each module embeds one source unit; the theorems come after all
    definitions. *)

From Stdlib Require Import ZArith String Ascii List Bool Lia.
From stdpp Require Import base numbers option list strings gmap.

Open Scope string_scope.
Open Scope Z_scope.
Open Scope list_scope.

(* ===================================================================== *)
(** ** JavaScript array and string primitives used by the sources *)
(* ===================================================================== *)

Module Js.

(** [Array.prototype.findIndex]: the first position whose element satisfies
    the predicate, [-1] when there is none. *)
Fixpoint findIndexFrom {A : Type} (p : A -> bool) (l : list A) (i : Z) : Z :=
  match l with
  | [] => -1
  | x :: rest => if p x then i else findIndexFrom p rest (i + 1)
  end.

Definition findIndex {A : Type} (p : A -> bool) (l : list A) : Z :=
  findIndexFrom p l 0.

(** Relative index of [Array.prototype.slice]: negative counts from the end,
    everything is clamped into [0 .. len]. *)
Definition relativeIndex (len i : Z) : Z :=
  if i <? 0 then Z.max (len + i) 0 else Z.min i len.

(** [Array.prototype.slice(start, end)]. *)
Definition slice {A : Type} (l : list A) (start stop : Z) : list A :=
  let len := Z.of_nat (length l) in
  let k := relativeIndex len start in
  let final := relativeIndex len stop in
  take (Z.to_nat (final - k)) (drop (Z.to_nat k) l).

(** [Array.prototype.join] on strings. *)
Fixpoint join (sep : string) (l : list string) : string :=
  match l with
  | [] => ""
  | [s] => s
  | s :: rest => s +:+ sep +:+ join sep rest
  end.

(** Truthiness of a string, and of a value that may be [null]/[undefined]. *)
Definition truthyString (s : string) : bool := negb (String.eqb s "").

Definition truthy (o : option string) : bool :=
  match o with
  | Some s => truthyString s
  | None => false
  end.

(** [a || b] on possibly absent objects (objects are always truthy). *)
Definition orElse {A : Type} (a b : option A) : option A :=
  match a with
  | Some _ => a
  | None => b
  end.

(** [s == r] between a string and a string-or-null. *)
Definition looseEq (s : string) (r : option string) : bool :=
  match r with
  | Some t => String.eqb s t
  | None => false
  end.

Definition dquote : string := String (ascii_of_nat 34) EmptyString.
Definition newline : string := String (ascii_of_nat 10) EmptyString.

Fixpoint spaces (n : nat) : string :=
  match n with
  | O => ""
  | S k => String (ascii_of_nat 32) (spaces k)
  end.


(** A thrown exception or rejected promise, against a normal completion. *)
Inductive outcome (A : Type) : Type :=
| Returned (a : A)
| Threw (message : string).

Arguments Returned {A} a.
Arguments Threw {A} message.

(** How a [fetch] of a route ends, as the callers distinguish it:
    [response.ok] with a readable body, [!response.ok], or a rejection of
    [fetch] or [response.json()]. *)
Inductive Response : Type := RespOk | RespNotOk | RespFailed.

End Js.

(* ===================================================================== *)
(** ** Data model: messages, directory entries, snapshots *)
(* ===================================================================== *)

Module Model.

Inductive Role : Type := user | assistant | system.

(** A message annotation is a JSON value: a tag such as ['no-store'], or an
    object given by its fields. *)
Inductive Annotation : Type :=
| Tag (t : string)
| Obj (fields : list (string * string)).

Definition isTag (t : string) (a : Annotation) : bool :=
  match a with
  | Tag u => String.eqb u t
  | Obj _ => false
  end.

Record Message : Type := mkMessage {
  id : string;
  role : Role;
  content : string;
  parts : option string;
  toolInvocations : option string;
  annotations : option (list Annotation)
}.

(** [m.annotations?.includes(t)]: [undefined] (falsy) without annotations. *)
Definition includesTag (t : string) (m : Message) : bool :=
  match annotations m with
  | Some l => existsb (isTag t) l
  | None => false
  end.

Inductive Dirent : Type :=
| Folder
| File (content : string) (isBinary : bool).

(** A [FileMap] in the order [Object.entries] enumerates it; an entry may be
    [undefined]. *)
Definition FileMap : Type := list (string * option Dirent).

Record Snapshot : Type := mkSnapshot {
  chatIndex : string;
  files : FileMap;
  summary : option string
}.

Record ChatHistoryItem : Type := mkChat {
  chat_id : string;
  chat_urlId : option string;
  chat_description : option string;
  chat_messages : list Message
}.

End Model.

(* ===================================================================== *)
(** ** Snapshot reconciliation (the local branch of [useChatHistory]) *)
(* ===================================================================== *)

Module Reconciler.
Import Js Model.

(** What the reconciliation hands to the command detector: [{content, path}]. *)
Record FileContent : Type := mkFileContent {
  fc_content : string;
  fc_path : string
}.

(** The detector's answer: a pair of optional shell command strings. *)
Record ProjectCommands : Type := mkCommands {
  setupCommand : option string;
  startCommand : option string
}.

(** The command detector is an external collaborator
    ([~/utils/projectCommands]); the reconciliation only consumes its
    answer. *)
Class CommandDetector : Type := {
  detectProjectCommands : list FileContent -> ProjectCommands;
  createCommandActionsString : ProjectCommands -> string
}.

(** [snapshot || { chatIndex: '', files: {} }] *)
Definition validSnapshot (snapshot : option Snapshot) : Snapshot :=
  match snapshot with
  | Some s => s
  | None => mkSnapshot "" [] None
  end.

(** The callback [(m) => m.id === i]. *)
Definition hasId (i : string) (m : Message) : bool := String.eqb (id m) i.

(** [rewindId ? findIndex(...) + 1 : messages.length], where [rewindId] is
    what [searchParams.get('rewindTo')] gave: [null] or a string. *)
Definition endingIdx (messages : list Message) (rewindId : option string) : Z :=
  match rewindId with
  | Some r =>
      if truthyString r then findIndex (hasId r) messages + 1
      else Z.of_nat (length messages)
  | None => Z.of_nat (length messages)
  end.

Definition snapshotIndex (messages : list Message) (snapshot : option Snapshot) : Z :=
  findIndex (hasId (chatIndex (validSnapshot snapshot))) messages.

(** [messages[i].id]; [None] stands for the [TypeError] of reading [.id] off
    [undefined], which the guards around each use exclude. *)
Definition idAt (messages : list Message) (i : Z) : option string :=
  id <$> messages !! Z.to_nat i.

(** [startingIdx] after both conditionals. *)
Definition startingIdx (messages : list Message) (snapshot : option Snapshot)
    (rewindId : option string) : Z :=
  let e := endingIdx messages rewindId in
  let si := snapshotIndex messages snapshot in
  let s := if (0 <=? si) && (si <? e) then si else -1 in
  if (0 <? si) &&
     match idAt messages si with
     | Some i => looseEq i rewindId
     | None => false
     end
  then -1
  else s.

(** [messages.slice(startingIdx + 1, endingIdx)] *)
Definition filteredMessages (messages : list Message) (snapshot : option Snapshot)
    (rewindId : option string) : list Message :=
  slice messages (startingIdx messages snapshot rewindId + 1)
        (endingIdx messages rewindId).

Definition archivedMessages (messages : list Message) (snapshot : option Snapshot)
    (rewindId : option string) : list Message :=
  let s := startingIdx messages snapshot rewindId in
  if 0 <=? s then slice messages 0 (s + 1) else [].

(** The [{content, path}] list of the entries whose type is ['file']. *)
Definition fileContents (fm : FileMap) : list FileContent :=
  omap (fun entry : string * option Dirent =>
          match snd entry with
          | Some (File c _) => Some (mkFileContent c (fst entry))
          | _ => None
          end) fm.

(** One [<boltAction type="file" ...>] block of the template literal. *)
Definition fileAction (key content : string) : string :=
  newline +:+ spaces 22 +:+ "<boltAction type=" +:+ dquote +:+ "file" +:+ dquote
  +:+ " filePath=" +:+ dquote +:+ key +:+ dquote +:+ ">" +:+ newline
  +:+ content +:+ newline
  +:+ spaces 22 +:+ "</boltAction>" +:+ newline
  +:+ spaces 22.

Definition renderEntry (entry : string * option Dirent) : string :=
  match snd entry with
  | Some (File c _) => fileAction (fst entry) c
  | _ => ""
  end.

(** The assistant message's content: the artifact with one action per file
    of [snapshot?.files || {}] and the command actions string. *)
Definition restoredContent (snapshot : option Snapshot) (commandActionsString : string)
    : string :=
  "Bolt Restored your chat from a snapshot. You can revert this message to load the full chat history."
  +:+ newline +:+ spaces 18
  +:+ "<boltArtifact id=" +:+ dquote +:+ "restored-project-setup" +:+ dquote
  +:+ " title=" +:+ dquote +:+ "Restored Project & Setup" +:+ dquote
  +:+ " type=" +:+ dquote +:+ "bundled" +:+ dquote +:+ ">"
  +:+ newline +:+ spaces 18
  +:+ join newline (map renderEntry (match snapshot with Some s => files s | None => [] end))
  +:+ newline +:+ spaces 18
  +:+ commandActionsString
  +:+ newline +:+ spaces 18
  +:+ "</boltArtifact>"
  +:+ newline +:+ spaces 18.

Section WithDetector.
Context {detector : CommandDetector}.

(** [createCommandActionsString(await detectProjectCommands(files))] over the
    file entries of [validSnapshot]. *)
Definition commandActionsString (snapshot : option Snapshot) : string :=
  createCommandActionsString
    (detectProjectCommands (fileContents (files (validSnapshot snapshot)))).

(** The hidden user message; [freshId] is what [generateId()] returned. *)
Definition restoreRequest (freshId : string) : Message :=
  mkMessage freshId user "Restore project from snapshot" None None
            (Some [Tag "no-store"; Tag "hidden"]).

(** The assistant message carrying the snapshot. *)
Definition restoreAssistant (messages : list Message) (snapshot : option Snapshot)
    : Message :=
  let snapshotId := default "" (idAt messages (snapshotIndex messages snapshot)) in
  mkMessage snapshotId assistant
            (restoredContent snapshot (commandActionsString snapshot))
            None None
            (Some (Tag "no-store" ::
                   match summary (validSnapshot snapshot) with
                   | Some s =>
                       if truthyString s
                       then [Obj [("chatId", snapshotId); ("type", "chatSummary");
                                  ("summary", s)]]
                       else []
                   | None => []
                   end)).

(** The two synthesized messages, present exactly when [startingIdx > 0]. *)
Definition replayMessages (freshId : string) (messages : list Message)
    (snapshot : option Snapshot) (rewindId : option string) : list Message :=
  if 0 <? startingIdx messages snapshot rewindId
  then [restoreRequest freshId; restoreAssistant messages snapshot]
  else [].

(** What [setInitialMessages] receives. *)
Definition visibleMessages (freshId : string) (messages : list Message)
    (snapshot : option Snapshot) (rewindId : option string) : list Message :=
  replayMessages freshId messages snapshot rewindId
  ++ filteredMessages messages snapshot rewindId.

End WithDetector.

End Reconciler.

(* ===================================================================== *)
(** ** Restore coordination (the effect of [useChatHistory]) *)
(* ===================================================================== *)

Module Coordinator.
Import Js Model Reconciler.

(** The Local History Store operations the hook imports from [./db]; a call
    either resolves or rejects.  [setMessages] takes the chat id, the
    messages, the url id and the description. *)
Class LocalHistoryStore (DB : Type) : Type := {
  getMessages : DB -> string -> outcome (option ChatHistoryItem);
  getSnapshot : DB -> string -> outcome (option Snapshot);
  getMessagesById : DB -> string -> outcome (option ChatHistoryItem);
  getMessagesByUrlId : DB -> string -> outcome (option ChatHistoryItem);
  setMessages :
    DB -> string -> list Message -> option string -> option string -> outcome DB
}.

(** What [projectRestoreService.restoreProject] resolves with. *)
Record RemoteData : Type := mkRemote {
  remote_messages : list Message;
  remote_description : option string;
  remote_urlId : string
}.

(** The outside world during one restore: the id [generateId()] yields, the
    result of writing the snapshot into the sandbox ([restoreSnapshot]), and
    the result of the remote restore. *)
Record Oracle : Type := mkOracle {
  freshId : string;
  sandboxRestore : outcome unit;
  remoteRestore : outcome (option RemoteData)
}.

(** One mounted instance of the hook: the module-level [db], the React state,
    the two refs, the atoms, and a log of the effects it performed. *)
Record Hook (DB : Type) : Type := mkHook {
  db : option DB;
  persistenceEnabled : bool;
  archived : list Message;
  initialMessages : list Message;
  ready : bool;
  urlId : option string;
  restoreInProgress : bool;
  autoStartInProgress : bool;
  chatId : option string;
  description : option string;
  toasts : list string;
  navigatedHome : bool;
  querySequences : nat;
  releaseTimers : nat;
  autoStarts : nat;
  setMessagesCalls : list (string * list Message)
}.

Arguments mkHook {DB}.
Arguments db {DB}.
Arguments persistenceEnabled {DB}.
Arguments archived {DB}.
Arguments initialMessages {DB}.
Arguments ready {DB}.
Arguments urlId {DB}.
Arguments restoreInProgress {DB}.
Arguments autoStartInProgress {DB}.
Arguments chatId {DB}.
Arguments description {DB}.
Arguments toasts {DB}.
Arguments navigatedHome {DB}.
Arguments querySequences {DB}.
Arguments releaseTimers {DB}.
Arguments autoStarts {DB}.
Arguments setMessagesCalls {DB}.

Section Setters.
Context {DB : Type}.
Implicit Type h : Hook DB.

Definition setDb (d : DB) h : Hook DB :=
  mkHook (Some d) (persistenceEnabled h) (archived h) (initialMessages h) (ready h)
    (urlId h) (restoreInProgress h) (autoStartInProgress h) (chatId h) (description h)
    (toasts h) (navigatedHome h) (querySequences h) (releaseTimers h) (autoStarts h)
    (setMessagesCalls h).

Definition setArchivedMessages (l : list Message) h : Hook DB :=
  mkHook (db h) (persistenceEnabled h) l (initialMessages h) (ready h)
    (urlId h) (restoreInProgress h) (autoStartInProgress h) (chatId h) (description h)
    (toasts h) (navigatedHome h) (querySequences h) (releaseTimers h) (autoStarts h)
    (setMessagesCalls h).

Definition setInitialMessages (l : list Message) h : Hook DB :=
  mkHook (db h) (persistenceEnabled h) (archived h) l (ready h)
    (urlId h) (restoreInProgress h) (autoStartInProgress h) (chatId h) (description h)
    (toasts h) (navigatedHome h) (querySequences h) (releaseTimers h) (autoStarts h)
    (setMessagesCalls h).

Definition setReady (b : bool) h : Hook DB :=
  mkHook (db h) (persistenceEnabled h) (archived h) (initialMessages h) b
    (urlId h) (restoreInProgress h) (autoStartInProgress h) (chatId h) (description h)
    (toasts h) (navigatedHome h) (querySequences h) (releaseTimers h) (autoStarts h)
    (setMessagesCalls h).

Definition setUrlId (u : option string) h : Hook DB :=
  mkHook (db h) (persistenceEnabled h) (archived h) (initialMessages h) (ready h)
    u (restoreInProgress h) (autoStartInProgress h) (chatId h) (description h)
    (toasts h) (navigatedHome h) (querySequences h) (releaseTimers h) (autoStarts h)
    (setMessagesCalls h).

Definition setRestoreInProgress (b : bool) h : Hook DB :=
  mkHook (db h) (persistenceEnabled h) (archived h) (initialMessages h) (ready h)
    (urlId h) b (autoStartInProgress h) (chatId h) (description h)
    (toasts h) (navigatedHome h) (querySequences h) (releaseTimers h) (autoStarts h)
    (setMessagesCalls h).

Definition setAutoStartInProgress (b : bool) h : Hook DB :=
  mkHook (db h) (persistenceEnabled h) (archived h) (initialMessages h) (ready h)
    (urlId h) (restoreInProgress h) b (chatId h) (description h)
    (toasts h) (navigatedHome h) (querySequences h) (releaseTimers h) (autoStarts h)
    (setMessagesCalls h).

Definition setChatId (c : option string) h : Hook DB :=
  mkHook (db h) (persistenceEnabled h) (archived h) (initialMessages h) (ready h)
    (urlId h) (restoreInProgress h) (autoStartInProgress h) c (description h)
    (toasts h) (navigatedHome h) (querySequences h) (releaseTimers h) (autoStarts h)
    (setMessagesCalls h).

Definition setDescription (d : option string) h : Hook DB :=
  mkHook (db h) (persistenceEnabled h) (archived h) (initialMessages h) (ready h)
    (urlId h) (restoreInProgress h) (autoStartInProgress h) (chatId h) d
    (toasts h) (navigatedHome h) (querySequences h) (releaseTimers h) (autoStarts h)
    (setMessagesCalls h).

Definition toast (text : string) h : Hook DB :=
  mkHook (db h) (persistenceEnabled h) (archived h) (initialMessages h) (ready h)
    (urlId h) (restoreInProgress h) (autoStartInProgress h) (chatId h) (description h)
    (toasts h ++ [text]) (navigatedHome h) (querySequences h) (releaseTimers h)
    (autoStarts h) (setMessagesCalls h).

Definition navigateHome h : Hook DB :=
  mkHook (db h) (persistenceEnabled h) (archived h) (initialMessages h) (ready h)
    (urlId h) (restoreInProgress h) (autoStartInProgress h) (chatId h) (description h)
    (toasts h) true (querySequences h) (releaseTimers h) (autoStarts h)
    (setMessagesCalls h).

Definition startQuerySequence h : Hook DB :=
  mkHook (db h) (persistenceEnabled h) (archived h) (initialMessages h) (ready h)
    (urlId h) (restoreInProgress h) (autoStartInProgress h) (chatId h) (description h)
    (toasts h) (navigatedHome h) (S (querySequences h)) (releaseTimers h) (autoStarts h)
    (setMessagesCalls h).

Definition scheduleRelease h : Hook DB :=
  mkHook (db h) (persistenceEnabled h) (archived h) (initialMessages h) (ready h)
    (urlId h) (restoreInProgress h) (autoStartInProgress h) (chatId h) (description h)
    (toasts h) (navigatedHome h) (querySequences h) (S (releaseTimers h)) (autoStarts h)
    (setMessagesCalls h).

Definition scheduleAutoStart h : Hook DB :=
  mkHook (db h) (persistenceEnabled h) (archived h) (initialMessages h) (ready h)
    (urlId h) (restoreInProgress h) (autoStartInProgress h) (chatId h) (description h)
    (toasts h) (navigatedHome h) (querySequences h) (releaseTimers h) (S (autoStarts h))
    (setMessagesCalls h).

Definition logSetMessages (i : string) (l : list Message) h : Hook DB :=
  mkHook (db h) (persistenceEnabled h) (archived h) (initialMessages h) (ready h)
    (urlId h) (restoreInProgress h) (autoStartInProgress h) (chatId h) (description h)
    (toasts h) (navigatedHome h) (querySequences h) (releaseTimers h) (autoStarts h)
    (setMessagesCalls h ++ [(i, l)]).

End Setters.

Section Effect.
Context {DB : Type} {store : LocalHistoryStore DB}.
Implicit Type h : Hook DB.

(** [d || undefined] *)
Definition orUndefined (d : option string) : option string :=
  if truthy d then d else None.

(** The opportunistic write-back into the Local History Store after a remote
    restore: look the chat up by id and (when the url id is truthy) by url id,
    save when nothing was found or what was found holds no messages, else
    adopt the found record's id when it differs.  A rejection anywhere in the
    block is caught and only logged. *)
Definition writeBack (mixedId : string) (data : RemoteData) h : Hook DB :=
  match db h with
  | None => h
  | Some d =>
      match getMessagesById d mixedId,
            (if truthyString (remote_urlId data)
             then getMessagesByUrlId d (remote_urlId data)
             else Returned None) with
      | Returned existingById, Returned existingByUrlId =>
          let existingChat := orElse existingById existingByUrlId in
          let save :=
            let h1 := logSetMessages mixedId (remote_messages data) h in
            match setMessages d mixedId (remote_messages data)
                    (Some (remote_urlId data))
                    (orUndefined (remote_description data)) with
            | Returned d' => setDb d' h1
            | Threw _ => h1
            end in
          match existingChat with
          | None => save
          | Some c =>
              if (length (chat_messages c) =? 0)%nat then save
              else if String.eqb (chat_id c) mixedId then h
              else setChatId (Some (chat_id c)) h
          end
      | _, _ => h
      end
  end.

(** The [else] branch: nothing usable in the Local History Store. *)
Definition restoreFromRemote (mixedId : string) (o : Oracle) h : Hook DB :=
  match remoteRestore o with
  | Returned (Some data) =>
      if (0 <? length (remote_messages data))%nat
      then
        writeBack mixedId data
          (setChatId (Some mixedId)
             (setDescription (orUndefined (remote_description data))
                (setUrlId (Some (remote_urlId data))
                   (setInitialMessages (remote_messages data) h))))
      else navigateHome h
  | Returned None => navigateHome h
  | Threw e => toast ("Failed to restore project: " +:+ e) h
  end.

(** [snapshot && snapshot.files && Object.keys(snapshot.files).length > 0] *)
Definition hasFiles (snapshot : option Snapshot) : bool :=
  match snapshot with
  | Some s => (0 <? length (files s))%nat
  | None => false
  end.

Section Local.
Context {detector : CommandDetector}.

(** The [if] branch: the stored log is not empty.  (The unawaited
    [restoreSnapshot(mixedId)] of the replay case gets no snapshot and so
    writes nothing; it leaves no trace in the hook.) *)
Definition restoreFromLocal (rewindId : option string) (o : Oracle)
    (storedMessages : ChatHistoryItem) (snapshot : option Snapshot) h : Hook DB :=
  let messages := chat_messages storedMessages in
  let h1 := setArchivedMessages (archivedMessages messages snapshot rewindId) h in
  let h2 :=
    setInitialMessages (visibleMessages (freshId o) messages snapshot rewindId) h1 in
  let h3 :=
    setChatId (Some (chat_id storedMessages))
      (setDescription (chat_description storedMessages)
         (setUrlId (chat_urlId storedMessages) h2)) in
  if hasFiles snapshot then
    match sandboxRestore o with
    | Returned _ =>
        if autoStartInProgress h3 then h3
        else scheduleAutoStart
               (toast "🚀 Starting application..." (setAutoStartInProgress true h3))
    | Threw _ => setRestoreInProgress false h3
    end
  else h3.

(** The [.then] handler; its last statement is [setReady(true)]. *)
Definition onResolved (mixedId : string) (rewindId : option string) (o : Oracle)
    (storedMessages : option ChatHistoryItem) (snapshot : option Snapshot) h
    : Hook DB :=
  setReady true
    match storedMessages with
    | Some sm =>
        if (0 <? length (chat_messages sm))%nat
        then restoreFromLocal rewindId o sm snapshot h
        else restoreFromRemote mixedId o h
    | None => restoreFromRemote mixedId o h
    end.

(** The [.catch] handler. *)
Definition onRejected (message : string) h : Hook DB :=
  setRestoreInProgress false (toast ("Failed to load chat: " +:+ message) h).

(** The [.finally] handler arms the 5000 ms timer; [releaseLock] is the
    timer's callback. *)
Definition onFinally h : Hook DB := scheduleRelease h.

Definition releaseLock h : Hook DB := setRestoreInProgress false h.

(** The synchronous part of the effect, run on mount and whenever [mixedId],
    [db], [navigate] or [searchParams] change. *)
Definition restoreEffect (mixedId : option string) h : Hook DB :=
  if restoreInProgress h then h
  else
    let h1 := setAutoStartInProgress false h in
    match db h1 with
    | None =>
        let h2 := setReady true h1 in
        if persistenceEnabled h2 then toast "Chat persistence is unavailable" h2
        else h2
    | Some _ =>
        if truthy mixedId
        then startQuerySequence (setRestoreInProgress true h1)
        else setReady true h1
    end.

(** The promise chain of one started restore, once
    [Promise.all([getMessages, getSnapshot])] has settled. *)
Definition settle (mixedId : string) (rewindId : option string) (o : Oracle) h
    : Hook DB :=
  match db h with
  | None => h
  | Some d =>
      onFinally
        match getMessages d mixedId, getSnapshot d mixedId with
        | Returned storedMessages, Returned snapshot =>
            onResolved mixedId rewindId o storedMessages snapshot h
        | Threw e, _ => onRejected e h
        | _, Threw e => onRejected e h
        end
  end.

(** What the hook returns as [ready]: [!mixedId || ready]. *)
Definition readyView (mixedId : option string) h : bool :=
  negb (truthy mixedId) || ready h.

End Local.
End Effect.

(** A freshly mounted hook over an open database. *)
Definition mounted {DB : Type} (d : DB) : Hook DB :=
  mkHook (Some d) true [] [] false None false false None None [] false 0 0 0 [].

End Coordinator.

(* ===================================================================== *)
(** ** [ProjectRestoreService.restoreProject]: one restore per project id *)
(* ===================================================================== *)

Module RestoreService.

(** [activeRestores] maps a project id to its pending restore promise; a
    promise is named by the number of the [_doRestoreProject] call that made
    it. *)
Record Service : Type := mkService {
  activeRestores : gmap string nat;
  restoresStarted : nat
}.

(** Returns the promise handed to the caller. *)
Definition restoreProject (projectId : string) (s : Service) : Service * nat :=
  match activeRestores s !! projectId with
  | Some existingRestore => (s, existingRestore)
  | None =>
      let restorePromise := S (restoresStarted s) in
      (mkService (<[projectId := restorePromise]> (activeRestores s)) restorePromise,
       restorePromise)
  end.

(** The [finally] callback of a restore promise. *)
Definition restoreSettled (projectId : string) (s : Service) : Service :=
  mkService (delete projectId (activeRestores s)) (restoresStarted s).

End RestoreService.

(* ===================================================================== *)
(** ** The periodic sync services *)
(* ===================================================================== *)

Module SyncAgent.
Import Js Model.

(** [JSON.stringify] at one type. *)
Class Serializer (A : Type) : Type := { stringify : A -> string }.

(** A [fetch(url, { method: 'POST', body })] the service issued. *)
Record Request : Type := mkRequest {
  url : string;
  body : string
}.

(** The fields both service classes hold; [World] is what the pull-based
    getter reads the current state from. *)
Record Service (World State : Type) : Type := mkService {
  projectId : option string;
  syncInterval : bool;
  lastSynced : string;
  stateGetter : option (World -> State)
}.

Arguments mkService {World State}.
Arguments projectId {World State}.
Arguments syncInterval {World State}.
Arguments lastSynced {World State}.
Arguments stateGetter {World State}.

Section Generic.
Context {World State Body : Type}.
Context {stateJson : Serializer State} {bodyJson : Serializer Body}.
Context (route : string) (toBody : State -> Body).
Implicit Type s : Service World State.

Definition endpoint (pid : string) : string :=
  "/api/projects/" +:+ pid +:+ "/" +:+ route.

Definition setLastSynced (json : string) s : Service World State :=
  mkService (projectId s) (syncInterval s) json (stateGetter s).

(** The body shared by [syncFiles] and [syncState]: the service after the
    call and the network writes it made. *)
Definition sync (response : Response) (w : World) s
    : Service World State * list Request :=
  match projectId s, stateGetter s with
  | Some pid, Some getState =>
      if truthyString pid then
        let state := getState w in
        let json := stringify state in
        if String.eqb json (lastSynced s) then (s, [])
        else
          let request := mkRequest (endpoint pid) (stringify (toBody state)) in
          match response with
          | RespOk => (setLastSynced json s, [request])
          | RespNotOk => (s, [request])
          | RespFailed => (s, [request])
          end
      else (s, [])
  | _, _ => (s, [])
  end.

(** [syncNow], the unload path: the same comparison, the write handed to
    [navigator.sendBeacon]; the last synced serialization is not touched. *)
Definition syncNow (w : World) s : list Request :=
  match projectId s, stateGetter s with
  | Some pid, Some getState =>
      if truthyString pid then
        let state := getState w in
        if String.eqb (stringify state) (lastSynced s) then []
        else [mkRequest (endpoint pid) (stringify (toBody state))]
      else []
  | _, _ => []
  end.

(** [forceSave]: forget the last synced serialization, then sync. *)
Definition forceSave (response : Response) (w : World) s
    : Service World State * list Request :=
  sync response w (setLastSynced "" s).

(** [start] binds the project and the getter, arms the interval and syncs. *)
Definition start (pid : string) (getState : World -> State) (response : Response)
    (w : World) s : Service World State * list Request :=
  sync response w (mkService (Some pid) true (lastSynced s) (Some getState)).

Definition stop s : Service World State :=
  mkService (projectId s) false (lastSynced s) (stateGetter s).

(** A service that [start] has bound to a project and a getter. *)
Definition started s (pid : string) (getState : World -> State) : Prop :=
  projectId s = Some pid /\ truthyString pid = true /\ stateGetter s = Some getState.

(** Two syncs in a row over the same world. *)
Definition syncTwice (r1 r2 : Response) (w : World) s
    : Service World State * list Request :=
  let first := sync r1 w s in
  let second := sync r2 w (fst first) in
  (fst second, snd first ++ snd second).

End Generic.

(** The new service object: [new FileSyncService()] and the like. *)
Definition fresh {World State : Type} : Service World State :=
  mkService None false "" None.

End SyncAgent.

(** [FileSyncService]: the state is the [FileMap], the body [{ files }]. *)
Module FileSyncService.
Import Js Model SyncAgent.

Record FilesBody : Type := mkFilesBody { body_files : FileMap }.

Definition syncFiles {World : Type} {filesJson : Serializer FileMap}
    {bodyJson : Serializer FilesBody}
    : Response -> World -> Service World FileMap ->
      Service World FileMap * list Request :=
  sync "files" mkFilesBody.

End FileSyncService.

(** [WorkbenchSyncService]: the state is [WorkbenchStateData], the body renames
    its fields. *)
Module WorkbenchSyncService.
Import Js Model SyncAgent.

Inductive View : Type := code | diff | preview.

Record WorkbenchStateData : Type := mkState {
  selectedFile : option string;
  openFiles : option (list string);
  currentView : option View;
  showWorkbench : option bool;
  terminalHistory : option (list string);
  previewUrls : option (list string)
}.

Record WorkbenchBody : Type := mkBody {
  selected_file : option string;
  open_files : option (list string);
  current_view : option View;
  show_workbench : option bool;
  terminal_history : option (list string);
  preview_urls : option (list string)
}.

Definition toBody (state : WorkbenchStateData) : WorkbenchBody :=
  mkBody (selectedFile state) (openFiles state) (currentView state)
         (showWorkbench state) (terminalHistory state) (previewUrls state).

Definition syncState {World : Type} {stateJson : Serializer WorkbenchStateData}
    {bodyJson : Serializer WorkbenchBody}
    : Response -> World -> Service World WorkbenchStateData ->
      Service World WorkbenchStateData * list Request :=
  sync "workbench" toBody.

End WorkbenchSyncService.

(* ===================================================================== *)
(** ** [storeMessageHistory] and [syncMessagesToSupabase] *)
(* ===================================================================== *)

Module MessageHistory.
Import Js Model Coordinator.

(** One element of the [messages] array posted to the messages route. *)
Record SyncedMessage : Type := mkSynced {
  sync_id : string;
  sync_role : Role;
  sync_content : string;
  sync_parts : option string;
  sync_toolCalls : option string;
  sync_annotations : option (list Annotation)
}.

Definition toSynced (msg : Message) : SyncedMessage :=
  mkSynced (id msg) (role msg) (content msg) (parts msg) (toolInvocations msg)
           (annotations msg).

(** The callback [(m) => !m.annotations?.includes('no-store')]. *)
Definition storable (m : Message) : bool := negb (includesTag "no-store" m).

(** What the operation reads from outside the hook: the workbench's first
    artifact, the ids the Local History Store hands out, the project id
    [ensureProject] resolves with ([null] on any failure), and the response
    of the messages route. *)
Record StoreOracle : Type := mkStoreOracle {
  firstArtifactId : option string;
  firstArtifactTitle : option string;
  urlIdFromStore : string;
  nextIdFromStore : string;
  ensuredProject : option string;
  messagesResponse : Response
}.

(** The effects of one call that the hook state does not record. *)
Record StoreEffects : Type := mkEffects {
  rejected : bool;
  snapshotTaken : option (string * option string);
  navigations : list string;
  remotePosts : list (string * list SyncedMessage);
  syncServicesStarted : option string
}.

Definition noEffects : StoreEffects := mkEffects false None [] [] None.

(** [syncMessagesToSupabase(chatId, urlId, messages)]: the posts it made and
    the project the sync services were started for. *)
Definition syncMessagesToSupabase (o : StoreOracle) (chatId : string)
    (urlId : option string) (messages : list Message)
    : list (string * list SyncedMessage) * option string :=
  match ensuredProject o with
  | Some projectId =>
      if truthyString projectId then
        let messagesToSync := map toSynced (filter (fun m => storable m = true) messages) in
        if (length messagesToSync =? 0)%nat then ([], None)
        else
          match messagesResponse o with
          | RespOk => ([(projectId, messagesToSync)], Some projectId)
          | RespNotOk => ([(projectId, messagesToSync)], None)
          | RespFailed => ([(projectId, messagesToSync)], None)
          end
      else ([], None)
  | None => ([], None)
  end.

(** [annotation[key]] of an object annotation. *)
Definition fieldOf (key : string) (a : Annotation) : option string :=
  match a with
  | Obj fields => snd <$> (snd <$> list_find (fun f => fst f = key) fields)
  | Tag _ => None
  end.

(** [annotation.type === t] *)
Definition hasType (t : string) (a : Annotation) : bool :=
  match fieldOf "type" a with
  | Some v => String.eqb v t
  | None => false
  end.

(** The [summary] of the first [chatSummary] annotation of the last message,
    when that is an assistant message. *)
Definition chatSummaryOf (lastMessage : Message) : option string :=
  match role lastMessage with
  | assistant =>
      match annotations lastMessage with
      | Some l =>
          match find (hasType "chatSummary") l with
          | Some a => fieldOf "summary" a
          | None => None
          end
      | None => None
      end
  | _ => None
  end.

Section Store.
Context {DB : Type} {store : LocalHistoryStore DB}.
Implicit Type h : Hook DB.

(** [storeMessageHistory(messages)]: the hook afterwards and the effects. *)
Definition storeMessageHistory (o : StoreOracle) (messages : list Message) h
    : Hook DB * StoreEffects :=
  match db h with
  | None => (h, noEffects)
  | Some d =>
      if (length messages =? 0)%nat then (h, noEffects)
      else
        let messages := filter (fun m => storable m = true) messages in
        let takesUrlId := negb (truthy (urlId h)) && truthy (firstArtifactId o) in
        let _urlId := if takesUrlId then Some (urlIdFromStore o) else urlId h in
        let nav1 := if takesUrlId then [urlIdFromStore o] else [] in
        let h1 := if takesUrlId then setUrlId (Some (urlIdFromStore o)) h else h in
        match last messages with
        | None =>
            (* [lastMessage.role] on [undefined] *)
            (h1, mkEffects true None nav1 [] None)
        | Some lastMessage =>
            let chatSummary := chatSummaryOf lastMessage in
            let snapshot :=
              if truthy (chatId h1) then Some (id lastMessage, chatSummary) else None in
            let h2 :=
              if negb (truthy (description h1)) && truthy (firstArtifactTitle o)
              then setDescription (firstArtifactTitle o) h1
              else h1 in
            let takesNextId :=
              (length (initialMessages h) =? 0)%nat && negb (truthy (chatId h2)) in
            let h3 := if takesNextId then setChatId (Some (nextIdFromStore o)) h2 else h2 in
            let nav2 :=
              if takesNextId && negb (truthy (urlId h))
              then nav1 ++ [nextIdFromStore o] else nav1 in
            match chatId h3 with
            | Some finalChatId =>
                if truthyString finalChatId then
                  let h4 := logSetMessages finalChatId (archived h ++ messages) h3 in
                  match setMessages d finalChatId (archived h ++ messages) (urlId h)
                          (description h3) with
                  | Returned d' =>
                      let remote := syncMessagesToSupabase o finalChatId _urlId messages in
                      (setDb d' h4,
                       mkEffects false snapshot nav2 (fst remote) (snd remote))
                  | Threw _ => (h4, mkEffects true snapshot nav2 [] None)
                  end
                else
                  (toast "Failed to save chat messages: Chat ID missing." h3,
                   mkEffects false snapshot nav2 [] None)
            | None =>
                (toast "Failed to save chat messages: Chat ID missing." h3,
                 mkEffects false snapshot nav2 [] None)
            end
        end
  end.

End Store.

End MessageHistory.

(* ===================================================================== *)
(** ** The files route and the project load route *)
(* ===================================================================== *)

Module FilesRoute.
Import Js Model.

(** One value of the posted [files] object. *)
Record FileData : Type := mkFileData {
  fd_type : string;
  fd_content : option string;
  fd_isBinary : option bool
}.

Inductive FileType : Type := text | binary.

(** A row handed to the upsert. *)
Record FileRow : Type := mkRow {
  project_id : string;
  file_path : string;
  row_content : option string;
  file_type : FileType;
  size_bytes : nat
}.

(** The columns of a stored row besides its key. *)
Record StoredFile : Type := mkStored {
  stored_content : option string;
  stored_type : FileType;
  stored_size : nat
}.

Record Project : Type := mkProject {
  proj_id : string;
  proj_url_id : string;
  clerk_user_id : string
}.

(** The two tables the handlers touch.  [project_files] has the unique key
    [(project_id, file_path)]. *)
Record Database : Type := mkDatabase {
  projects : list Project;
  project_files : gmap (string * string) StoredFile
}.

(** [.single()]: the row when exactly one matches. *)
Definition single {A : Type} (rows : list A) : option A :=
  match rows with
  | [row] => Some row
  | _ => None
  end.

Definition projectById (projectId userId : string) (db : Database) : option Project :=
  single (filter (fun p => proj_id p = projectId /\ clerk_user_id p = userId)
                 (projects db)).

Definition projectByUrlId (projectId userId : string) (db : Database) : option Project :=
  single (filter (fun p => proj_url_id p = projectId /\ clerk_user_id p = userId)
                 (projects db)).

(** [!fileData.isBinary] and [fileData.isBinary ? .. : ..] on an optional flag. *)
Definition isBinaryFlag (fileData : FileData) : bool :=
  match fd_isBinary fileData with
  | Some b => b
  | None => false
  end.

(** The [map] callback of the action. *)
Definition toRow (projectId : string) (entry : string * FileData) : FileRow :=
  let fileData := snd entry in
  mkRow projectId (fst entry)
        (if negb (isBinaryFlag fileData) then fd_content fileData else None)
        (if isBinaryFlag fileData then binary else text)
        (match fd_content fileData with
         | Some c => if truthyString c then String.length c else 0%nat
         | None => 0%nat
         end).

(** [Object.entries(body.files).filter(type === 'file').map(..)] *)
Definition filesToUpsert (projectId : string) (files : gmap string FileData)
    : list FileRow :=
  map (toRow projectId)
      (filter (fun entry => fd_type (snd entry) = "file") (map_to_list files)).

(** Modelled from the spec: the table's upsert, keyed on
    [(project_id, file_path)], which the database client performs; a row with
    an existing key replaces the stored one. *)
Definition upsert (rows : list FileRow) (table : gmap (string * string) StoredFile)
    : gmap (string * string) StoredFile :=
  foldl (fun t row =>
           <[(project_id row, file_path row) :=
               mkStored (row_content row) (file_type row) (size_bytes row)]> t)
        table rows.

Inductive ActionResult : Type :=
| Unauthorized
| NotFound
| NoFilesToSave
| Saved (count : nat)
| StorageError.

(** [POST /api/projects/:projectId/files]; [upsertFails] tells whether the
    database reports an error for the upsert. *)
Definition action (userId projectId : option string) (files : gmap string FileData)
    (upsertFails : bool) (db : Database) : ActionResult * Database :=
  match userId, projectId with
  | Some uid, Some pid =>
      if truthyString uid && truthyString pid then
        match projectById pid uid db with
        | None => (NotFound, db)
        | Some _ =>
            let rows := filesToUpsert pid files in
            if (length rows =? 0)%nat then (NoFilesToSave, db)
            else if upsertFails then (StorageError, db)
            else (Saved (length rows),
                  mkDatabase (projects db) (upsert rows (project_files db)))
        end
      else (Unauthorized, db)
  | _, _ => (Unauthorized, db)
  end.

(** The [forEach] callback of the load route. *)
Definition toDirent (file : StoredFile) : Dirent :=
  File (match stored_content file with
        | Some c => if truthyString c then c else ""
        | None => ""
        end)
       (match stored_type file with
        | binary => true
        | text => false
        end).

(** The rows of one project, as [(file_path, columns)]. *)
Definition filesOf (projectId : string) (table : gmap (string * string) StoredFile)
    : list (string * StoredFile) :=
  omap (fun row : (string * string) * StoredFile =>
          if decide (fst (fst row) = projectId)
          then Some (snd (fst row), snd row)
          else None)
       (map_to_list table).

(** [fileMap[file.file_path] = {...}] for every row. *)
Definition toFileMap (rows : list (string * StoredFile)) : gmap string Dirent :=
  foldl (fun fileMap row => <[fst row := toDirent (snd row)]> fileMap) ∅ rows.

Inductive LoadResult : Type :=
| LoadUnauthorized
| LoadNotFound
| Loaded (project : Project) (fileMap : gmap string Dirent).

(** [GET /api/projects/:projectId/load], its project and files part; the
    project is looked up by id first, then by url id.  [filesFail] tells
    whether the files query reports an error, in which case the file list is
    taken to be empty. *)
Definition loader (userId projectId : option string) (filesFail : bool)
    (db : Database) : LoadResult :=
  match userId, projectId with
  | Some uid, Some pid =>
      if truthyString uid && truthyString pid then
        match orElse (projectById pid uid db) (projectByUrlId pid uid db) with
        | None => LoadNotFound
        | Some project =>
            Loaded project
              (toFileMap (if filesFail then []
                          else filesOf (proj_id project) (project_files db)))
        end
      else LoadUnauthorized
  | _, _ => LoadUnauthorized
  end.

End FilesRoute.

(* ===================================================================== *)
(** ** Writing a file map into the sandbox *)
(* ===================================================================== *)

(** String operations the two sandbox writers apply to the keys. *)
Module Path.
Import Js.

Definition slash : ascii := ascii_of_nat 47.

(** [s.startsWith(p)] *)
Definition startsWith (s p : string) : bool := String.prefix p s.

(** [s] without its first [n] characters. *)
Fixpoint dropChars (n : nat) (s : string) : string :=
  match n, s with
  | S k, String _ rest => dropChars k rest
  | _, _ => s
  end.

(** [s.replace(p, '')] for a string pattern: the first occurrence of [p] is
    removed. *)
Fixpoint replaceFirst (p s : string) : string :=
  if String.prefix p s then dropChars (String.length p) s
  else
    match s with
    | EmptyString => EmptyString
    | String c rest => String c (replaceFirst p rest)
    end.

(** [s.replace(/^\/+/, '')] *)
Fixpoint stripLeadingSlashes (s : string) : string :=
  match s with
  | String c rest => if Ascii.eqb c slash then stripLeadingSlashes rest else s
  | EmptyString => EmptyString
  end.

(** [s.split('/')] *)
Fixpoint split (s : string) : list string :=
  match s with
  | EmptyString => [EmptyString]
  | String c rest =>
      if Ascii.eqb c slash then EmptyString :: split rest
      else
        match split rest with
        | segment :: segments => String c segment :: segments
        | [] => [String c EmptyString]
        end
  end.

(** [filePath.split('/').slice(0, -1).join('/')] *)
Definition parentDir (filePath : string) : string :=
  join "/" (slice (split filePath) 0 (-1)).

(** The key as [restoreSnapshot] turns it into a sandbox path: the working
    directory is removed when the key starts with it. *)
Definition snapshotPath (workdir key : string) : string :=
  stripLeadingSlashes
    (if startsWith key workdir then replaceFirst workdir key else key).

(** The key as [writeFilesToWebContainer] turns it into a sandbox path: the
    first occurrence of the working directory is removed, wherever it is. *)
Definition servicePath (workdir key : string) : string :=
  stripLeadingSlashes (replaceFirst workdir key).

End Path.

Module Sandbox.
Import Js Model Path.

(** A call on the sandbox's file system; [utf8] is false for the
    [undefined] encoding of binary files. *)
Inductive FsOp : Type :=
| Mkdir (path : string)
| WriteFile (path content : string) (utf8 : bool)
| ReadFile (path : string)
| Readdir (path : string).

(** The sandbox as the writers meet it: given the calls made so far, whether
    the next call rejects. *)
Definition Failures : Type := list FsOp -> FsOp -> bool.

(** The calls made, each with whether it succeeded. *)
Abbreviation Trace := (list (FsOp * bool)).

(** The successful writes of a trace, as [(path, content, utf8)]. *)
Definition written (trace : Trace) : list (string * string * bool) :=
  omap (fun call => match call with
                    | (WriteFile p c u, true) => Some (p, c, u)
                    | _ => None
                    end) trace.

Section Writer.
Context (normalize : string -> string) (fails : Failures).

(** The first loop: a [mkdir] for every folder entry whose path is not
    empty; a rejection is logged and the loop goes on. *)
Fixpoint createFolders (history : list FsOp) (entries : FileMap) : Trace :=
  match entries with
  | [] => []
  | (key, value) :: rest =>
      match value with
      | Some Folder =>
          let folderPath := normalize key in
          if truthyString folderPath then
            (Mkdir folderPath, negb (fails history (Mkdir folderPath)))
            :: createFolders (history ++ [Mkdir folderPath]) rest
          else createFolders history rest
      | _ => createFolders history rest
      end
  end.

(** The calls for one file entry with a non-empty path: the parent
    directory when there is one, then the write unless the [mkdir] rejected
    (both stand in one [try]). *)
Definition writeOne (history : list FsOp) (filePath content : string)
    (isBinary : bool) : Trace :=
  let dirPath := parentDir filePath in
  let write := WriteFile filePath content (negb isBinary) in
  if truthyString dirPath then
    if fails history (Mkdir dirPath) then [(Mkdir dirPath, false)]
    else [(Mkdir dirPath, true);
          (write, negb (fails (history ++ [Mkdir dirPath]) write))]
  else [(write, negb (fails history write))].

(** The second loop. *)
Fixpoint writeFiles (history : list FsOp) (entries : FileMap) : Trace :=
  match entries with
  | [] => []
  | (key, value) :: rest =>
      match value with
      | Some (File content isBinary) =>
          let filePath := normalize key in
          if truthyString filePath then
            let calls := writeOne history filePath content isBinary in
            calls ++ writeFiles (history ++ map fst calls) rest
          else writeFiles history rest
      | _ => writeFiles history rest
      end
  end.

(** Both loops and the closing check [verify]; the count is what the
    writers log as the number of files written. *)
Definition populate (verify : FsOp) (entries : FileMap) : Trace * nat :=
  let folders := createFolders [] entries in
  let files := writeFiles (map fst folders) entries in
  let history := map fst (folders ++ files) in
  (folders ++ files ++ [(verify, negb (fails history verify))],
   length (written files)).

End Writer.

(** [restoreSnapshot(id, snapshot)] of the chat history hook, once the
    sandbox has booted. *)
Definition restoreSnapshot (workdir : string) (fails : Failures)
    (snapshot : option Snapshot) : Trace * nat :=
  populate (snapshotPath workdir) fails (ReadFile "package.json")
           (match snapshot with Some s => files s | None => [] end).

(** [writeFilesToWebContainer(files)] of the restore service, once the
    sandbox has booted. *)
Definition writeFilesToWebContainer (workdir : string) (fails : Failures)
    (files : FileMap) : Trace * nat :=
  populate (servicePath workdir) fails (Readdir ".") files.

(** The file entries with a non-empty sandbox path, as the writes they ask
    for. *)
Definition wanted (normalize : string -> string) (entries : FileMap)
    : list (string * string * bool) :=
  omap (fun entry : string * option Dirent =>
          match snd entry with
          | Some (File c b) =>
              if truthyString (normalize (fst entry))
              then Some (normalize (fst entry), c, negb b)
              else None
          | _ => None
          end) entries.

(** The folder entries with a non-empty sandbox path. *)
Definition wantedFolders (normalize : string -> string) (entries : FileMap)
    : list string :=
  omap (fun entry : string * option Dirent =>
          match snd entry with
          | Some Folder =>
              if truthyString (normalize (fst entry))
              then Some (normalize (fst entry))
              else None
          | _ => None
          end) entries.

End Sandbox.

(* ===================================================================== *)
(** ** [ProjectRestoreService]: the remote restore itself *)
(* ===================================================================== *)

Module ProjectRestore.
Import Js Model Coordinator Sandbox.

Record ProjectInfo : Type := mkInfo {
  info_id : string;
  info_url_id : string;
  info_title : string;
  info_description : option string
}.

(** The [workbench] part of the load response; [show_workbench] is absent
    when it is not a boolean. *)
Record WorkbenchRow : Type := mkWorkbenchRow {
  row_selected_file : option string;
  row_open_files : list string;
  row_current_view : option WorkbenchSyncService.View;
  row_show_workbench : option bool;
  row_terminal_history : list string;
  row_preview_urls : list string
}.

Record ProjectData : Type := mkProjectData {
  data_project : ProjectInfo;
  data_messages : list Message;
  data_files : FileMap;
  data_workbench : option WorkbenchRow
}.

(** How [fetch('/api/projects/:id/load')] ends: an ok response with its
    body, another status, or a rejection of [fetch] or of the body parse. *)
Inductive LoadResponse : Type :=
| LoadOk (data : ProjectData)
| LoadStatus (status : nat)
| LoadRejected.

(** [loadProjectFromSupabase]: every failure becomes [null]. *)
Definition loadProjectFromSupabase (response : LoadResponse) : option ProjectData :=
  match response with
  | LoadOk data => Some data
  | LoadStatus _ => None
  | LoadRejected => None
  end.

(** The part of [workbenchStore] the service writes. *)
Record Workbench : Type := mkWorkbench {
  wb_files : FileMap;
  wb_documents : FileMap;
  wb_currentView : WorkbenchSyncService.View;
  wb_showWorkbench : bool;
  wb_selectedFile : option string
}.

(** The sandbox the service waits for: [None] when [await webcontainer]
    rejects, else its working directory and how its calls end. *)
Definition Boot : Type := option (string * Failures).

(** [restoreFiles(files)]: the store afterwards, the sandbox calls made, and
    whether it threw.  The store is written before the sandbox is. *)
Definition restoreFiles (boot : Boot) (files : FileMap) (wb : Workbench)
    : Workbench * Trace * bool :=
  if (length files =? 0)%nat then (wb, [], false)
  else
    let wb1 := mkWorkbench files files (wb_currentView wb) (wb_showWorkbench wb)
                           (wb_selectedFile wb) in
    match boot with
    | Some (workdir, fails) =>
        (wb1, fst (writeFilesToWebContainer workdir fails files), false)
    | None => (wb1, [], true)
    end.

(** [restoreWorkbenchState(workbenchData)] *)
Definition restoreWorkbenchState (workbenchData : option WorkbenchRow) (wb : Workbench)
    : Workbench :=
  match workbenchData with
  | None => wb
  | Some row =>
      mkWorkbench (wb_files wb) (wb_documents wb)
        (match row_current_view row with
         | Some view => view
         | None => wb_currentView wb
         end)
        (match row_show_workbench row with
         | Some show => show
         | None => wb_showWorkbench wb
         end)
        (if truthy (row_selected_file row) then row_selected_file row
         else wb_selectedFile wb)
  end.

(** What one [_doRestoreProject] leaves behind: its result ([null] on any
    failure: it never rejects), the store, the sandbox calls, and whether the
    auto-start timer was set. *)
Record Restored : Type := mkRestored {
  result : option RemoteData;
  workbench : Workbench;
  sandboxCalls : Trace;
  autoStartTimer : bool
}.

Definition doRestoreProject (response : LoadResponse) (boot : Boot) (wb : Workbench)
    : Restored :=
  match loadProjectFromSupabase response with
  | None => mkRestored None wb [] false
  | Some projectData =>
      match restoreFiles boot (data_files projectData) wb with
      | (wb1, calls, true) => mkRestored None wb1 calls false
      | (wb1, calls, false) =>
          mkRestored
            (Some (mkRemote (data_messages projectData)
                            (info_description (data_project projectData))
                            (info_url_id (data_project projectData))))
            (restoreWorkbenchState (data_workbench projectData) wb1)
            calls true
      end
  end.

(** The hook's oracle when the remote restore is this service. *)
Definition oracleOf (freshId : string) (sandbox : outcome unit) (r : Restored)
    : Oracle :=
  mkOracle freshId sandbox (Returned (result r)).

End ProjectRestore.

(* ===================================================================== *)
(** ** The projects route *)
(* ===================================================================== *)

Module ProjectsRoute.
Import Js Model.

Record ProjectRow : Type := mkProjectRow {
  p_id : string;
  p_clerk_user_id : string;
  p_url_id : string;
  p_title : string;
  p_description : option string;
  p_last_opened_at : nat
}.

Inductive Result : Type :=
| Unauthorized
| BadRequest (message : string)
| Existed (project : ProjectRow)
| Created (project : ProjectRow)
| Deleted
| StorageError.

(** [.single()] *)
Definition single {A : Type} (rows : list A) : option A :=
  match rows with
  | [row] => Some row
  | _ => None
  end.

(** [update({ last_opened_at }).eq('id', id)] *)
Definition touch (projectId : string) (now : nat) (table : list ProjectRow)
    : list ProjectRow :=
  map (fun p => if String.eqb (p_id p) projectId
                then mkProjectRow (p_id p) (p_clerk_user_id p) (p_url_id p) (p_title p)
                                  (p_description p) now
                else p) table.

(** The constraints of the [projects] table that an insert meets: the
    primary key [id] and [url_id UNIQUE]. *)
Definition insertable (row : ProjectRow) (table : list ProjectRow) : bool :=
  forallb (fun p => negb (String.eqb (p_id p) (p_id row))
                    && negb (String.eqb (p_url_id p) (p_url_id row))) table.

(** [intent: 'create']; [freshId] is the id the database generates, [now]
    its clock. *)
Definition create (userId url_id title description : option string)
    (freshId : string) (now : nat) (table : list ProjectRow)
    : Result * list ProjectRow :=
  match userId with
  | Some uid =>
      if truthyString uid then
        match url_id with
        | Some u =>
            if truthyString u then
              match single (filter (fun p => p_url_id p = u /\ p_clerk_user_id p = uid)
                                   table) with
              | Some existing =>
                  let table' := touch (p_id existing) now table in
                  match single (filter (fun p => p_id p = p_id existing) table') with
                  | Some data => (Existed data, table')
                  | None => (StorageError, table')
                  end
              | None =>
                  let row := mkProjectRow freshId uid u
                               (if truthy title then default "" title
                                else "Untitled Project")
                               description now in
                  if insertable row table then (Created row, table ++ [row])
                  else (StorageError, table)
              end
            else (BadRequest "url_id is required", table)
        | None => (BadRequest "url_id is required", table)
        end
      else (Unauthorized, table)
  | None => (Unauthorized, table)
  end.

(** [intent: 'delete']: the rows with this id owned by the caller go.
    [deleteFails] tells whether the database client reports an error (as it
    does for a [project_id] that is not a UUID, the type of [id]); the
    statement then removes nothing. *)
Definition delete (userId project_id : option string) (deleteFails : bool)
    (table : list ProjectRow) : Result * list ProjectRow :=
  match userId with
  | Some uid =>
      if truthyString uid then
        match project_id with
        | Some pid =>
            if truthyString pid then
              if deleteFails then (StorageError, table)
              else
                (Deleted,
                 filter (fun p => ~ (p_id p = pid /\ p_clerk_user_id p = uid)) table)
            else (BadRequest "project_id is required", table)
        | None => (BadRequest "project_id is required", table)
        end
      else (Unauthorized, table)
  | None => (Unauthorized, table)
  end.

(** [ensureProject] of the chat history hook, on the route's answer: the
    project's id, [null] for every other answer. *)
Definition ensureProject (answer : Result) : option string :=
  match answer with
  | Existed project => if truthyString (p_id project) then Some (p_id project) else None
  | Created project => if truthyString (p_id project) then Some (p_id project) else None
  | _ => None
  end.

End ProjectsRoute.

(* ===================================================================== *)
(** ** The messages route and the messages of the load route *)
(* ===================================================================== *)

Module MessagesRoute.
Import Js Model MessageHistory.

(** The columns of a [chat_messages] row besides its key
    [(project_id, message_id)]. *)
Record MessageRow : Type := mkMessageRow {
  m_role : Role;
  m_content : string;
  m_parts : option string;
  m_tool_calls : option string;
  m_annotations : option (list Annotation)
}.

Record Database : Type := mkDatabase {
  projects : list FilesRoute.Project;
  chat_messages : gmap (string * string) MessageRow
}.

(** The [map] callback of the action. *)
Definition toRow (msg : SyncedMessage) : MessageRow :=
  mkMessageRow (sync_role msg) (sync_content msg) (sync_parts msg)
               (sync_toolCalls msg) (sync_annotations msg).

(** Modelled from the spec: the table's upsert on
    [(project_id, message_id)], performed by the database client. *)
Definition upsert (projectId : string) (messages : list SyncedMessage)
    (table : gmap (string * string) MessageRow) : gmap (string * string) MessageRow :=
  foldl (fun t msg => <[(projectId, sync_id msg) := toRow msg]> t) table messages.

Inductive ActionResult : Type :=
| Unauthorized
| NotFound
| Saved (count : nat)
| StorageError.

(** [POST /api/projects/:projectId/messages] *)
Definition action (userId projectId : option string) (messages : list SyncedMessage)
    (upsertFails : bool) (db : Database) : ActionResult * Database :=
  match userId, projectId with
  | Some uid, Some pid =>
      if truthyString uid && truthyString pid then
        match FilesRoute.single
                (filter (fun p => FilesRoute.proj_id p = pid /\
                                  FilesRoute.clerk_user_id p = uid) (projects db)) with
        | None => (NotFound, db)
        | Some _ =>
            if upsertFails then (StorageError, db)
            else (Saved (length messages),
                  mkDatabase (projects db) (upsert pid messages (chat_messages db)))
        end
      else (Unauthorized, db)
  | _, _ => (Unauthorized, db)
  end.

(** The [map] callback of the load route: a stored row as a message. *)
Definition toMessage (message_id : string) (row : MessageRow) : Message :=
  mkMessage message_id (m_role row) (m_content row) (m_parts row) (m_tool_calls row)
            (m_annotations row).

(** The messages the load route returns for a project.  The route orders
    them by [created_at], a column this table does not carry: the order of
    the list here is the table's key order, and nothing is stated about
    it. *)
Definition transformedMessages (projectId : string)
    (table : gmap (string * string) MessageRow) : list Message :=
  omap (fun row : (string * string) * MessageRow =>
          if decide (fst (fst row) = projectId)
          then Some (toMessage (snd (fst row)) (snd row))
          else None)
       (map_to_list table).

End MessagesRoute.

(* ===================================================================== *)
(** ** The promise chain with a command detection that may reject *)
(* ===================================================================== *)

Module RestoreWindow.
Import Js Model Reconciler Coordinator.

Section Window.
Context {DB : Type} {store : LocalHistoryStore DB} {detector : CommandDetector}.
Implicit Type h : Hook DB.



End Window.

End RestoreWindow.

(* ===================================================================== *)
(** ** Concrete collaborators used to run the definitions *)
(* ===================================================================== *)

Module Samples.
Import Js Model Reconciler Coordinator.

(** A detector that finds no command. *)
Definition noCommands : CommandDetector :=
  {| detectProjectCommands := fun _ => mkCommands None None;
     createCommandActionsString := fun _ => "" |}.

(** Modelled from the spec: the Local History Store of [./db], a persistent
    key/value store of chat records keyed by chat identifier, with one
    snapshot per chat.  [getMessages] tries the id, then the url id. *)
Record MemoryStore : Type := mkStore {
  chats : gmap string ChatHistoryItem;
  snapshots : gmap string Snapshot
}.

Definition byUrlId (u : string) (s : MemoryStore) : option ChatHistoryItem :=
  snd <$> (snd <$> list_find (fun kv => chat_urlId (snd kv) = Some u)
                             (map_to_list (chats s))).

Definition memoryStore : LocalHistoryStore MemoryStore :=
  {| getMessages := fun s i => Returned (orElse (chats s !! i) (byUrlId i s));
     getSnapshot := fun s i => Returned (snapshots s !! i);
     getMessagesById := fun s i => Returned (chats s !! i);
     getMessagesByUrlId := fun s u => Returned (byUrlId u s);
     setMessages := fun s i messages u d =>
       Returned (mkStore (<[i := mkChat i u d messages]> (chats s)) (snapshots s)) |}.

(** A Local History Store whose reads reject (a failing transaction). *)
Definition brokenStore : LocalHistoryStore unit :=
  {| getMessages := fun _ _ => Threw "transaction failed";
     getSnapshot := fun _ _ => Threw "transaction failed";
     getMessagesById := fun _ _ => Threw "transaction failed";
     getMessagesByUrlId := fun _ _ => Threw "transaction failed";
     setMessages := fun _ _ _ _ _ => Threw "transaction failed" |}.

Definition msg (i : string) : Message := mkMessage i user i None None None.

Definition noStoreMsg (i : string) : Message :=
  mkMessage i assistant i None None (Some [Tag "no-store"]).

(** The logs of the worked examples. *)
Definition log1 : list Message := [msg "a"].
Definition log3 : list Message := [msg "m0"; msg "m1"; msg "m2"].
Definition log4 : list Message := [msg "m0"; msg "m1"; msg "m2"; msg "m3"].
Definition logEmptyId : list Message := [msg "a"; msg ""; msg "b"].

Definition snapshotAt (i : string) : Snapshot :=
  mkSnapshot i [("a.txt", Some (File "hi" false)); ("src", Some Folder)] None.

Definition quietOracle : Oracle := mkOracle "fresh" (Returned tt) (Returned None).

Definition remoteOracle : Oracle :=
  mkOracle "fresh" (Returned tt)
           (Returned (Some (mkRemote [msg "r0"; msg "r1"] None "url-7"))).

(** Local stores holding chat ["7"]: without messages, and with one. *)
Definition storeWithEmptyChat : MemoryStore :=
  mkStore {[ "7" := mkChat "7" None None [] ]} ∅.

Definition storeWithChat : MemoryStore :=
  mkStore {[ "7" := mkChat "7" (Some "url-7") None [msg "old"] ]} ∅.

Definition openChat : Hook MemoryStore :=
  setChatId (Some "7") (mounted storeWithChat).

Definition storeOracle : MessageHistory.StoreOracle :=
  MessageHistory.mkStoreOracle None None "url-new" "8" (Some "project-1") RespOk.

(** [JSON.stringify] stand-ins (the serialization only has to tell states
    apart) and sync services started for project ["p"]; the world is a
    counter. *)
Definition filesJson : SyncAgent.Serializer FileMap :=
  {| SyncAgent.stringify := fun fm => "{" +:+ join "," (map fst fm) +:+ "}" |}.

Definition filesBodyJson : SyncAgent.Serializer FileSyncService.FilesBody :=
  {| SyncAgent.stringify := fun b =>
       "{files:{" +:+ join "," (map fst (FileSyncService.body_files b)) +:+ "}}" |}.

Definition stateJson : SyncAgent.Serializer WorkbenchSyncService.WorkbenchStateData :=
  {| SyncAgent.stringify := fun st =>
       "{selectedFile:" +:+ default "null" (WorkbenchSyncService.selectedFile st) +:+ "}" |}.

Definition stateBodyJson : SyncAgent.Serializer WorkbenchSyncService.WorkbenchBody :=
  {| SyncAgent.stringify := fun b =>
       "{selected_file:" +:+ default "null" (WorkbenchSyncService.selected_file b) +:+ "}" |}.

Definition someFiles (w : nat) : FileMap := [("a.txt", Some (File "hi" false))].

Definition someState (w : nat) : WorkbenchSyncService.WorkbenchStateData :=
  WorkbenchSyncService.mkState (Some "a.txt") None None None None None.

Definition fileService : SyncAgent.Service nat FileMap :=
  SyncAgent.mkService (Some "p") true "" (Some someFiles).

Definition workbenchService : SyncAgent.Service nat WorkbenchSyncService.WorkbenchStateData :=
  SyncAgent.mkService (Some "p") true "" (Some someState).

(** A database with one project and a posted file map with a binary file, a
    text file and a folder. *)
Definition oneProject : FilesRoute.Database :=
  FilesRoute.mkDatabase [FilesRoute.mkProject "p1" "url-1" "u1"] ∅.

Definition postedFiles : gmap string FilesRoute.FileData :=
  {[ "logo.png" := FilesRoute.mkFileData "file" (Some "iVBORw0KGgo") (Some true);
     "index.js" := FilesRoute.mkFileData "file" (Some "let x") None;
     "src" := FilesRoute.mkFileData "folder" None None ]}.

End Samples.

(** ** Further concrete inputs *)

Module MoreSamples.
Import Js Model Reconciler Coordinator Samples.

(** A hook whose database is not available. *)
Definition withoutDatabase : Hook MemoryStore :=
  mkHook None true [] [] false None false false None None [] false 0 0 0 [].

(** A Local History Store that keeps the messages of each chat only. *)
Definition logStore : LocalHistoryStore (gmap string (list Message)) :=
  {| getMessages := fun s i => Returned (mkChat i None None <$> s !! i);
     getSnapshot := fun _ _ => Returned None;
     getMessagesById := fun s i => Returned (mkChat i None None <$> s !! i);
     getMessagesByUrlId := fun _ _ => Returned None;
     setMessages := fun s i messages _ _ => Returned (<[i := messages]> s) |}.

(** A file service that has synced the files of [someFiles]. *)
Definition syncedFileService : SyncAgent.Service nat FileMap :=
  SyncAgent.mkService (Some "p") true "{a.txt}" (Some someFiles).

(** A remote project with two files and no message. *)
Definition filesOnlyProject : ProjectRestore.ProjectData :=
  ProjectRestore.mkProjectData
    (ProjectRestore.mkInfo "p1" "url-1" "Untitled Project" None)
    []
    [("/home/project/src", Some Folder);
     ("/home/project/src/a.txt", Some (File "hi" false))]
    None.

Definition emptyWorkbench : ProjectRestore.Workbench :=
  ProjectRestore.mkWorkbench [] [] WorkbenchSyncService.code false None.

Definition ownProject : ProjectsRoute.ProjectRow :=
  ProjectsRoute.mkProjectRow "id-1" "u1" "url-1" "Untitled Project" None 5.

(** A project whose id is a UUID, owned by user [u1]. *)
Definition uuidProject : ProjectsRoute.ProjectRow :=
  ProjectsRoute.mkProjectRow "3f2a9c1e-5b7d-4e21-9a60-0c4d8e7f1b23" "u1" "url-1"
                             "Untitled Project" None 5.



Definition messagesDb : MessagesRoute.Database :=
  MessagesRoute.mkDatabase [FilesRoute.mkProject "p1" "url-1" "u1"] ∅.

Definition mixedLog : list Message := [msg "a"; noStoreMsg "b"; msg "c"].

End MoreSamples.

(* ===================================================================== *)
(** * Properties *)
(* ===================================================================== *)

(** ** Array primitives *)

Section JsFacts.
Import Js.
Context {A : Type}.
Implicit Types (p : A -> bool) (l : list A).

Lemma findIndexFrom_range p l i :
  findIndexFrom p l i = -1 \/
  (i <= findIndexFrom p l i < i + Z.of_nat (length l)).
Proof.
  revert i. induction l as [|x rest IH]; intros i; simpl.
  - now left.
  - destruct (p x).
    + right. lia.
    + destruct (IH (i + 1)) as [H | H]; [now left | right; lia].
Qed.

Lemma findIndexFrom_lookup p l i :
  0 <= i -> i <= findIndexFrom p l i ->
  exists x, l !! Z.to_nat (findIndexFrom p l i - i) = Some x /\ p x = true.
Proof.
  revert i. induction l as [|x rest IH]; intros i Hi Hfound; simpl in *.
  - lia.
  - destruct (p x) eqn:Hp.
    + exists x. replace (i - i) with 0 by lia. now split.
    + destruct (findIndexFrom_range p rest (i + 1)) as [Hnone | Hin]; [lia |].
      destruct (IH (i + 1)) as (y & Hy & Hpy); [lia | lia |].
      exists y. split; [| exact Hpy].
      replace (Z.to_nat (findIndexFrom p rest (i + 1) - i))
        with (S (Z.to_nat (findIndexFrom p rest (i + 1) - (i + 1)))) by lia.
      exact Hy.
Qed.

Lemma findIndex_range p l :
  findIndex p l = -1 \/ (0 <= findIndex p l < Z.of_nat (length l)).
Proof. unfold findIndex. destruct (findIndexFrom_range p l 0); [now left | right; lia]. Qed.

Lemma findIndex_lookup p l :
  0 <= findIndex p l ->
  exists x, l !! Z.to_nat (findIndex p l) = Some x /\ p x = true.
Proof.
  intros H. unfold findIndex in *.
  destruct (findIndexFrom_lookup p l 0) as (x & Hx & Hp); [lia | lia |].
  exists x. now rewrite Z.sub_0_r in Hx.
Qed.

Lemma findIndexFrom_absent p l i :
  (forall x, In x l -> p x = false) -> findIndexFrom p l i = -1.
Proof.
  revert i. induction l as [|x rest IH]; intros i Hall; simpl; [reflexivity |].
  rewrite (Hall x) by now left.
  apply IH. intros y Hy. apply Hall. now right.
Qed.

Lemma findIndex_absent p l :
  (forall x, In x l -> p x = false) -> findIndex p l = -1.
Proof. apply findIndexFrom_absent. Qed.

Lemma slice_prefix l n :
  0 <= n -> slice l 0 n = take (Z.to_nat n) l.
Proof.
  intros Hn. unfold slice, relativeIndex.
  replace (0 <? 0) with false by reflexivity.
  destruct (n <? 0) eqn:Hneg; [apply Z.ltb_lt in Hneg; lia |].
  rewrite (Z.min_l 0) by lia. simpl. rewrite drop_0.
  destruct (Z.min_spec n (Z.of_nat (length l))) as [[_ ->] | [Hle ->]].
  - now rewrite Z.sub_0_r.
  - rewrite Z.sub_0_r, Nat2Z.id, !take_ge by lia. reflexivity.
Qed.

Lemma slice_suffix l k :
  0 <= k -> slice l k (Z.of_nat (length l)) = drop (Z.to_nat k) l.
Proof.
  intros Hk. unfold slice, relativeIndex.
  destruct (k <? 0) eqn:Hneg; [apply Z.ltb_lt in Hneg; lia |].
  destruct (Z.of_nat (length l) <? 0) eqn:Hlen; [apply Z.ltb_lt in Hlen; lia |].
  rewrite (Z.min_l (Z.of_nat (length l))) by lia.
  destruct (Z.min_spec k (Z.of_nat (length l))) as [[_ ->] | [Hle ->]].
  - apply take_ge. rewrite length_drop. lia.
  - rewrite Nat2Z.id, drop_ge by lia. rewrite Z.sub_diag. simpl.
    rewrite drop_ge by lia. reflexivity.
Qed.

Lemma slice_empty l : slice l 0 0 = [].
Proof. rewrite slice_prefix by lia. apply take_0. Qed.

End JsFacts.

(** ** Strings: what it means for a text to embed another *)

Section StringFacts.
Import Js.

Lemma append_assoc (a b c : string) : (a +:+ b) +:+ c = a +:+ b +:+ c.
Proof.
  induction a as [|ch a IH]; [reflexivity |].
  change (String ch ((a +:+ b) +:+ c) = String ch (a +:+ b +:+ c)).
  f_equal. exact IH.
Qed.







End StringFacts.

(** ** The snapshot reconciliation *)

Section ReconcilerFacts.
Import Js Model Reconciler.
Context {detector : CommandDetector}.
Implicit Types (messages : list Message) (snapshot : option Snapshot)
               (rewindId : option string).

Lemma hasId_true i m : hasId i m = true <-> id m = i.
Proof. unfold hasId. apply String.eqb_eq. Qed.

(** A snapshot index that was found points at the message whose id is the
    snapshot's [chatIndex]: the reads of [messages[snapshotIndex].id] never
    meet [undefined]. *)
Lemma idAt_snapshotIndex messages snapshot :
  0 <= snapshotIndex messages snapshot ->
  idAt messages (snapshotIndex messages snapshot)
  = Some (chatIndex (validSnapshot snapshot)).
Proof.
  intros H. unfold snapshotIndex in *.
  destruct (findIndex_lookup _ _ H) as (m & Hm & Hp).
  unfold idAt. rewrite Hm. simpl. f_equal. now apply hasId_true.
Qed.

Lemma snapshotIndex_range messages snapshot :
  snapshotIndex messages snapshot = -1 \/
  0 <= snapshotIndex messages snapshot < Z.of_nat (length messages).
Proof. apply findIndex_range. Qed.

Lemma startingIdx_cases messages snapshot rewindId :
  startingIdx messages snapshot rewindId = -1 \/
  (startingIdx messages snapshot rewindId = snapshotIndex messages snapshot /\
   0 <= snapshotIndex messages snapshot < endingIdx messages rewindId).
Proof.
  unfold startingIdx.
  destruct (_ && match idAt _ _ with Some _ => _ | None => _ end); [now left |].
  destruct (0 <=? snapshotIndex messages snapshot) eqn:H0; simpl; [| now left].
  destruct (snapshotIndex messages snapshot <? endingIdx messages rewindId) eqn:H1;
    [| now left].
  right. apply Z.leb_le in H0. apply Z.ltb_lt in H1. lia.
Qed.

Lemma endingIdx_absent messages rewindId :
  truthy rewindId = false -> endingIdx messages rewindId = Z.of_nat (length messages).
Proof.
  unfold endingIdx, truthy. destruct rewindId as [r|]; [| reflexivity].
  now intros ->.
Qed.

(** Without truncation the two parts of the log are complementary. *)
Lemma archived_filtered messages snapshot rewindId :
  truthy rewindId = false ->
  archivedMessages messages snapshot rewindId
  ++ filteredMessages messages snapshot rewindId = messages.
Proof.
  intros Habs. unfold archivedMessages, filteredMessages.
  rewrite (endingIdx_absent _ _ Habs).
  destruct (startingIdx_cases messages snapshot rewindId) as [-> | [-> Hr]].
  - simpl. rewrite slice_suffix by lia. apply drop_0.
  - rewrite (endingIdx_absent _ _ Habs) in Hr.
    destruct (0 <=? snapshotIndex messages snapshot) eqn:H0;
      [| apply Z.leb_gt in H0; lia].
    rewrite slice_prefix, slice_suffix by lia. apply take_drop.
Qed.

End ReconcilerFacts.

Section ReconcilerClaims.
Import Js Model Reconciler.
Context {detector : CommandDetector}.
Implicit Types (messages : list Message) (snapshot : option Snapshot)
               (rewindId : option string).

(** C1 (as amended).  When the rewind target is a non-empty identifier, the
    snapshot's [chatIndex] resolves to a log position [snapshotIndex > 0],
    and the message at that position is the rewind target
    ([messages[snapshotIndex].id == rewindId]), then [startingIdx] is forced
    to [-1], [archivedMessages] is empty, no replay message is synthesized,
    and the visible messages are the log prefix up to and including the
    rewind target. *)
Theorem rewind_to_snapshot_override freshId messages snapshot rewindId :
  truthy rewindId = true ->
  0 < snapshotIndex messages snapshot ->
  (exists i, idAt messages (snapshotIndex messages snapshot) = Some i /\
             looseEq i rewindId = true) ->
  startingIdx messages snapshot rewindId = -1 /\
  archivedMessages messages snapshot rewindId = [] /\
  replayMessages freshId messages snapshot rewindId = [] /\
  visibleMessages freshId messages snapshot rewindId
  = take (S (Z.to_nat (snapshotIndex messages snapshot))) messages.
Proof.
  intros Htruthy Hpos (i & Hat & Heq).
  assert (Hstart : startingIdx messages snapshot rewindId = -1).
  { unfold startingIdx. rewrite Hat, Heq.
    apply Z.ltb_lt in Hpos. now rewrite Hpos. }
  assert (Hend : endingIdx messages rewindId = snapshotIndex messages snapshot + 1).
  { destruct rewindId as [r|]; [| discriminate]. simpl in Heq, Htruthy.
    apply String.eqb_eq in Heq. subst r.
    rewrite idAt_snapshotIndex in Hat by lia. injection Hat as Hi.
    unfold endingIdx. rewrite Htruthy. unfold snapshotIndex. now rewrite Hi. }
  unfold visibleMessages, replayMessages, archivedMessages, filteredMessages.
  rewrite Hstart, Hend. simpl.
  repeat split.
  rewrite slice_prefix by lia. f_equal. lia.
Qed.


(** C5.  Without a rewind target ([endingIdx] is the log length, nothing is
    truncated), the archived messages followed by the visible messages
    minus the synthesized leading entries are exactly the original log. *)
Theorem reconstruction_identity freshId messages snapshot :
  endingIdx messages None = Z.of_nat (length messages) /\
  archivedMessages messages snapshot None
  ++ drop (length (replayMessages freshId messages snapshot None))
          (visibleMessages freshId messages snapshot None)
  = messages.
Proof.
  split; [reflexivity |].
  unfold visibleMessages. rewrite drop_app_length.
  now apply archived_filtered.
Qed.

(** C9 (as amended).  For a non-empty stored log and a non-empty rewind
    target identifier that occurs nowhere in the log, [endingIdx] is [0] and
    [startingIdx] is [-1], so both the visible and the archived messages are
    empty. *)
Theorem unknown_rewind_target_empties freshId messages snapshot r :
  messages <> [] ->
  truthyString r = true ->
  (forall m, In m messages -> id m <> r) ->
  endingIdx messages (Some r) = 0 /\
  startingIdx messages snapshot (Some r) = -1 /\
  visibleMessages freshId messages snapshot (Some r) = [] /\
  archivedMessages messages snapshot (Some r) = [].
Proof.
  intros _ Htruthy Habsent.
  assert (Hend : endingIdx messages (Some r) = 0).
  { unfold endingIdx. rewrite Htruthy, findIndex_absent; [reflexivity |].
    intros m Hm. apply String.eqb_neq. now apply Habsent. }
  assert (Hstart : startingIdx messages snapshot (Some r) = -1).
  { destruct (startingIdx_cases messages snapshot (Some r)) as [H | [_ H]]; [exact H | lia]. }
  unfold visibleMessages, replayMessages, archivedMessages, filteredMessages.
  rewrite Hstart, Hend. simpl. repeat split. apply slice_empty.
Qed.

End ReconcilerClaims.

(** ** The restore coordination *)

Section CoordinatorFacts.
Import Js Model Reconciler Coordinator.
Context {DB : Type} {store : LocalHistoryStore DB} {detector : CommandDetector}.
Implicit Type h : Hook DB.


Lemma restoreEffect_starts mixedId h d :
  db h = Some d -> truthy mixedId = true -> restoreInProgress h = false ->
  restoreInProgress (restoreEffect mixedId h) = true /\
  querySequences (restoreEffect mixedId h) = S (querySequences h) /\
  ready (restoreEffect mixedId h) = ready h /\
  db (restoreEffect mixedId h) = db h.
Proof.
  intros Hdb Hid Hlock. unfold restoreEffect. rewrite Hlock. simpl.
  rewrite Hdb, Hid. simpl. now rewrite Hdb.
Qed.


(** Every path through the [.then] handler ends in [setReady(true)]: a
    remote restore that throws, a project missing remotely and a sandbox
    that cannot be written all still make the hook ready. *)
Lemma onResolved_ready mixedId rewindId o storedMessages snapshot h :
  ready (onResolved mixedId rewindId o storedMessages snapshot h) = true.
Proof. reflexivity. Qed.

Lemma onRejected_ready message h : ready (onRejected message h) = ready h.
Proof. reflexivity. Qed.

(** A restore whose reads resolve and whose sandbox write does not fail
    keeps the lock it took: only the timer releases it. *)
Lemma settle_keeps_lock mixedId rewindId o d storedMessages snapshot h :
  db h = Some d ->
  getMessages d mixedId = Returned storedMessages ->
  getSnapshot d mixedId = Returned snapshot ->
  sandboxRestore o = Returned tt ->
  restoreInProgress (settle mixedId rewindId o h) = restoreInProgress h /\
  querySequences (settle mixedId rewindId o h) = querySequences h /\
  ready (settle mixedId rewindId o h) = true.
Proof.
  intros Hdb Hm Hs Hsandbox. unfold settle. rewrite Hdb, Hm, Hs.
  unfold onFinally, onResolved, restoreFromLocal, restoreFromRemote, writeBack.
  rewrite Hsandbox.
  repeat case_match; simpl; auto.
Qed.

(** The hook gets ready through the chain exactly when the reads resolve. *)
Lemma settle_ready mixedId rewindId o d h :
  db h = Some d ->
  ready h = false ->
  ready (settle mixedId rewindId o h) = true <->
  (exists storedMessages snapshot,
      getMessages d mixedId = Returned storedMessages /\
      getSnapshot d mixedId = Returned snapshot).
Proof.
  intros Hdb Hready. unfold settle. rewrite Hdb.
  destruct (getMessages d mixedId) as [sm | e];
    destruct (getSnapshot d mixedId) as [sn | e']; simpl; rewrite ?Hready.
  - split; eauto.
  - split; [discriminate | intros (? & ? & _ & ?); discriminate].
  - split; [discriminate | intros (? & ? & ? & _); discriminate].
  - split; [discriminate | intros (? & ? & ? & _); discriminate].
Qed.

Lemma list_neq_snoc {X : Type} (l : list X) (x : X) : l <> l ++ [x].
Proof.
  intros H. apply (f_equal (@length X)) in H. rewrite length_app in H. simpl in H. lia.
Qed.

End CoordinatorFacts.

Section WindowFacts.
Import Js Model Reconciler Coordinator RestoreWindow.
Context {DB : Type} {store : LocalHistoryStore DB} {detector : CommandDetector}.
Implicit Type h : Hook DB.






End WindowFacts.

Section CoordinatorClaims.
Import Js Model Reconciler Coordinator RestoreWindow.
Context {DB : Type} {store : LocalHistoryStore DB} {detector : CommandDetector}.
Implicit Type h : Hook DB.

(** C3 (the code at the failing input).  When the read of the Local History
    Store rejects, the chain runs the [.catch] handler, which never calls
    [setReady]: a hook that was not ready stays not ready, also after the
    lock timer has fired, although the session has an identifier. *)
Theorem failed_local_read_never_ready mixedId rewindId o message d h :
  db h = Some d ->
  truthyString mixedId = true ->
  restoreInProgress h = false ->
  ready h = false ->
  getMessages d mixedId = Threw message ->
  ready (settle mixedId rewindId o (restoreEffect (Some mixedId) h)) = false /\
  readyView (Some mixedId)
    (releaseLock (settle mixedId rewindId o (restoreEffect (Some mixedId) h))) = false /\
  toasts (settle mixedId rewindId o (restoreEffect (Some mixedId) h))
  = toasts h ++ ["Failed to load chat: " +:+ message].
Proof.
  intros Hdb Hid Hlock Hready Hread.
  destruct (restoreEffect_starts (Some mixedId) h d Hdb Hid Hlock)
    as (_ & _ & Hr & Hd).
  unfold settle. rewrite Hd, Hdb, Hread. unfold readyView. simpl.
  rewrite Hid, Hr, Hready. repeat split.
  unfold restoreEffect. rewrite Hlock. simpl. rewrite Hdb. simpl. now rewrite Hid.
Qed.


(** C6 (as amended).  After a successful remote fallback restore the
    fetched messages are written back exactly when the lookup by chat
    identifier, or failing that by url-identifier, finds no record or finds
    one that holds no messages.  When it finds a record with messages,
    nothing is written, the store is left as it was, and that record's
    identifier is the current chat identifier. *)
Theorem write_back_condition mixedId o data d existingById existingByUrlId h :
  db h = Some d ->
  remoteRestore o = Returned (Some data) ->
  remote_messages data <> [] ->
  getMessagesById d mixedId = Returned existingById ->
  (if truthyString (remote_urlId data)
   then getMessagesByUrlId d (remote_urlId data)
   else Returned None) = Returned existingByUrlId ->
  let existingChat := orElse existingById existingByUrlId in
  let h' := restoreFromRemote mixedId o h in
  initialMessages h' = remote_messages data /\
  (setMessagesCalls h' = setMessagesCalls h ++ [(mixedId, remote_messages data)]
   <-> (existingChat = None \/
        exists c, existingChat = Some c /\ chat_messages c = [])) /\
  (forall c, existingChat = Some c -> chat_messages c <> [] ->
     setMessagesCalls h' = setMessagesCalls h /\
     db h' = db h /\
     chatId h' = Some (chat_id c)).
Proof.
  intros Hdb Hremote Hne HbyId HbyUrl existingChat h'.
  subst h'. unfold restoreFromRemote. rewrite Hremote.
  destruct (remote_messages data) as [|m0 rest] eqn:Hmsgs; [congruence |].
  change (0 <? length (m0 :: rest))%nat with true. cbv iota.
  unfold writeBack. simpl db. rewrite Hdb, HbyId, HbyUrl. rewrite Hmsgs.
  fold existingChat.
  destruct existingChat as [c|] eqn:Hexisting.
  - destruct (chat_messages c) as [|m1 ms] eqn:Hc.
    + change (length [] =? 0)%nat with true. cbv iota.
      split; [| split].
      * destruct (setMessages _ _ _ _ _); reflexivity.
      * split; [intros _; right; eauto |].
        intros _. destruct (setMessages _ _ _ _ _); reflexivity.
      * intros c' Hc' Hnonempty. injection Hc' as <-. congruence.
    + change (length (m1 :: ms) =? 0)%nat with false. cbv iota.
      split; [| split].
      * destruct (String.eqb (chat_id c) mixedId); reflexivity.
      * split.
        -- intros Hcalls. exfalso.
           destruct (String.eqb (chat_id c) mixedId); simpl in Hcalls;
             exact (list_neq_snoc _ _ Hcalls).
        -- intros [Hnone | (c' & Hc' & Hempty)]; [discriminate |].
           injection Hc' as <-. congruence.
      * intros c' Hc' _. injection Hc' as <-.
        destruct (String.eqb (chat_id c) mixedId) eqn:Hsame; simpl.
        -- apply String.eqb_eq in Hsame. now rewrite Hsame.
        -- easy.
  - split; [| split].
    + destruct (setMessages _ _ _ _ _); reflexivity.
    + split; [intros _; now left |].
      intros _. destruct (setMessages _ _ _ _ _); reflexivity.
    + intros c Hc. discriminate.
Qed.

End CoordinatorClaims.

(** ** The periodic sync services *)

Section SyncFacts.
Import Js Model SyncAgent.
Context {World State Body : Type}.
Context {stateJson : Serializer State} {bodyJson : Serializer Body}.
Context (route : string) (toBody : State -> Body).
Implicit Type s : Service World State.

Lemma sync_skips response w s pid getState :
  started s pid getState ->
  stringify (getState w) = lastSynced s ->
  sync route toBody response w s = (s, []).
Proof.
  intros (Hp & Ht & Hg) Heq. unfold sync. rewrite Hp, Hg, Ht, Heq.
  now rewrite String.eqb_refl.
Qed.

Lemma sync_writes response w s pid getState :
  started s pid getState ->
  stringify (getState w) <> lastSynced s ->
  snd (sync route toBody response w s)
  = [mkRequest (endpoint route pid) (stringify (toBody (getState w)))] /\
  fst (sync route toBody response w s)
  = match response with
    | RespOk => setLastSynced (stringify (getState w)) s
    | _ => s
    end.
Proof.
  intros (Hp & Ht & Hg) Hne. unfold sync. rewrite Hp, Hg, Ht.
  apply String.eqb_neq in Hne. rewrite Hne.
  destruct response; now split.
Qed.

(** The last synced serialization moves only on a write that succeeded. *)
Lemma sync_lastSynced_moves response w s :
  lastSynced (fst (sync route toBody response w s)) <> lastSynced s ->
  response = RespOk /\ length (snd (sync route toBody response w s)) = 1%nat.
Proof.
  unfold sync.
  destruct (projectId s) as [pid|]; [| simpl; congruence].
  destruct (stateGetter s) as [getState|]; [| simpl; congruence].
  destruct (truthyString pid); [| simpl; congruence].
  destruct (String.eqb _ _); [simpl; congruence |].
  destruct response; simpl; [now split | congruence | congruence].
Qed.

Lemma sync_keeps_started response w s pid getState :
  started s pid getState -> started (fst (sync route toBody response w s)) pid getState.
Proof.
  intros (Hp & Ht & Hg). unfold sync. rewrite Hp, Hg, Ht.
  destruct (String.eqb _ _); [now repeat split |].
  destruct response; now repeat split.
Qed.

Lemma syncTwice_once r2 w s pid getState :
  started s pid getState ->
  stringify (getState w) <> lastSynced s ->
  length (snd (syncTwice route toBody RespOk r2 w s)) = 1%nat /\
  lastSynced (fst (syncTwice route toBody RespOk r2 w s)) = stringify (getState w).
Proof.
  intros Hs Hne. unfold syncTwice.
  destruct (sync_writes RespOk w s pid getState Hs Hne) as [Hw Hf].
  simpl. rewrite Hw, Hf.
  rewrite (sync_skips r2 w (setLastSynced (stringify (getState w)) s) pid getState).
  - now split.
  - destruct Hs as (Hp & Ht & Hg). now repeat split.
  - reflexivity.
Qed.

End SyncFacts.

(** C7 (as amended).  For the file sync and the workbench sync alike: a sync
    of a started service serializes the current state and makes no network
    write when the serialization equals the last synced one; the last
    synced serialization changes only in a sync whose write succeeded; and
    two syncs in a row over an unchanged state make exactly one network
    write when the state differs from the last synced one and the first
    write succeeds. *)
Theorem sync_suppression
    {World : Type}
    {filesJson : SyncAgent.Serializer Model.FileMap}
    {filesBodyJson : SyncAgent.Serializer FileSyncService.FilesBody}
    {stateJson : SyncAgent.Serializer WorkbenchSyncService.WorkbenchStateData}
    {stateBodyJson : SyncAgent.Serializer WorkbenchSyncService.WorkbenchBody}
    (w : World) (r1 r2 : Js.Response) :
  (forall s pid getFiles,
     SyncAgent.started s pid getFiles ->
     (SyncAgent.stringify (getFiles w) = SyncAgent.lastSynced s ->
      FileSyncService.syncFiles r1 w s = (s, [])) /\
     (SyncAgent.lastSynced (fst (FileSyncService.syncFiles r1 w s))
      <> SyncAgent.lastSynced s ->
      r1 = Js.RespOk /\ length (snd (FileSyncService.syncFiles r1 w s)) = 1%nat) /\
     (SyncAgent.stringify (getFiles w) <> SyncAgent.lastSynced s ->
      let first := FileSyncService.syncFiles Js.RespOk w s in
      let second := FileSyncService.syncFiles r2 w (fst first) in
      length (snd first ++ snd second) = 1%nat)) /\
  (forall s pid getState,
     SyncAgent.started s pid getState ->
     (SyncAgent.stringify (getState w) = SyncAgent.lastSynced s ->
      WorkbenchSyncService.syncState r1 w s = (s, [])) /\
     (SyncAgent.lastSynced (fst (WorkbenchSyncService.syncState r1 w s))
      <> SyncAgent.lastSynced s ->
      r1 = Js.RespOk /\ length (snd (WorkbenchSyncService.syncState r1 w s)) = 1%nat) /\
     (SyncAgent.stringify (getState w) <> SyncAgent.lastSynced s ->
      let first := WorkbenchSyncService.syncState Js.RespOk w s in
      let second := WorkbenchSyncService.syncState r2 w (fst first) in
      length (snd first ++ snd second) = 1%nat)).
Proof.
  split; intros s pid get Hs; (split; [| split]).
  - now apply sync_skips with (pid := pid) (getState := get).
  - apply sync_lastSynced_moves.
  - intros Hne.
    exact (proj1 (syncTwice_once "files" FileSyncService.mkFilesBody r2 w s pid get Hs Hne)).
  - now apply sync_skips with (pid := pid) (getState := get).
  - apply sync_lastSynced_moves.
  - intros Hne.
    exact (proj1 (syncTwice_once "workbench" WorkbenchSyncService.toBody r2 w s pid get Hs Hne)).
Qed.

(** ** The message-history store operation *)

Section MessageHistoryFacts.
Import Js Model Coordinator MessageHistory.

Lemma storable_filter (messages : list Message) (m : Message) :
  In m (filter (fun m => storable m = true) messages) <->
  In m messages /\ includesTag "no-store" m = false.
Proof.
  rewrite <- !list_elem_of_In, list_elem_of_filter. unfold storable.
  rewrite negb_true_iff. tauto.
Qed.

Lemma storable_idempotent (messages : list Message) :
  filter (fun m => storable m = true) (filter (fun m => storable m = true) messages)
  = filter (fun m => storable m = true) messages.
Proof.
  induction messages as [|m rest IH]; [reflexivity |].
  rewrite filter_cons. destruct (decide (storable m = true)) as [Hm | Hm].
  - rewrite filter_cons. destruct (decide (storable m = true)); [| contradiction].
    now rewrite IH.
  - exact IH.
Qed.

(** Whatever [syncMessagesToSupabase] posts is the image of the messages
    without ['no-store']. *)
Lemma syncMessagesToSupabase_posts o chatId urlId (messages : list Message)
    projectId posted :
  In (projectId, posted) (fst (syncMessagesToSupabase o chatId urlId messages)) ->
  posted = map toSynced (filter (fun m => storable m = true) messages).
Proof.
  unfold syncMessagesToSupabase.
  destruct (ensuredProject o) as [pid|]; [| intros []].
  destruct (truthyString pid); [| intros []].
  destruct (_ =? _)%nat; [intros [] |].
  destruct (messagesResponse o); simpl; intros [H | []]; congruence.
Qed.

End MessageHistoryFacts.

Section MessageHistoryClaims.
Import Js Model Coordinator MessageHistory.
Context {DB : Type} {store : LocalHistoryStore DB}.
Implicit Type h : Hook DB.

Lemma and_regroup (P Q R : Prop) : P /\ Q -> R -> P /\ Q /\ R.
Proof. tauto. Qed.

(** The operation leaves the hook's in-memory message lists alone. *)
Lemma storeMessageHistory_memory o (messages : list Message) h :
  initialMessages (fst (storeMessageHistory o messages h)) = initialMessages h /\
  archived (fst (storeMessageHistory o messages h)) = archived h.
Proof.
  unfold storeMessageHistory. repeat case_match; now split.
Qed.

(** C8 (as amended).  For every list of messages passed to
    [storeMessageHistory], each body posted to the remote messages route is
    the image of the passed messages without ['no-store'], so it never
    contains a message annotated ['no-store']; and a write into the Local
    History Store, when one is made, holds the archived messages followed by
    the passed messages without ['no-store'], so those messages are left
    out of the local record as well.  They stay only in memory: the
    operation changes neither the hook's initial nor its archived
    messages. *)
Theorem no_store_exclusion o (messages : list Message) h :
  (forall projectId posted,
     In (projectId, posted) (remotePosts (snd (storeMessageHistory o messages h))) ->
     posted = map toSynced (filter (fun m => storable m = true) messages) /\
     forall m, In m messages -> includesTag "no-store" m = true ->
               ~ In (toSynced m) posted) /\
  (setMessagesCalls (fst (storeMessageHistory o messages h)) = setMessagesCalls h \/
   exists finalChatId,
     setMessagesCalls (fst (storeMessageHistory o messages h))
     = setMessagesCalls h
       ++ [(finalChatId, archived h ++ filter (fun m => storable m = true) messages)]) /\
  initialMessages (fst (storeMessageHistory o messages h)) = initialMessages h /\
  archived (fst (storeMessageHistory o messages h)) = archived h.
Proof.
  apply and_regroup; [| apply storeMessageHistory_memory].
  assert (Hclean : forall posted m,
             posted = map toSynced (filter (fun m => storable m = true) messages) ->
             In m messages -> includesTag "no-store" m = true ->
             ~ In (toSynced m) posted).
  { intros posted m -> Hm Htag Hin.
    apply in_map_iff in Hin as (m' & Heq & Hin').
    apply storable_filter in Hin' as [_ Hclean].
    unfold includesTag in *.
    assert (annotations m' = annotations m) as Hann.
    { exact (f_equal sync_annotations Heq). }
    rewrite Hann in Hclean. congruence. }
  unfold storeMessageHistory.
  destruct (db h) as [d|]; [| split; [intros ? ? [] | now left]].
  destruct (length messages =? 0)%nat; [split; [intros ? ? [] | now left] |].
  set (kept := filter (fun m : Message => storable m = true) messages).
  set (takesUrlId := negb (truthy (urlId h)) && truthy (firstArtifactId o)).
  destruct (last kept) as [lastMessage|];
    [| split; [intros ? ? [] | destruct takesUrlId; now left]].
  match goal with
  | |- context [match chatId ?h3 with _ => _ end] => set (hook3 := h3)
  end.
  assert (Hcalls : setMessagesCalls hook3 = setMessagesCalls h).
  { subst hook3.
    repeat match goal with
           | |- context [if ?c then _ else _] => destruct c
           end; reflexivity. }
  destruct (chatId hook3) as [finalChatId|];
    [| split; [intros ? ? [] | left; exact Hcalls]].
  destruct (truthyString finalChatId);
    [| split; [intros ? ? [] | left; exact Hcalls]].
  destruct (setMessages d finalChatId (archived h ++ kept) (urlId h) (description hook3))
    as [d'|e]; simpl.
  - split.
    + intros projectId posted Hin.
      apply syncMessagesToSupabase_posts in Hin.
      subst kept. rewrite storable_idempotent in Hin.
      split; [exact Hin | intros m; now apply Hclean].
    + right. exists finalChatId. now rewrite Hcalls.
  - split; [intros ? ? [] |].
    right. exists finalChatId. now rewrite Hcalls.
Qed.

End MessageHistoryClaims.

(** ** The files route and the load route *)

Section RouteFacts.
Import Js Model FilesRoute.

(** Assigning rows into a map one after the other: the last row of a key
    wins, and a key no row has keeps what the map held. *)
Lemma foldl_insert_lookup {K V R : Type} `{Countable K}
    (key : R -> K) (val : R -> V) (rows : list R) (m : gmap K V) (k : K) :
  foldl (fun acc r => <[key r := val r]> acc) m rows !! k
  = match last (filter (fun r => key r = k) rows) with
    | Some r => Some (val r)
    | None => m !! k
    end.
Proof.
  revert m. induction rows as [|x rest IH]; intros m; simpl; [reflexivity |].
  rewrite IH, filter_cons.
  destruct (decide (key x = k)) as [Hk | Hk].
  - destruct (filter (fun r => key r = k) rest) as [|y ys] eqn:Hf; simpl.
    + now rewrite <- Hk, lookup_insert_eq.
    + destruct (last (y :: ys)) eqn:Hl; [reflexivity |].
      apply last_None in Hl. discriminate.
  - destruct (last (filter (fun r => key r = k) rest)); [reflexivity |].
    now rewrite lookup_insert_ne.
Qed.

Lemma last_filter_In {R : Type} (P : R -> Prop) `{forall r, Decision (P r)}
    (rows : list R) (r : R) :
  last (filter P rows) = Some r -> In r rows /\ P r.
Proof.
  intros Hl. apply last_Some in Hl as [l' Hl'].
  assert (r ∈ filter P rows) as Hin by (rewrite Hl'; set_solver).
  apply list_elem_of_filter in Hin as [HP Hin].
  split; [now apply list_elem_of_In | exact HP].
Qed.

Lemma last_filter_some {R : Type} (P : R -> Prop) `{forall r, Decision (P r)}
    (rows : list R) (r : R) :
  In r rows -> P r -> exists r', last (filter P rows) = Some r'.
Proof.
  intros Hin HP.
  assert (r ∈ filter P rows) as Hf.
  { apply list_elem_of_filter. split; [exact HP | now apply list_elem_of_In]. }
  destruct (last (filter P rows)) as [r'|] eqn:Hl; [eauto |].
  apply last_None in Hl. rewrite Hl in Hf. inversion Hf.
Qed.

Lemma filesToUpsert_In (projectId : string) (files : gmap string FileData)
    (row : FileRow) :
  In row (filesToUpsert projectId files) <->
  exists path fileData,
    files !! path = Some fileData /\ fd_type fileData = "file" /\
    row = toRow projectId (path, fileData).
Proof.
  unfold filesToUpsert. rewrite in_map_iff. split.
  - intros ([path fileData] & Hrow & Hin).
    apply list_elem_of_In, list_elem_of_filter in Hin as [Htype Hin].
    apply elem_of_map_to_list in Hin. eauto.
  - intros (path & fileData & Hlook & Htype & ->).
    exists (path, fileData). split; [reflexivity |].
    apply list_elem_of_In, list_elem_of_filter. split; [exact Htype |].
    now apply elem_of_map_to_list.
Qed.

(** What the table holds for a posted file after the upsert. *)
Lemma upsert_posted (projectId : string) (files : gmap string FileData)
    (table : gmap (string * string) StoredFile) (path : string) (fileData : FileData) :
  files !! path = Some fileData ->
  fd_type fileData = "file" ->
  upsert (filesToUpsert projectId files) table !! (projectId, path)
  = Some (mkStored (row_content (toRow projectId (path, fileData)))
                   (file_type (toRow projectId (path, fileData)))
                   (size_bytes (toRow projectId (path, fileData)))).
Proof.
  intros Hlook Htype. unfold upsert.
  rewrite (foldl_insert_lookup (fun row => (project_id row, file_path row))
             (fun row => mkStored (row_content row) (file_type row) (size_bytes row))).
  destruct (last_filter_some
              (fun row => (project_id row, file_path row) = (projectId, path))
              (filesToUpsert projectId files) (toRow projectId (path, fileData)))
    as [row Hrow]; [apply filesToUpsert_In; eauto | reflexivity |].
  rewrite Hrow. apply last_filter_In in Hrow as [Hin Hkey].
  apply filesToUpsert_In in Hin as (path' & fileData' & Hlook' & _ & ->).
  simpl in Hkey. injection Hkey as Hpath. subst path'.
  rewrite Hlook in Hlook'. now injection Hlook' as <-.
Qed.

Lemma filesOf_In (projectId : string) (table : gmap (string * string) StoredFile)
    (path : string) (file : StoredFile) :
  In (path, file) (filesOf projectId table) <-> table !! (projectId, path) = Some file.
Proof.
  unfold filesOf. rewrite <- list_elem_of_In, list_elem_of_omap. split.
  - intros ([[pid p] v] & Hin & Hsome). simpl in Hsome.
    destruct (decide (pid = projectId)) as [-> |]; [| discriminate].
    injection Hsome as -> ->. now apply elem_of_map_to_list.
  - intros Hlook. exists ((projectId, path), file). split.
    + now apply elem_of_map_to_list.
    + simpl. now destruct (decide (projectId = projectId)).
Qed.

(** The loaded map holds, at each path, the stored row of that path turned
    into a file entry. *)
Lemma toFileMap_lookup (projectId : string)
    (table : gmap (string * string) StoredFile) (path : string) :
  toFileMap (filesOf projectId table) !! path
  = toDirent <$> table !! (projectId, path).
Proof.
  unfold toFileMap.
  rewrite (foldl_insert_lookup fst (fun row => toDirent (snd row))).
  destruct (last (filter (fun r => fst r = path) (filesOf projectId table)))
    as [[p file]|] eqn:Hl.
  - apply last_filter_In in Hl as [Hin Hp]. simpl in Hp. subst p.
    apply filesOf_In in Hin. now rewrite Hin.
  - rewrite lookup_empty.
    destruct (table !! (projectId, path)) as [file|] eqn:Hlook; [| reflexivity].
    apply filesOf_In in Hlook.
    destruct (last_filter_some (fun r => fst r = path) _ _ Hlook eq_refl) as [r Hr].
    congruence.
Qed.

(** The load route only ever produces file entries. *)
Lemma toFileMap_files (rows : list (string * StoredFile)) (path : string)
    (entry : Dirent) :
  toFileMap rows !! path = Some entry -> exists c b, entry = File c b.
Proof.
  unfold toFileMap.
  rewrite (foldl_insert_lookup fst (fun row => toDirent (snd row))).
  destruct (last _) as [row|]; [| rewrite lookup_empty; discriminate].
  intros [= <-]. unfold toDirent. eauto.
Qed.

End RouteFacts.

Section RouteClaims.
Import Js Model FilesRoute.

(** C10.  For every posted entry of type ['file'] whose [isBinary] is true,
    a successful save stores a row with a null content and the file type
    ['binary']; the load route maps such a row to
    [{type: 'file', content: '', isBinary: true}]; so loading the project
    after the save returns the binary file with an empty content, and every
    entry the load returns is a file entry, never a folder. *)
Theorem binary_content_not_round_tripped
    (userId : option string) (projectId : string) (files : gmap string FileData)
    (db : Database) (count : nat) (path : string) (content : option string) :
  fst (action userId (Some projectId) files false db) = Saved count ->
  files !! path = Some (mkFileData "file" content (Some true)) ->
  let db' := snd (action userId (Some projectId) files false db) in
  (exists size,
     project_files db' !! (projectId, path) = Some (mkStored None binary size) /\
     toDirent (mkStored None binary size) = File "" true) /\
  (forall reader requested filesFail project (fileMap : gmap string Dirent),
     loader reader requested filesFail db' = Loaded project fileMap ->
     (forall (p : string) entry,
        fileMap !! p = Some entry -> exists c b, entry = File c b) /\
     (filesFail = false -> proj_id project = projectId ->
      fileMap !! path = Some (File "" true))).
Proof.
  intros Hsaved Hfile db'.
  assert (Hstored : exists size,
             project_files db' !! (projectId, path) = Some (mkStored None binary size)).
  { subst db'. unfold action in *.
    destruct userId as [uid|]; [| discriminate].
    destruct (truthyString uid && truthyString projectId); [| discriminate].
    destruct (projectById projectId uid db); [| discriminate].
    destruct (length (filesToUpsert projectId files) =? 0)%nat; [discriminate |].
    simpl. rewrite (upsert_posted _ _ _ _ _ Hfile eq_refl). simpl. eauto. }
  destruct Hstored as [size Hstored].
  split; [exists size; now split |].
  intros reader requested filesFail project fileMap Hload.
  unfold loader in Hload.
  destruct reader as [uid|]; [| discriminate].
  destruct requested as [pid|]; [| discriminate].
  destruct (truthyString uid && truthyString pid); [| discriminate].
  destruct (orElse _ _) as [found|]; [| discriminate].
  injection Hload as -> <-.
  split.
  - intros p entry. apply toFileMap_files.
  - intros -> <-. rewrite toFileMap_lookup, Hstored. reflexivity.
Qed.

End RouteClaims.

(** ** The statements at concrete inputs *)

Section Concrete.
Import Js Model Reconciler Coordinator Samples.

(** Rewinding log [m0 m1 m2 m3] to [m1], where the snapshot was taken: the
    visible messages are [m0 m1] and nothing is archived. *)
Lemma rewind_to_snapshot_override_witness :
  visibleMessages (detector := noCommands) "fresh" log4 (Some (snapshotAt "m1"))
                  (Some "m1") = [msg "m0"; msg "m1"] /\
  archivedMessages log4 (Some (snapshotAt "m1")) (Some "m1") = [].
Proof.
  destruct (rewind_to_snapshot_override (detector := noCommands) "fresh" log4
              (Some (snapshotAt "m1")) (Some "m1") eq_refl eq_refl
              (ex_intro _ "m1" (conj eq_refl eq_refl)))
    as (_ & Harchived & _ & Hvisible).
  split; [rewrite Hvisible; reflexivity | exact Harchived].
Defined.

(** C1 fails for the empty rewind target [?rewindTo=]: with no snapshot
    stored ([chatIndex] is ['']), the message with the empty id at position 1
    equals the rewind target, and the visible messages are the whole log,
    not the prefix up to that message. *)
Lemma rewind_override_empty_target_counterexample :
  0 < snapshotIndex logEmptyId None /\
  (exists i, idAt logEmptyId (snapshotIndex logEmptyId None) = Some i /\
             looseEq i (Some "") = true) /\
  startingIdx logEmptyId None (Some "") = -1 /\
  visibleMessages (detector := noCommands) "fresh" logEmptyId None (Some "")
  = [msg "a"; msg ""; msg "b"] /\
  visibleMessages (detector := noCommands) "fresh" logEmptyId None (Some "")
  <> take (S (Z.to_nat (snapshotIndex logEmptyId None))) logEmptyId.
Proof.
  repeat split.
  - exists "". now split.
  - vm_compute. discriminate.
Qed.


(** A rewind target that occurs nowhere in a one-message log. *)
Lemma unknown_rewind_target_empties_witness :
  visibleMessages (detector := noCommands) "fresh" log1 None (Some "zz") = [] /\
  archivedMessages log1 None (Some "zz") = [].
Proof.
  assert (Habsent : forall m, In m log1 -> id m <> "zz").
  { intros m [<- | []]. discriminate. }
  destruct (unknown_rewind_target_empties (detector := noCommands) "fresh" log1 None
              "zz" ltac:(discriminate) eq_refl Habsent)
    as (_ & _ & Hvisible & Harchived).
  now split.
Defined.

(** C9 fails for the empty rewind target: it occurs nowhere in the log, yet
    [endingIdx] is the log length and the whole log is visible. *)
Lemma empty_rewind_target_counterexample :
  log1 <> [] /\
  (forall m, In m log1 -> id m <> "") /\
  endingIdx log1 (Some "") = 1 /\
  endingIdx log1 (Some "") <> 0 /\
  visibleMessages (detector := noCommands) "fresh" log1 None (Some "") = [msg "a"] /\
  visibleMessages (detector := noCommands) "fresh" log1 None (Some "") <> [].
Proof.
  repeat split; try discriminate.
  intros m [<- | []]. discriminate.
Qed.

(** A Local History Store whose reads reject: the hook never gets ready. *)
Lemma failed_local_read_never_ready_witness :
  ready (settle (store := brokenStore) (detector := noCommands) "chat-1" None
                quietOracle (restoreEffect (Some "chat-1") (mounted tt))) = false.
Proof.
  exact (proj1 (failed_local_read_never_ready (store := brokenStore)
                  (detector := noCommands) "chat-1" None quietOracle
                  "transaction failed" tt (mounted tt)
                  eq_refl eq_refl eq_refl eq_refl eq_refl)).
Defined.



(** The local record of chat ["7"] holds a message: nothing is written and
    its identifier is the current chat identifier. *)
Lemma write_back_condition_witness :
  setMessagesCalls (restoreFromRemote (store := memoryStore) "7" remoteOracle
                      (mounted storeWithChat)) = [] /\
  chatId (restoreFromRemote (store := memoryStore) "7" remoteOracle
            (mounted storeWithChat)) = Some "7".
Proof.
  destruct (write_back_condition (store := memoryStore) "7" remoteOracle
              (mkRemote [msg "r0"; msg "r1"] None "url-7") storeWithChat
              (Some (mkChat "7" (Some "url-7") None [msg "old"]))
              (Some (mkChat "7" (Some "url-7") None [msg "old"]))
              (mounted storeWithChat)
              eq_refl eq_refl ltac:(discriminate) eq_refl eq_refl)
    as (_ & _ & Hskip).
  destruct (Hskip (mkChat "7" (Some "url-7") None [msg "old"]) eq_refl
              ltac:(discriminate)) as (Hcalls & _ & Hchat).
  split; [exact Hcalls | exact Hchat].
Defined.

(** C6 fails when the record found holds no messages: a record with the same
    chat identifier exists, and the fetched messages are written over it. *)
Lemma write_back_over_empty_record_counterexample :
  getMessagesById (LocalHistoryStore := memoryStore) storeWithEmptyChat "7"
  = Returned (Some (mkChat "7" None None [])) /\
  setMessagesCalls (restoreFromRemote (store := memoryStore) "7" remoteOracle
                      (mounted storeWithEmptyChat))
  = [("7", [msg "r0"; msg "r1"])] /\
  (db (restoreFromRemote (store := memoryStore) "7" remoteOracle
         (mounted storeWithEmptyChat)) ≫= fun s => chats s !! "7")
  = Some (mkChat "7" (Some "url-7") None [msg "r0"; msg "r1"]).
Proof. repeat split. Qed.

End Concrete.

Section ConcreteSync.
Import Js Model Coordinator Samples.

(** Two syncs of the started file service over an unchanged file map, the
    first write succeeding: one network write. *)
Lemma sync_suppression_witness :
  length (snd (FileSyncService.syncFiles (filesJson := filesJson)
                 (bodyJson := filesBodyJson) RespOk 0%nat fileService)
          ++ snd (FileSyncService.syncFiles (filesJson := filesJson)
                    (bodyJson := filesBodyJson) RespOk 0%nat
                    (fst (FileSyncService.syncFiles (filesJson := filesJson)
                            (bodyJson := filesBodyJson) RespOk 0%nat fileService))))
  = 1%nat.
Proof.
  destruct (sync_suppression (filesJson := filesJson) (filesBodyJson := filesBodyJson)
              (stateJson := stateJson) (stateBodyJson := stateBodyJson)
              0%nat RespOk RespOk) as [Hfiles _].
  destruct (Hfiles fileService "p" someFiles (conj eq_refl (conj eq_refl eq_refl)))
    as (_ & _ & Honce).
  apply Honce. discriminate.
Defined.

(** C7 fails when the first write is refused: the state is unchanged between
    the two syncs, and each of them makes a network write. *)
Lemma sync_twice_after_failure_counterexample :
  length (snd (FileSyncService.syncFiles (filesJson := filesJson)
                 (bodyJson := filesBodyJson) RespNotOk 0%nat fileService)
          ++ snd (FileSyncService.syncFiles (filesJson := filesJson)
                    (bodyJson := filesBodyJson) RespOk 0%nat
                    (fst (FileSyncService.syncFiles (filesJson := filesJson)
                            (bodyJson := filesBodyJson) RespNotOk 0%nat fileService))))
  = 2%nat /\
  length (snd (WorkbenchSyncService.syncState (stateJson := stateJson)
                 (bodyJson := stateBodyJson) RespNotOk 0%nat workbenchService)
          ++ snd (WorkbenchSyncService.syncState (stateJson := stateJson)
                    (bodyJson := stateBodyJson) RespOk 0%nat
                    (fst (WorkbenchSyncService.syncState (stateJson := stateJson)
                            (bodyJson := stateBodyJson) RespNotOk 0%nat
                            workbenchService))))
  = 2%nat.
Proof. split; reflexivity. Qed.

(** C8 fails for the local side: of the passed messages [m1] and [m2], the
    second annotated ['no-store'], the record written into the Local History
    Store holds [m1] only. *)
Lemma no_store_left_out_locally_counterexample :
  includesTag "no-store" (noStoreMsg "m2") = true /\
  setMessagesCalls
    (fst (MessageHistory.storeMessageHistory (store := memoryStore) storeOracle
            [msg "m1"; noStoreMsg "m2"] openChat))
  = [("7", [msg "m1"])] /\
  (db (fst (MessageHistory.storeMessageHistory (store := memoryStore) storeOracle
              [msg "m1"; noStoreMsg "m2"] openChat))
     ≫= fun s => chat_messages <$> chats s !! "7")
  = Some [msg "m1"] /\
  MessageHistory.remotePosts
    (snd (MessageHistory.storeMessageHistory (store := memoryStore) storeOracle
            [msg "m1"; noStoreMsg "m2"] openChat))
  = [("project-1", [MessageHistory.toSynced (msg "m1")])].
Proof. repeat split. Qed.

(** Saving the posted file map into project [p1] and loading it back: the
    binary file comes back with an empty content. *)
Lemma binary_content_not_round_tripped_witness :
  exists fileMap : gmap string Dirent,
    FilesRoute.loader (Some "u1") (Some "p1") false
      (snd (FilesRoute.action (Some "u1") (Some "p1") postedFiles false oneProject))
    = FilesRoute.Loaded (FilesRoute.mkProject "p1" "url-1" "u1") fileMap /\
    fileMap !! "logo.png" = Some (File "" true) /\
    fileMap !! "index.js" = Some (File "let x" false) /\
    fileMap !! "src" = None.
Proof.
  destruct (binary_content_not_round_tripped (Some "u1") "p1" postedFiles oneProject
              2%nat "logo.png" (Some "iVBORw0KGgo") eq_refl eq_refl)
    as [_ Hloaded].
  pose (saved := snd (FilesRoute.action (Some "u1") (Some "p1") postedFiles false
                                        oneProject)).
  exists (FilesRoute.toFileMap
            (FilesRoute.filesOf "p1" (FilesRoute.project_files saved))).
  assert (Hload : FilesRoute.loader (Some "u1") (Some "p1") false saved
                  = FilesRoute.Loaded (FilesRoute.mkProject "p1" "url-1" "u1")
                      (FilesRoute.toFileMap
                         (FilesRoute.filesOf "p1" (FilesRoute.project_files saved))))
    by reflexivity.
  split; [exact Hload |].
  split; [exact (proj2 (Hloaded _ _ _ _ _ Hload) eq_refl eq_refl) |].
  split; reflexivity.
Defined.

End ConcreteSync.

(* ===================================================================== *)
(** * Further properties of the code *)
(* ===================================================================== *)

(** ** More on the snapshot reconciliation *)

Section SliceFacts.
Import Js.
Context {A : Type}.
Implicit Type l : list A.

Lemma slice_range l a b :
  0 <= a <= b ->
  slice l a b = take (Z.to_nat (b - a)) (drop (Z.to_nat a) l).
Proof.
  intros [Ha Hab]. unfold slice, relativeIndex.
  destruct (a <? 0) eqn:Hneg; [apply Z.ltb_lt in Hneg; lia |].
  destruct (b <? 0) eqn:Hnegb; [apply Z.ltb_lt in Hnegb; lia |].
  destruct (Z.min_spec a (Z.of_nat (length l))) as [[Hlt ->] | [Hge ->]];
    destruct (Z.min_spec b (Z.of_nat (length l))) as [[Hltb ->] | [Hgeb ->]];
    try lia.
  - reflexivity.
  - rewrite !take_ge; [reflexivity | rewrite length_drop; lia | rewrite length_drop; lia].
  - rewrite Nat2Z.id. rewrite !drop_ge by lia. now rewrite !take_nil.
Qed.

End SliceFacts.

Section ReconcilerMore.
Import Js Model Reconciler.
Context {detector : CommandDetector}.
Implicit Types (messages : list Message) (snapshot : option Snapshot)
               (rewindId : option string).

Lemma endingIdx_nonneg messages rewindId : 0 <= endingIdx messages rewindId.
Proof.
  unfold endingIdx. destruct rewindId as [r|]; [| lia].
  destruct (truthyString r); [| lia].
  destruct (findIndex_range (hasId r) messages); lia.
Qed.

(** With or without a rewind target, the archived messages followed by the
    visible messages minus the synthesized entries are the log up to
    [endingIdx]: every message up to the rewind target lands in exactly one
    of the two lists, in log order, and nothing after the target is kept. *)
Theorem archived_visible_partition freshId messages snapshot rewindId :
  archivedMessages messages snapshot rewindId
  ++ drop (length (replayMessages freshId messages snapshot rewindId))
          (visibleMessages freshId messages snapshot rewindId)
  = take (Z.to_nat (endingIdx messages rewindId)) messages.
Proof.
  unfold visibleMessages. rewrite drop_app_length.
  unfold archivedMessages, filteredMessages.
  pose proof (endingIdx_nonneg messages rewindId) as He.
  destruct (startingIdx_cases messages snapshot rewindId) as [-> | [-> Hr]].
  - simpl. now rewrite slice_prefix.
  - destruct (0 <=? snapshotIndex messages snapshot) eqn:H0;
      [| apply Z.leb_gt in H0; lia].
    rewrite slice_prefix by lia. rewrite slice_range by lia.
    rewrite take_take_drop. f_equal. lia.
Qed.

(** When the snapshot's [chatIndex] names no message of the log (also when
    no snapshot is stored and no message has the empty id), no snapshot
    applies: nothing is archived, nothing is synthesized, and the visible
    messages are the log up to [endingIdx]. *)
Theorem unknown_snapshot_shows_history freshId messages snapshot rewindId :
  (forall m, In m messages -> id m <> chatIndex (validSnapshot snapshot)) ->
  startingIdx messages snapshot rewindId = -1 /\
  archivedMessages messages snapshot rewindId = [] /\
  visibleMessages freshId messages snapshot rewindId
  = take (Z.to_nat (endingIdx messages rewindId)) messages.
Proof.
  intros Habsent.
  assert (Hsi : snapshotIndex messages snapshot = -1).
  { apply findIndex_absent. intros m Hm. apply String.eqb_neq. now apply Habsent. }
  assert (Hstart : startingIdx messages snapshot rewindId = -1).
  { destruct (startingIdx_cases messages snapshot rewindId) as [H | [_ H]]; [exact H | lia]. }
  unfold visibleMessages, replayMessages, archivedMessages, filteredMessages.
  rewrite Hstart. simpl. repeat split.
  apply slice_prefix, endingIdx_nonneg.
Qed.


(** Rewinding to a message that precedes the snapshot's message drops the
    snapshot: nothing is archived or synthesized, and the visible messages
    are the log prefix up to and including the rewind target. *)
Theorem rewind_before_snapshot freshId messages snapshot r :
  truthyString r = true ->
  0 <= findIndex (hasId r) messages < snapshotIndex messages snapshot ->
  startingIdx messages snapshot (Some r) = -1 /\
  archivedMessages messages snapshot (Some r) = [] /\
  visibleMessages freshId messages snapshot (Some r)
  = take (S (Z.to_nat (findIndex (hasId r) messages))) messages.
Proof.
  intros Htruthy [Hfound Hbefore].
  assert (Hend : endingIdx messages (Some r) = findIndex (hasId r) messages + 1).
  { unfold endingIdx. now rewrite Htruthy. }
  assert (Hstart : startingIdx messages snapshot (Some r) = -1).
  { destruct (startingIdx_cases messages snapshot (Some r)) as [H | [_ H]]; [exact H | lia]. }
  unfold visibleMessages, replayMessages, archivedMessages, filteredMessages.
  rewrite Hstart, Hend. simpl. repeat split.
  rewrite slice_prefix by lia. f_equal. lia.
Qed.

End ReconcilerMore.

(** ** More on the restore coordination *)

Section CoordinatorMore.
Import Js Model Reconciler Coordinator.
Context {DB : Type} {store : LocalHistoryStore DB} {detector : CommandDetector}.
Implicit Type h : Hook DB.

Lemma restoreEffect_without_db mixedId h :
  db h = None -> restoreInProgress h = false ->
  db (restoreEffect mixedId h) = None /\
  restoreInProgress (restoreEffect mixedId h) = false /\
  ready (restoreEffect mixedId h) = true /\
  querySequences (restoreEffect mixedId h) = querySequences h.
Proof.
  intros Hdb Hlock. unfold restoreEffect. rewrite Hlock. simpl. rewrite Hdb.
  destruct (persistenceEnabled h); simpl; auto.
Qed.

(** Without a database no activation ever takes the lock or starts a query
    sequence, whatever session identifiers arrive, and after the first
    activation the hook is ready. *)
Theorem no_database_never_queries (activations : list (option string)) h :
  db h = None ->
  restoreInProgress h = false ->
  let h' := foldl (fun acc i => restoreEffect i acc) h activations in
  querySequences h' = querySequences h /\
  restoreInProgress h' = false /\
  (activations <> [] -> ready h' = true).
Proof.
  intros Hdb Hlock. simpl.
  revert h Hdb Hlock.
  induction activations as [|i rest IH]; intros h Hdb Hlock; simpl.
  - repeat split; congruence.
  - destruct (restoreEffect_without_db i h Hdb Hlock) as (Hdb' & Hlock' & Hready & Hq).
    destruct (IH _ Hdb' Hlock') as (IHq & IHlock & IHready).
    repeat split; [congruence | exact IHlock |].
    intros _. destruct rest as [|j rest']; [exact Hready | apply IHready; discriminate].
Qed.

(** When the Local History Store has no messages for the session, the
    outcome of the remote restore decides: a missing project, or one without
    messages, sends the caller home; a rejection is shown as a toast without
    navigation; in each of these cases the hook gets ready, shows no
    messages of its own making, writes nothing back and keeps the lock
    until the timer. *)
Theorem remote_fallback_failures mixedId rewindId o d snapshot h :
  db h = Some d ->
  getMessages d mixedId = Returned None ->
  getSnapshot d mixedId = Returned snapshot ->
  (forall data, remoteRestore o = Returned (Some data) -> remote_messages data = []) ->
  let h' := settle mixedId rewindId o h in
  ready h' = true /\
  initialMessages h' = initialMessages h /\
  setMessagesCalls h' = setMessagesCalls h /\
  restoreInProgress h' = restoreInProgress h /\
  releaseTimers h' = S (releaseTimers h) /\
  match remoteRestore o with
  | Returned _ => navigatedHome h' = true /\ toasts h' = toasts h
  | Threw e =>
      navigatedHome h' = navigatedHome h /\
      toasts h' = toasts h ++ ["Failed to restore project: " +:+ e]
  end.
Proof.
  intros Hdb Hm Hs Hempty. simpl.
  unfold settle. rewrite Hdb, Hm, Hs.
  unfold onFinally, onResolved, restoreFromRemote.
  destruct (remoteRestore o) as [[data|] | e] eqn:Hremote; simpl.
  - rewrite (Hempty data eq_refl). simpl. repeat split.
  - repeat split.
  - repeat split.
Qed.

Lemma restoreFromLocal_autoStarts rewindId o storedMessages snapshot h :
  autoStarts (restoreFromLocal rewindId o storedMessages snapshot h)
  = (if hasFiles snapshot
     then match sandboxRestore o with
          | Returned _ => if autoStartInProgress h then autoStarts h else S (autoStarts h)
          | Threw _ => autoStarts h
          end
     else autoStarts h) /\
  (autoStarts (restoreFromLocal rewindId o storedMessages snapshot h) <> autoStarts h ->
   autoStartInProgress (restoreFromLocal rewindId o storedMessages snapshot h) = true) /\
  (autoStartInProgress h = true ->
   autoStartInProgress (restoreFromLocal rewindId o storedMessages snapshot h) = true).
Proof.
  unfold restoreFromLocal.
  destruct (hasFiles snapshot); simpl; [| now repeat split].
  destruct (sandboxRestore o); simpl; [| now repeat split].
  destruct (autoStartInProgress h) eqn:Hflag; simpl; now repeat split.
Qed.

(** Within one activation the application is auto-started at most once:
    however many local restores run on the hook before the next activation
    resets the flag, they schedule a single auto-start; and one is scheduled
    only for a snapshot with files that the sandbox accepted. *)
Theorem auto_start_at_most_once
    (runs : list (option string * Oracle * ChatHistoryItem * option Snapshot)) h :
  let h' := foldl (fun acc run =>
                     restoreFromLocal (fst (fst (fst run))) (snd (fst (fst run)))
                                      (snd (fst run)) (snd run) acc) h runs in
  (autoStarts h' <= S (autoStarts h))%nat /\
  (autoStartInProgress h = true -> autoStarts h' = autoStarts h) /\
  (autoStarts h' <> autoStarts h ->
   exists run, In run runs /\ hasFiles (snd run) = true /\
               exists u, sandboxRestore (snd (fst (fst run))) = Returned u).
Proof.
  simpl. revert h.
  induction runs as [|[[[r o] sm] sn] rest IH]; intros h; simpl.
  - repeat split; [lia | congruence].
  - destruct (restoreFromLocal_autoStarts r o sm sn h) as (Hcount & Hflag & Hkeep).
    destruct (IH (restoreFromLocal r o sm sn h)) as (IHle & IHset & IHwhy).
    set (h1 := restoreFromLocal r o sm sn h) in *.
    destruct (Nat.eq_dec (autoStarts h1) (autoStarts h)) as [Heq | Hne].
    + repeat split.
      * lia.
      * intros Hset. rewrite IHset; [exact Heq | now apply Hkeep].
      * intros Hchanged. destruct IHwhy as (run & Hin & Hrun); [congruence |].
        exists run. split; [now right | exact Hrun].
    + pose proof (Hflag Hne) as Hnow. rewrite (IHset Hnow).
      repeat split.
      * rewrite Hcount. destruct (hasFiles sn); [| lia].
        destruct (sandboxRestore o); [| lia]. destruct (autoStartInProgress h); lia.
      * intros Hset. rewrite Hcount, Hset in Hne.
        destruct (hasFiles sn); [| congruence]. destruct (sandboxRestore o); congruence.
      * intros _. exists (r, o, sm, sn). split; [now left |]. simpl.
        rewrite Hcount in Hne.
        destruct (hasFiles sn); [| congruence].
        destruct (sandboxRestore o) as [u|]; [eauto | congruence].
Qed.

(** A restore whose local read rejects releases the lock at once and still
    arms its timer.  An activation after it takes the lock again; when the
    armed timer then fires, the lock is released although that second
    restore has not settled, and a third activation starts a third query
    sequence beside it. *)
Theorem stale_timer_releases_later_lock first second third rewindId o message d h :
  db h = Some d ->
  restoreInProgress h = false ->
  truthyString first = true ->
  truthy second = true ->
  truthy third = true ->
  getMessages d first = Threw message ->
  let failed := settle first rewindId o (restoreEffect (Some first) h) in
  let running := restoreEffect second failed in
  let raced := restoreEffect third (releaseLock running) in
  restoreInProgress failed = false /\
  releaseTimers failed = S (releaseTimers h) /\
  restoreInProgress running = true /\
  querySequences running = S (S (querySequences h)) /\
  restoreInProgress (releaseLock running) = false /\
  querySequences raced = S (S (S (querySequences h))).
Proof.
  intros Hdb Hlock Hfirst Hsecond Hthird Hread. simpl.
  destruct (restoreEffect_starts (Some first) h d Hdb Hfirst Hlock)
    as (Hl1 & Hq1 & _ & Hd1).
  set (h1 := restoreEffect (Some first) h) in *.
  assert (Hfailed : settle first rewindId o h1
                    = onFinally (onRejected message h1)).
  { unfold settle. rewrite Hd1, Hdb, Hread. reflexivity. }
  rewrite Hfailed.
  set (failed := onFinally (onRejected message h1)).
  assert (Hdbf : db failed = Some d) by (subst failed; simpl; congruence).
  assert (Hlockf : restoreInProgress failed = false) by reflexivity.
  assert (Hqf : querySequences failed = S (querySequences h)) by (subst failed; simpl; exact Hq1).
  destruct (restoreEffect_starts second failed d Hdbf Hsecond Hlockf)
    as (Hl2 & Hq2 & _ & Hd2).
  set (running := restoreEffect second failed) in *.
  assert (Hdbr : db (releaseLock running) = Some d) by (simpl; congruence).
  destruct (restoreEffect_starts third (releaseLock running) d Hdbr Hthird eq_refl)
    as (_ & Hq3 & _ & _).
  repeat split.
  - subst failed h1. simpl. unfold restoreEffect. rewrite Hlock. simpl.
    rewrite Hdb. simpl. now rewrite Hfirst.
  - exact Hl2.
  - rewrite Hq2, Hqf. reflexivity.
  - rewrite Hq3. simpl. rewrite Hq2, Hqf. reflexivity.
Qed.

End CoordinatorMore.

Section RestoreServiceMore.
Import RestoreService.

(** The restore service keeps one pending restore per project: restores of
    different projects do not block each other, and once a project's restore
    has settled, the next call for it starts a new one. *)
Theorem restore_service_tracks_per_project (a b : string) (s : Service) :
  activeRestores s !! a = None ->
  activeRestores s !! b = None ->
  a <> b ->
  let first := restoreProject a s in
  let other := restoreProject b (fst first) in
  let again := restoreProject a (restoreSettled a (fst other)) in
  snd first <> snd other /\
  restoresStarted (fst other) = S (S (restoresStarted s)) /\
  snd again = S (S (S (restoresStarted s))) /\
  activeRestores (fst again) !! b = Some (snd other).
Proof.
  intros Ha Hb Hab. simpl. unfold restoreProject. rewrite Ha. simpl.
  rewrite lookup_insert_ne by exact Hab. rewrite Hb. simpl.
  rewrite lookup_delete_eq. simpl.
  repeat split; [lia |].
  rewrite lookup_insert_ne by congruence.
  rewrite lookup_delete_ne by exact Hab.
  now rewrite lookup_insert_eq.
Qed.

End RestoreServiceMore.

(** ** More on the message-history store operation *)

Section MessageHistoryMore.
Import Js Model Coordinator MessageHistory.
Context {DB : Type} {store : LocalHistoryStore DB}.
Implicit Type h : Hook DB.

Lemma filter_storable_none (messages : list Message) :
  (forall m, In m messages -> includesTag "no-store" m = true) ->
  filter (fun m => storable m = true) messages = [].
Proof.
  intros Hall. induction messages as [|m rest IH]; [reflexivity |].
  rewrite filter_cons.
  destruct (decide (storable m = true)) as [Hm | _].
  - unfold storable in Hm. rewrite (Hall m) in Hm by now left. discriminate.
  - apply IH. intros m' Hm'. apply Hall. now right.
Qed.

(** A non-empty list in which every message is annotated ['no-store'] makes
    the operation reject (it reads [.role] of the last of no messages):
    nothing is written locally, nothing is posted, no snapshot is taken. *)
Theorem store_only_no_store_rejects o (messages : list Message) d h :
  db h = Some d ->
  messages <> [] ->
  (forall m, In m messages -> includesTag "no-store" m = true) ->
  rejected (snd (storeMessageHistory o messages h)) = true /\
  setMessagesCalls (fst (storeMessageHistory o messages h)) = setMessagesCalls h /\
  db (fst (storeMessageHistory o messages h)) = db h /\
  remotePosts (snd (storeMessageHistory o messages h)) = [] /\
  snapshotTaken (snd (storeMessageHistory o messages h)) = None.
Proof.
  intros Hdb Hne Hall. unfold storeMessageHistory. rewrite Hdb.
  destruct messages as [|m0 rest]; [congruence |].
  change (length (m0 :: rest) =? 0)%nat with false. cbv iota.
  rewrite (filter_storable_none _ Hall). simpl.
  destruct (negb (truthy (urlId h)) && truthy (firstArtifactId o)); simpl; now rewrite ?Hdb.
Qed.

(** The snapshot is taken under the chat id the hook has when the operation
    starts: on a chat that has no id yet, the operation assigns the next id
    and writes the record under it, but takes no snapshot. *)
Theorem new_chat_stored_without_snapshot o (messages : list Message) d d' lastMessage h :
  db h = Some d ->
  truthy (chatId h) = false ->
  initialMessages h = [] ->
  truthyString (nextIdFromStore o) = true ->
  last (filter (fun m => storable m = true) messages) = Some lastMessage ->
  (forall u desc,
      setMessages d (nextIdFromStore o)
        (archived h ++ filter (fun m => storable m = true) messages) u desc
      = Returned d') ->
  snapshotTaken (snd (storeMessageHistory o messages h)) = None /\
  chatId (fst (storeMessageHistory o messages h)) = Some (nextIdFromStore o) /\
  setMessagesCalls (fst (storeMessageHistory o messages h))
  = setMessagesCalls h
    ++ [(nextIdFromStore o, archived h ++ filter (fun m => storable m = true) messages)] /\
  db (fst (storeMessageHistory o messages h)) = Some d'.
Proof.
  intros Hdb Hchat Hinit Hnext Hlast Hwrite. unfold storeMessageHistory. rewrite Hdb.
  destruct messages as [|m0 rest]; [discriminate |].
  change (length (m0 :: rest) =? 0)%nat with false. cbv iota.
  rewrite Hlast, Hinit.
  set (takesUrlId := negb (truthy (urlId h)) && truthy (firstArtifactId o)).
  assert (Hchat1 : truthy (chatId (if takesUrlId then setUrlId (Some (urlIdFromStore o)) h
                                   else h)) = false).
  { destruct takesUrlId; exact Hchat. }
  rewrite Hchat1.
  match goal with
  | |- context [negb (truthy (chatId ?h2))] =>
      assert (Hchat2 : truthy (chatId h2) = false)
  end.
  { repeat match goal with
           | |- context [if ?c then _ else _] => destruct c
           end; simpl; exact Hchat. }
  rewrite Hchat2. simpl. rewrite Hnext. rewrite Hwrite. simpl.
  repeat split.
  repeat match goal with
         | |- context [if ?c then _ else _] => destruct c
         end; reflexivity.
Qed.

(** The remote store is only reached through the local one: whenever the
    operation posts to the messages route it has written the same chat
    locally in the same call, and it starts the sync services only for a
    project whose post was accepted. *)
Theorem remote_sync_follows_local_write o (messages : list Message) h :
  (remotePosts (snd (storeMessageHistory o messages h)) <> [] ->
   exists finalChatId d',
     setMessagesCalls (fst (storeMessageHistory o messages h))
     = setMessagesCalls h
       ++ [(finalChatId, archived h ++ filter (fun m => storable m = true) messages)] /\
     db (fst (storeMessageHistory o messages h)) = Some d' /\
     rejected (snd (storeMessageHistory o messages h)) = false) /\
  (forall projectId,
     syncServicesStarted (snd (storeMessageHistory o messages h)) = Some projectId ->
     messagesResponse o = RespOk /\
     ensuredProject o = Some projectId /\
     exists posted, remotePosts (snd (storeMessageHistory o messages h))
                    = [(projectId, posted)]).
Proof.
  unfold storeMessageHistory.
  destruct (db h) as [d|]; [| split; [intros [] | discriminate]; reflexivity].
  destruct (length messages =? 0)%nat; [split; [intros [] | discriminate]; reflexivity |].
  set (kept := filter (fun m : Message => storable m = true) messages).
  set (takesUrlId := negb (truthy (urlId h)) && truthy (firstArtifactId o)).
  destruct (last kept) as [lastMessage|];
    [| split; [intros [] | discriminate]; reflexivity].
  match goal with
  | |- context [match chatId ?h3 with _ => _ end] => set (hook3 := h3)
  end.
  assert (Hcalls : setMessagesCalls hook3 = setMessagesCalls h).
  { subst hook3.
    repeat match goal with
           | |- context [if ?c then _ else _] => destruct c
           end; reflexivity. }
  destruct (chatId hook3) as [finalChatId|];
    [| split; [intros [] | discriminate]; reflexivity].
  destruct (truthyString finalChatId);
    [| split; [intros [] | discriminate]; reflexivity].
  destruct (setMessages d finalChatId (archived h ++ kept) (urlId h) (description hook3))
    as [d'|e]; simpl; [| split; [intros [] | discriminate]; reflexivity].
  split.
  - intros _. exists finalChatId, d'. now rewrite Hcalls.
  - intros projectId. unfold syncMessagesToSupabase.
    destruct (ensuredProject o) as [pid|]; [| simpl; intros Hnone; discriminate Hnone].
    destruct (truthyString pid); [| simpl; intros Hnone; discriminate Hnone].
    cbv zeta.
    destruct (length (map toSynced (filter (fun m => storable m = true) kept)) =? 0)%nat;
      [simpl; intros Hnone; discriminate Hnone |].
    destruct (messagesResponse o); simpl;
      [| intros Hnone; discriminate Hnone | intros Hnone; discriminate Hnone].
    intros [= <-]. eauto.
Qed.

End MessageHistoryMore.

(** ** More on the sync services *)

Section SyncMore.
Import Js Model SyncAgent.
Context {World State Body : Type}.
Context {stateJson : Serializer State} {bodyJson : Serializer Body}.
Context (route : string) (toBody : State -> Body).
Implicit Type s : Service World State.

(** [start] rebinds the project and the getter but keeps the last synced
    serialization: a service started for another project whose state
    serializes to what was last synced (for the previous project) makes no
    write, so the new project receives nothing until the state changes. *)
Theorem start_keeps_last_synced pid getState response w s :
  truthyString pid = true ->
  stringify (getState w) = lastSynced s ->
  snd (start route toBody pid getState response w s) = [] /\
  projectId (fst (start route toBody pid getState response w s)) = Some pid /\
  lastSynced (fst (start route toBody pid getState response w s)) = lastSynced s /\
  forall response', snd (sync route toBody response' w
                           (fst (start route toBody pid getState response w s))) = [].
Proof.
  intros Hpid Heq. unfold start.
  assert (Hstarted : started (mkService (Some pid) true (lastSynced s) (Some getState))
                             pid getState) by now repeat split.
  rewrite (sync_skips route toBody response w _ pid getState Hstarted Heq).
  simpl. repeat split.
  intros response'.
  now rewrite (sync_skips route toBody response' w _ pid getState Hstarted Heq).
Qed.

(** [forceSave] of a started service writes whenever the serialization is
    not the empty string, also when nothing changed.  When that write is
    accepted the serialization becomes the last synced one; when it is not,
    the previous mark is lost too, so the next sync writes again. *)
Theorem forceSave_always_writes pid getState response w s :
  started s pid getState ->
  stringify (getState w) <> "" ->
  snd (forceSave route toBody response w s)
  = [mkRequest (endpoint route pid) (stringify (toBody (getState w)))] /\
  lastSynced (fst (forceSave route toBody response w s))
  = match response with
    | RespOk => stringify (getState w)
    | _ => ""
    end /\
  (response <> RespOk ->
   forall response',
     snd (sync route toBody response' w (fst (forceSave route toBody response w s)))
     = [mkRequest (endpoint route pid) (stringify (toBody (getState w)))]).
Proof.
  intros (Hp & Ht & Hg) Hne. unfold forceSave.
  assert (Hs : started (setLastSynced "" s) pid getState) by now repeat split.
  destruct (sync_writes route toBody response w (setLastSynced "" s) pid getState Hs Hne)
    as [Hw Hf].
  rewrite Hw, Hf. repeat split.
  - destruct response; reflexivity.
  - intros Hfail response'.
    assert (Hkeep : match response with
                    | RespOk => setLastSynced (stringify (getState w)) (setLastSynced "" s)
                    | _ => setLastSynced "" s
                    end = setLastSynced "" s).
    { destruct response; [congruence | reflexivity | reflexivity]. }
    rewrite Hkeep.
    exact (proj1 (sync_writes route toBody response' w _ pid getState Hs Hne)).
Qed.

(** The unload path leaves no mark: after [syncNow] has handed a changed
    state to the beacon, the next [sync] over the same state sends the same
    body again, and a second [syncNow] queues it again as well. *)
Theorem syncNow_leaves_no_mark pid getState response w s :
  started s pid getState ->
  stringify (getState w) <> lastSynced s ->
  syncNow route toBody w s
  = [mkRequest (endpoint route pid) (stringify (toBody (getState w)))] /\
  snd (sync route toBody response w s) = syncNow route toBody w s /\
  (stringify (getState w) = lastSynced (fst (sync route toBody response w s)) ->
   response = RespOk /\
   syncNow route toBody w (fst (sync route toBody response w s)) = []).
Proof.
  intros Hs Hne.
  destruct (sync_writes route toBody response w s pid getState Hs Hne) as [Hw Hf].
  assert (Hnow : syncNow route toBody w s
                 = [mkRequest (endpoint route pid) (stringify (toBody (getState w)))]).
  { destruct Hs as (Hp & Ht & Hg). unfold syncNow. rewrite Hp, Hg, Ht.
    apply String.eqb_neq in Hne. now rewrite Hne. }
  split; [exact Hnow | split; [congruence |]].
  intros Heq. rewrite Hf in *.
  destruct response; [| congruence | congruence].
  split; [reflexivity |].
  destruct Hs as (Hp & Ht & Hg). unfold syncNow. simpl. rewrite Hp, Hg, Ht.
  now rewrite String.eqb_refl.
Qed.

End SyncMore.

(** ** More on the files route and the load route *)

Section RouteMore.
Import Js Model FilesRoute.

Lemma upsert_lookup (rows : list FileRow) (table : gmap (string * string) StoredFile)
    (key : string * string) :
  upsert rows table !! key
  = match last (filter (fun row => (project_id row, file_path row) = key) rows) with
    | Some row => Some (mkStored (row_content row) (file_type row) (size_bytes row))
    | None => table !! key
    end.
Proof.
  unfold upsert.
  exact (foldl_insert_lookup (fun row => (project_id row, file_path row))
           (fun row => mkStored (row_content row) (file_type row) (size_bytes row))
           rows table key).
Qed.

Lemma action_db (userId projectId : option string) (files : gmap string FileData)
    (upsertFails : bool) (db : Database) :
  projects (snd (action userId projectId files upsertFails db)) = projects db /\
  (project_files (snd (action userId projectId files upsertFails db)) = project_files db \/
   exists pid count,
     projectId = Some pid /\
     fst (action userId projectId files upsertFails db) = Saved count /\
     project_files (snd (action userId projectId files upsertFails db))
     = upsert (filesToUpsert pid files) (project_files db)).
Proof.
  unfold action.
  destruct userId as [uid|]; [| now split; [| left]].
  destruct projectId as [pid|]; [| now split; [| left]].
  destruct (truthyString uid && truthyString pid); [| now split; [| left]].
  destruct (projectById pid uid db); [| now split; [| left]].
  destruct (length (filesToUpsert pid files) =? 0)%nat; [now split; [| left] |].
  destruct upsertFails; [now split; [| left] |].
  split; [reflexivity |]. right. simpl. eauto.
Qed.

(** A save touches only the rows of the posted entries of type ['file'] of
    the addressed project: the rows of every other project, the rows of
    paths that were not posted (files deleted locally stay stored) and the
    rows at the paths of posted folders are what they were, whatever the
    outcome of the request. *)
Theorem save_touches_only_posted_files
    (userId projectId : option string) (files : gmap string FileData)
    (upsertFails : bool) (db : Database) (project path : string) :
  (projectId <> Some project \/
   files !! path = None \/
   exists entry, files !! path = Some entry /\ fd_type entry <> "file") ->
  project_files (snd (action userId projectId files upsertFails db)) !! (project, path)
  = project_files db !! (project, path).
Proof.
  intros Hout.
  destruct (action_db userId projectId files upsertFails db)
    as [_ [-> | (pid & count & -> & _ & ->)]]; [reflexivity |].
  rewrite upsert_lookup.
  destruct (last _) as [row|] eqn:Hlast; [| reflexivity].
  exfalso. apply last_filter_In in Hlast as [Hin Hkey].
  apply filesToUpsert_In in Hin as (path' & entry & Hlook & Htype & ->).
  simpl in Hkey. injection Hkey as Hproject Hpath. subst.
  destruct Hout as [Hother | [Hmissing | (entry' & Hentry & Hfolder)]]; congruence.
Qed.

(** Saving is idempotent: posting the same file map to the same project a
    second time leaves the database exactly as the first post left it. *)
Theorem save_is_idempotent
    (userId projectId : option string) (files : gmap string FileData) (db : Database) :
  snd (action userId projectId files false
         (snd (action userId projectId files false db)))
  = snd (action userId projectId files false db) /\
  (forall count, fst (action userId projectId files false db) = Saved count ->
     fst (action userId projectId files false
            (snd (action userId projectId files false db))) = Saved count).
Proof.
  unfold action.
  destruct userId as [uid|]; [| now split].
  destruct projectId as [pid|]; [| now split].
  destruct (truthyString uid && truthyString pid) eqn:Hauth; [| now split].
  unfold projectById.
  destruct (single (filter _ (projects db))) as [project|] eqn:Hproject;
    [| simpl; rewrite Hproject; now split].
  destruct (length (filesToUpsert pid files) =? 0)%nat eqn:Hlen;
    [simpl; rewrite Hproject; now split |].
  simpl. rewrite Hproject. simpl.
  split; [| now intros count [= <-]].
  f_equal. apply map_eq. intros key. rewrite !upsert_lookup.
  now destruct (last _).
Qed.

(** A text file survives the round trip from the files route to the load
    route ([GET /api/projects/:projectId/load]): a posted entry of type
    ['file'] that is not binary and has a content is, after a successful
    save, in the load route's file map as a file with that content and
    [isBinary] false. *)
Theorem text_content_round_trips
    (userId : option string) (projectId : string) (files : gmap string FileData)
    (db : Database) (count : nat) (path content : string) (flag : option bool) :
  fst (action userId (Some projectId) files false db) = Saved count ->
  files !! path = Some (mkFileData "file" (Some content) flag) ->
  flag <> Some true ->
  forall reader requested project (fileMap : gmap string Dirent),
    loader reader requested false
      (snd (action userId (Some projectId) files false db))
    = Loaded project fileMap ->
    proj_id project = projectId ->
    fileMap !! path = Some (File content false).
Proof.
  intros Hsaved Hfile Htext reader requested project fileMap Hload Hproject.
  assert (Hbin : isBinaryFlag (mkFileData "file" (Some content) flag) = false).
  { unfold isBinaryFlag. simpl. destruct flag as [[|]|]; congruence. }
  assert (Hstored : exists size,
             project_files (snd (action userId (Some projectId) files false db))
               !! (projectId, path) = Some (mkStored (Some content) text size)).
  { unfold action in *.
    destruct userId as [uid|]; [| discriminate].
    destruct (truthyString uid && truthyString projectId); [| discriminate].
    destruct (projectById projectId uid db); [| discriminate].
    destruct (length (filesToUpsert projectId files) =? 0)%nat; [discriminate |].
    simpl. rewrite (upsert_posted _ _ _ _ _ Hfile eq_refl).
    unfold toRow. simpl. rewrite Hbin. simpl. eauto. }
  destruct Hstored as [size Hstored].
  unfold loader in Hload.
  destruct reader as [uid|]; [| discriminate].
  destruct requested as [pid|]; [| discriminate].
  destruct (truthyString uid && truthyString pid); [| discriminate].
  destruct (orElse _ _) as [found|]; [| discriminate].
  injection Hload as -> <-.
  rewrite Hproject, toFileMap_lookup, Hstored. simpl.
  unfold toDirent. simpl. unfold truthyString.
  destruct (String.eqb_spec content ""); simpl; congruence.
Qed.

Lemma single_filter_In {A : Type} (P : A -> Prop) `{forall x, Decision (P x)}
    (rows : list A) (row : A) :
  single (filter P rows) = Some row -> In row rows /\ P row.
Proof.
  unfold single. destruct (filter P rows) as [|x [|y rest]] eqn:Hf; try discriminate.
  intros [= <-].
  assert (x ∈ filter P rows) as Hin by (rewrite Hf; set_solver).
  apply list_elem_of_filter in Hin as [HP Hin].
  split; [now apply list_elem_of_In | exact HP].
Qed.

(** Ownership isolation of the load route
    ([GET /api/projects/:projectId/load]): a project is only ever loaded for
    the caller who owns it, found by its id or else by its url id, and the
    file map returned with it holds exactly the rows stored under that
    project's id: no row of another project appears. *)
Theorem load_only_own_project
    (userId projectId : option string) (db : Database) (project : Project)
    (fileMap : gmap string Dirent) :
  loader userId projectId false db = Loaded project fileMap ->
  In project (projects db) /\
  userId = Some (clerk_user_id project) /\
  (projectId = Some (proj_id project) \/ projectId = Some (proj_url_id project)) /\
  forall path : string,
    fileMap !! path = toDirent <$> project_files db !! (proj_id project, path).
Proof.
  unfold loader.
  destruct userId as [uid|]; [| discriminate].
  destruct projectId as [pid|]; [| discriminate].
  destruct (truthyString uid && truthyString pid); [| discriminate].
  destruct (projectById pid uid db) as [byId|] eqn:Hid; simpl.
  - intros [= <- <-]. unfold projectById in Hid.
    apply single_filter_In in Hid as [Hin [Hp Hu]].
    repeat split; [exact Hin | congruence | left; congruence |].
    intros path. apply toFileMap_lookup.
  - destruct (projectByUrlId pid uid db) as [byUrl|] eqn:Hurl; [| discriminate].
    intros [= <- <-]. unfold projectByUrlId in Hurl.
    apply single_filter_In in Hurl as [Hin [Hp Hu]].
    repeat split; [exact Hin | congruence | right; congruence |].
    intros path. apply toFileMap_lookup.
Qed.

(** A request that does not end in [Saved] leaves the database untouched,
    and [Saved] reports the number of posted entries of type ['file'], which
    is then positive; a caller who does not own the project never gets
    [Saved]. *)
Theorem save_outcomes
    (userId projectId : option string) (files : gmap string FileData)
    (upsertFails : bool) (db : Database) :
  ((forall count, fst (action userId projectId files upsertFails db) <> Saved count) ->
   snd (action userId projectId files upsertFails db) = db) /\
  (forall count,
     fst (action userId projectId files upsertFails db) = Saved count ->
     count = length (filter (fun entry => fd_type (snd entry) = "file")
                            (map_to_list files)) /\
     (0 < count)%nat /\
     upsertFails = false /\
     exists uid pid project,
       userId = Some uid /\ projectId = Some pid /\
       In project (projects db) /\
       proj_id project = pid /\ clerk_user_id project = uid).
Proof.
  unfold action.
  destruct userId as [uid|]; [| split; [reflexivity | discriminate]].
  destruct projectId as [pid|]; [| split; [reflexivity | discriminate]].
  destruct (truthyString uid && truthyString pid); [| split; [reflexivity | discriminate]].
  destruct (projectById pid uid db) as [project|] eqn:Hproject;
    [| split; [reflexivity | discriminate]].
  destruct (length (filesToUpsert pid files) =? 0)%nat eqn:Hlen;
    [split; [reflexivity | discriminate] |].
  destruct upsertFails; [split; [reflexivity | discriminate] |].
  simpl. split.
  - intros Hnever. exfalso. now apply (Hnever (length (filesToUpsert pid files))).
  - intros count [= <-].
    apply Nat.eqb_neq in Hlen.
    unfold projectById in Hproject. apply single_filter_In in Hproject as [Hin [Hp Hu]].
    repeat split.
    + unfold filesToUpsert. now rewrite length_map.
    + lia.
    + exists uid, pid, project. repeat split; assumption.
Qed.

End RouteMore.

(** ** Sandbox paths *)

Section PathFacts.
Import Js Path.



Lemma split_nonempty (s : string) : split s <> [].
Proof.
  destruct s as [|c s]; simpl; [discriminate |].
  destruct (Ascii.eqb c slash); [discriminate |].
  destruct (split s); discriminate.
Qed.

Lemma join_cons (sep s : string) (rest : list string) :
  rest <> [] -> join sep (s :: rest) = s +:+ sep +:+ join sep rest.
Proof. destruct rest; [congruence | reflexivity]. Qed.

Lemma join_split (s : string) : join "/" (split s) = s.
Proof.
  induction s as [|c s IH]; [reflexivity |].
  simpl split. destruct (Ascii.eqb_spec c slash) as [-> | Hc].
  - rewrite join_cons by apply split_nonempty. now rewrite IH.
  - pose proof (split_nonempty s) as Hne.
    destruct (split s) as [|segment segments]; [congruence |].
    destruct segments as [|next more].
    + simpl in *. now f_equal.
    + rewrite join_cons by discriminate.
      rewrite join_cons in IH by discriminate.
      rewrite <- IH. reflexivity.
Qed.

Lemma join_snoc (sep : string) (init : list string) (final : string) :
  init <> [] -> join sep (init ++ [final]) = join sep init +:+ sep +:+ final.
Proof.
  induction init as [|s init IH]; [congruence |]. intros _.
  destruct init as [|t init'].
  - reflexivity.
  - change ((s :: t :: init') ++ [final]) with (s :: ((t :: init') ++ [final])).
    rewrite join_cons by (destruct init'; discriminate).
    rewrite IH by discriminate.
    rewrite (join_cons sep s (t :: init')) by discriminate.
    now rewrite !append_assoc.
Qed.

Lemma slice_init {A : Type} (l : list A) (x : A) :
  slice (l ++ [x]) 0 (-1) = l.
Proof.
  unfold slice, relativeIndex. rewrite length_app. simpl.
  replace (Z.max (Z.of_nat (length l + 1) + -1) 0) with (Z.of_nat (length l)) by lia.
  rewrite (Z.min_l 0) by lia. simpl. rewrite drop_0.
  rewrite Z.sub_0_r, Nat2Z.id. apply take_app_length.
Qed.

(** The directory a writer creates before writing a file is the file's path
    up to its last slash: whenever [parentDir] is not empty, the path is the
    parent, a slash, and a last segment; and splitting a path at its slashes
    and joining it again gives the path back. *)
Theorem parent_dir_is_path_prefix (filePath : string) :
  join "/" (split filePath) = filePath /\
  (truthyString (parentDir filePath) = true ->
   exists base, filePath = parentDir filePath +:+ "/" +:+ base /\
                last (split filePath) = Some base).
Proof.
  split; [apply join_split |].
  unfold parentDir. intros Htruthy.
  pose proof (split_nonempty filePath) as Hne.
  destruct (exists_last Hne) as (init & base & Hsplit).
  rewrite Hsplit, slice_init in *.
  exists base. split; [| now rewrite last_snoc].
  destruct init as [|s init]; [discriminate Htruthy |].
  rewrite <- (join_split filePath) at 1. rewrite Hsplit.
  now apply join_snoc.
Qed.





End PathFacts.

(** ** Writing a file map into the sandbox *)

Section WriterFacts.
Import Js Model Path Sandbox.
Context (normalize : string -> string).

Lemma written_app (a b : Trace) : written (a ++ b) = written a ++ written b.
Proof. unfold written. apply omap_app. Qed.

Lemma createFolders_calls fails history (entries : FileMap) :
  map fst (createFolders normalize fails history entries)
  = map Mkdir (wantedFolders normalize entries).
Proof.
  revert history. induction entries as [|[key value] rest IH]; intros history;
    [reflexivity |].
  simpl. unfold wantedFolders in *. simpl.
  destruct value as [[|c b]|]; simpl; try apply IH.
  destruct (truthyString (normalize key)); simpl; [f_equal |]; apply IH.
Qed.

Lemma createFolders_written fails history (entries : FileMap) :
  written (createFolders normalize fails history entries) = [].
Proof.
  revert history. induction entries as [|[key value] rest IH]; intros history;
    [reflexivity |].
  simpl. destruct value as [[|c b]|]; simpl; try apply IH.
  destruct (truthyString (normalize key)); simpl; apply IH.
Qed.

Lemma writeOne_cases fails history (filePath content : string) (isBinary : bool) :
  let write := WriteFile filePath content (negb isBinary) in
  (written (writeOne fails history filePath content isBinary)
   = [(filePath, content, negb isBinary)] /\
   In (write, true) (writeOne fails history filePath content isBinary)) \/
  (written (writeOne fails history filePath content isBinary) = [] /\
   (In (write, false) (writeOne fails history filePath content isBinary) \/
    In (Mkdir (parentDir filePath), false)
       (writeOne fails history filePath content isBinary))).
Proof.
  simpl. unfold writeOne.
  destruct (truthyString (parentDir filePath)).
  - destruct (fails history (Mkdir (parentDir filePath))).
    + right. split; [reflexivity | right; now left].
    + destruct (fails _ (WriteFile _ _ _)); simpl.
      * right. split; [reflexivity | left; right; now left].
      * left. split; [reflexivity | right; now left].
  - destruct (fails _ (WriteFile _ _ _)); simpl.
    + right. split; [reflexivity | left; now left].
    + left. split; [reflexivity | now left].
Qed.

Lemma writeFiles_sublist fails history (entries : FileMap) :
  written (writeFiles normalize fails history entries)
  `sublist_of` wanted normalize entries.
Proof.
  revert history. induction entries as [|[key value] rest IH]; intros history;
    [reflexivity |].
  simpl. unfold wanted in *. simpl.
  destruct value as [[|c b]|]; simpl; try apply IH.
  destruct (truthyString (normalize key)); simpl; [| apply IH].
  rewrite written_app.
  destruct (writeOne_cases fails history (normalize key) c b) as [[-> _] | [-> _]]; simpl.
  - apply sublist_skip, IH.
  - apply sublist_cons, IH.
Qed.

Lemma writeFiles_each fails history (entries : FileMap)
    (filePath content : string) (utf8 : bool) :
  In (filePath, content, utf8) (wanted normalize entries) ->
  In (WriteFile filePath content utf8, true) (writeFiles normalize fails history entries) \/
  In (WriteFile filePath content utf8, false) (writeFiles normalize fails history entries) \/
  In (Mkdir (parentDir filePath), false) (writeFiles normalize fails history entries).
Proof.
  revert history. induction entries as [|[key value] rest IH]; intros history Hin;
    [destruct Hin |].
  simpl. unfold wanted in *. simpl in Hin.
  destruct value as [[|c b]|]; simpl in *; try (apply IH; exact Hin).
  destruct (truthyString (normalize key)); simpl in *; [| apply IH; exact Hin].
  destruct Hin as [[= <- <- <-] | Hin].
  - destruct (writeOne_cases fails history (normalize key) c b)
      as [[_ H] | [_ [H | H]]]; rewrite !in_app_iff; tauto.
  - destruct (IH (history ++ map fst (writeOne fails history (normalize key) c b)) Hin)
      as [H | [H | H]]; rewrite !in_app_iff; tauto.
Qed.

Lemma writeFiles_no_failures history (entries : FileMap) :
  written (writeFiles normalize (fun _ _ => false) history entries)
  = wanted normalize entries.
Proof.
  revert history. induction entries as [|[key value] rest IH]; intros history;
    [reflexivity |].
  simpl. unfold wanted in *. simpl.
  destruct value as [[|c b]|]; simpl; try apply IH.
  destruct (truthyString (normalize key)); simpl; [| apply IH].
  rewrite written_app, IH. unfold writeOne.
  now destruct (truthyString (parentDir (normalize key))).
Qed.

(** In the trace of the second loop, a write of a path that has a parent
    directory comes right after the successful [mkdir] of that parent. *)
Lemma writeFiles_parent_first fails history (entries : FileMap) (i : nat)
    (filePath content : string) (utf8 ok : bool) :
  writeFiles normalize fails history entries !! i
  = Some (WriteFile filePath content utf8, ok) ->
  truthyString (parentDir filePath) = true ->
  exists k, i = S k /\
    writeFiles normalize fails history entries !! k
    = Some (Mkdir (parentDir filePath), true).
Proof.
  revert history i. induction entries as [|[key value] rest IH]; intros history i Hi Hp;
    [discriminate |].
  cbn [writeFiles] in *.
  destruct value as [[|c b]|]; try (apply IH; assumption).
  destruct (truthyString (normalize key)); [| apply IH; assumption].
  set (calls := writeOne fails history (normalize key) c b) in *.
  destruct (decide (i < length calls)%nat) as [Hlt | Hge].
  - rewrite lookup_app_l in Hi by exact Hlt.
    subst calls. unfold writeOne in *.
    destruct (truthyString (parentDir (normalize key))) eqn:Hparent.
    + destruct (fails history (Mkdir (parentDir (normalize key)))).
      * destruct i as [|[|i]]; simpl in Hi; try discriminate.
      * destruct i as [|[|[|i]]]; simpl in Hi; try discriminate.
        injection Hi as <- <- <- <-. exists 0%nat. split; reflexivity.
    + destruct i as [|[|i]]; simpl in Hi; try discriminate.
      injection Hi as <- <- <- <-. congruence.
  - rewrite lookup_app_r in Hi by lia.
    destruct (IH _ _ Hi Hp) as (k & Hk & Hlookup).
    exists (length calls + k)%nat. split; [lia |].
    rewrite lookup_app_r by lia.
    replace (length calls + k - length calls)%nat with k by lia. exact Hlookup.
Qed.

(** The generic writer: what its trace looks like. *)
Lemma populate_shape fails verify (entries : FileMap) :
  exists folders files checked,
    fst (populate normalize fails verify entries)
    = folders ++ files ++ [(verify, checked)] /\
    map fst folders = map Mkdir (wantedFolders normalize entries) /\
    files = writeFiles normalize fails (map fst folders) entries /\
    snd (populate normalize fails verify entries) = length (written files).
Proof.
  unfold populate. simpl.
  exists (createFolders normalize fails [] entries),
         (writeFiles normalize fails
            (map fst (createFolders normalize fails [] entries)) entries),
         (negb (fails (map fst (createFolders normalize fails [] entries
                                ++ writeFiles normalize fails
                                     (map fst (createFolders normalize fails [] entries))
                                     entries)) verify)).
  repeat split. apply createFolders_calls.
Qed.

Lemma populate_parent_first fails verify (entries : FileMap) (i : nat)
    (filePath content : string) (utf8 ok : bool) :
  (forall p c u, verify <> WriteFile p c u) ->
  fst (populate normalize fails verify entries) !! i
  = Some (WriteFile filePath content utf8, ok) ->
  (length (wantedFolders normalize entries) <= i)%nat /\
  (truthyString (parentDir filePath) = true ->
   exists k, i = S k /\
     fst (populate normalize fails verify entries) !! k
     = Some (Mkdir (parentDir filePath), true)).
Proof.
  intros Hverify.
  destruct (populate_shape fails verify entries)
    as (folders & files & checked & -> & Hfolders & Hfiles & _).
  assert (Hlen : length folders = length (wantedFolders normalize entries)).
  { rewrite <- (length_map fst folders), Hfolders. apply length_map. }
  intros Hi.
  destruct (decide (i < length folders)%nat) as [Hlt | Hge].
  { rewrite lookup_app_l in Hi by exact Hlt.
    assert (Hfst : map fst folders !! i = Some (WriteFile filePath content utf8))
      by (rewrite list_lookup_fmap, Hi; reflexivity).
    rewrite Hfolders, list_lookup_fmap in Hfst.
    destruct (wantedFolders normalize entries !! i); discriminate. }
  rewrite lookup_app_r in Hi by lia.
  split; [lia |]. intros Hparent.
  destruct (decide (i - length folders < length files)%nat) as [Hin | Hout].
  - rewrite lookup_app_l in Hi by exact Hin. rewrite Hfiles in Hi.
    destruct (writeFiles_parent_first _ _ _ _ _ _ _ _ Hi Hparent) as (k & Hk & Hlookup).
    exists (length folders + k)%nat. split; [lia |].
    rewrite lookup_app_r by lia.
    replace (length folders + k - length folders)%nat with k by lia.
    rewrite lookup_app_l; [now rewrite Hfiles |].
    apply lookup_lt_Some in Hlookup. now rewrite Hfiles.
  - rewrite lookup_app_r in Hi by lia.
    destruct (i - length folders - length files)%nat; simpl in Hi; [| discriminate].
    injection Hi as Hv _. exfalso. exact (Hverify _ _ _ Hv).
Qed.

End WriterFacts.

Section WriterTheorems.
Import Js Model Path Sandbox.

Lemma populate_written normalize fails verify (entries : FileMap) :
  (forall p c u, verify <> WriteFile p c u) ->
  written (fst (populate normalize fails verify entries))
  = written (writeFiles normalize fails
               (map fst (createFolders normalize fails [] entries)) entries) /\
  snd (populate normalize fails verify entries)
  = length (written (fst (populate normalize fails verify entries))).
Proof.
  intros Hverify.
  assert (Hv : forall ok, written [(verify, ok)] = []).
  { intros ok. destruct verify; try reflexivity. exfalso. now eapply Hverify. }
  unfold populate. cbn [fst snd].
  rewrite !written_app, createFolders_written, Hv, app_nil_r. now split.
Qed.

Lemma populate_order normalize fails verify (entries : FileMap) :
  (forall p c u, verify <> WriteFile p c u) ->
  take (length (wantedFolders normalize entries))
       (map fst (fst (populate normalize fails verify entries)))
  = map Mkdir (wantedFolders normalize entries) /\
  forall i filePath content utf8 ok,
    fst (populate normalize fails verify entries) !! i
    = Some (WriteFile filePath content utf8, ok) ->
    (length (wantedFolders normalize entries) <= i)%nat /\
    (truthyString (parentDir filePath) = true ->
     exists k, i = S k /\
       fst (populate normalize fails verify entries) !! k
       = Some (Mkdir (parentDir filePath), true)).
Proof.
  intros Hverify. split.
  - destruct (populate_shape normalize fails verify entries)
      as (folders & files & checked & -> & Hfolders & _ & _).
    rewrite map_app, Hfolders.
    rewrite take_app_length'; [reflexivity | now rewrite length_map].
  - intros i filePath content utf8 ok. now apply populate_parent_first.
Qed.

Lemma populate_isolation normalize fails verify (entries : FileMap) :
  (forall p c u, verify <> WriteFile p c u) ->
  written (fst (populate normalize fails verify entries))
  `sublist_of` wanted normalize entries /\
  snd (populate normalize fails verify entries)
  = length (written (fst (populate normalize fails verify entries))) /\
  forall filePath content utf8,
    In (filePath, content, utf8) (wanted normalize entries) ->
    In (WriteFile filePath content utf8, true)
       (fst (populate normalize fails verify entries)) \/
    In (WriteFile filePath content utf8, false)
       (fst (populate normalize fails verify entries)) \/
    In (Mkdir (parentDir filePath), false)
       (fst (populate normalize fails verify entries)).
Proof.
  intros Hverify.
  destruct (populate_written normalize fails verify entries Hverify) as [Hw Hcount].
  split; [| split; [exact Hcount |]].
  - rewrite Hw. apply writeFiles_sublist.
  - intros filePath content utf8 Hin. unfold populate. simpl.
    destruct (writeFiles_each normalize fails
                (map fst (createFolders normalize fails [] entries)) entries
                _ _ _ Hin) as [H | [H | H]];
      rewrite !in_app_iff; tauto.
Qed.

Lemma createFolders_succeed normalize history (entries : FileMap) :
  Forall (fun call : FsOp * bool => snd call = true)
         (createFolders normalize (fun _ _ => false) history entries).
Proof.
  revert history. induction entries as [|[key value] rest IH]; intros history;
    [constructor |].
  simpl. destruct value as [[|c b]|]; try apply IH.
  destruct (truthyString (normalize key)); [constructor; [reflexivity |] |]; apply IH.
Qed.

Lemma writeFiles_succeed normalize history (entries : FileMap) :
  Forall (fun call : FsOp * bool => snd call = true)
         (writeFiles normalize (fun _ _ => false) history entries).
Proof.
  revert history. induction entries as [|[key value] rest IH]; intros history;
    [constructor |].
  cbn [writeFiles]. destruct value as [[|c b]|]; try apply IH.
  destruct (truthyString (normalize key)); [| apply IH].
  apply Forall_app. split; [| apply IH].
  unfold writeOne. destruct (truthyString (parentDir (normalize key)));
    repeat constructor.
Qed.

Lemma populate_no_failures normalize verify (entries : FileMap) :
  (forall p c u, verify <> WriteFile p c u) ->
  written (fst (populate normalize (fun _ _ => false) verify entries))
  = wanted normalize entries /\
  snd (populate normalize (fun _ _ => false) verify entries)
  = length (wanted normalize entries) /\
  Forall (fun call => snd call = true)
         (fst (populate normalize (fun _ _ => false) verify entries)).
Proof.
  intros Hverify.
  destruct (populate_written normalize (fun _ _ => false) verify entries Hverify)
    as [Hw Hcount].
  rewrite Hcount, Hw, writeFiles_no_failures. repeat split.
  unfold populate. cbn [fst]. rewrite !Forall_app. repeat split.
  - apply createFolders_succeed.
  - apply writeFiles_succeed.
  - repeat constructor.
Qed.

(** Both sandbox writers create the folders first and write files after:
    their trace begins with one [mkdir] per folder entry with a non-empty
    sandbox path, in entry order and whatever rejects; every [writeFile]
    comes after all of these, and when the file has a parent directory, right
    after the successful [mkdir] of that parent. *)
Theorem sandbox_folders_then_files (workdir : string) (fails : Failures)
    (snapshot : Snapshot) (entries : FileMap) :
  (take (length (wantedFolders (snapshotPath workdir) (files snapshot)))
        (map fst (fst (restoreSnapshot workdir fails (Some snapshot))))
   = map Mkdir (wantedFolders (snapshotPath workdir) (files snapshot)) /\
   forall i filePath content utf8 ok,
     fst (restoreSnapshot workdir fails (Some snapshot)) !! i
     = Some (WriteFile filePath content utf8, ok) ->
     (length (wantedFolders (snapshotPath workdir) (files snapshot)) <= i)%nat /\
     (truthyString (parentDir filePath) = true ->
      exists k, i = S k /\
        fst (restoreSnapshot workdir fails (Some snapshot)) !! k
        = Some (Mkdir (parentDir filePath), true))) /\
  (take (length (wantedFolders (servicePath workdir) entries))
        (map fst (fst (writeFilesToWebContainer workdir fails entries)))
   = map Mkdir (wantedFolders (servicePath workdir) entries) /\
   forall i filePath content utf8 ok,
     fst (writeFilesToWebContainer workdir fails entries) !! i
     = Some (WriteFile filePath content utf8, ok) ->
     (length (wantedFolders (servicePath workdir) entries) <= i)%nat /\
     (truthyString (parentDir filePath) = true ->
      exists k, i = S k /\
        fst (writeFilesToWebContainer workdir fails entries) !! k
        = Some (Mkdir (parentDir filePath), true))).
Proof.
  split; apply populate_order; discriminate.
Qed.

(** A rejected call never aborts either writer.  Whatever rejects, the files
    written are a subsequence of the file entries with a non-empty sandbox
    path (same contents, binary files without the utf8 encoding), the
    reported count is their number, and a wanted file is missing only if
    its own [writeFile] or the [mkdir] of its own parent was rejected. *)
Theorem sandbox_failures_are_isolated (workdir : string) (fails : Failures)
    (snapshot : Snapshot) (entries : FileMap) :
  (written (fst (restoreSnapshot workdir fails (Some snapshot)))
   `sublist_of` wanted (snapshotPath workdir) (files snapshot) /\
   snd (restoreSnapshot workdir fails (Some snapshot))
   = length (written (fst (restoreSnapshot workdir fails (Some snapshot)))) /\
   forall filePath content utf8,
     In (filePath, content, utf8) (wanted (snapshotPath workdir) (files snapshot)) ->
     In (WriteFile filePath content utf8, true)
        (fst (restoreSnapshot workdir fails (Some snapshot))) \/
     In (WriteFile filePath content utf8, false)
        (fst (restoreSnapshot workdir fails (Some snapshot))) \/
     In (Mkdir (parentDir filePath), false)
        (fst (restoreSnapshot workdir fails (Some snapshot)))) /\
  (written (fst (writeFilesToWebContainer workdir fails entries))
   `sublist_of` wanted (servicePath workdir) entries /\
   snd (writeFilesToWebContainer workdir fails entries)
   = length (written (fst (writeFilesToWebContainer workdir fails entries))) /\
   forall filePath content utf8,
     In (filePath, content, utf8) (wanted (servicePath workdir) entries) ->
     In (WriteFile filePath content utf8, true)
        (fst (writeFilesToWebContainer workdir fails entries)) \/
     In (WriteFile filePath content utf8, false)
        (fst (writeFilesToWebContainer workdir fails entries)) \/
     In (Mkdir (parentDir filePath), false)
        (fst (writeFilesToWebContainer workdir fails entries))).
Proof.
  split; apply populate_isolation; discriminate.
Qed.

(** When no call rejects, both writers write exactly the file entries with
    a non-empty sandbox path, in entry order, each at its sandbox path with
    its content, and report their number; entries that are folders,
    [undefined], or whose path becomes empty are not written. *)
Theorem sandbox_writes_every_file (workdir : string) (snapshot : Snapshot)
    (entries : FileMap) :
  (written (fst (restoreSnapshot workdir (fun _ _ => false) (Some snapshot)))
   = wanted (snapshotPath workdir) (files snapshot) /\
   snd (restoreSnapshot workdir (fun _ _ => false) (Some snapshot))
   = length (wanted (snapshotPath workdir) (files snapshot)) /\
   Forall (fun call => snd call = true)
          (fst (restoreSnapshot workdir (fun _ _ => false) (Some snapshot)))) /\
  (written (fst (writeFilesToWebContainer workdir (fun _ _ => false) entries))
   = wanted (servicePath workdir) entries /\
   snd (writeFilesToWebContainer workdir (fun _ _ => false) entries)
   = length (wanted (servicePath workdir) entries) /\
   Forall (fun call => snd call = true)
          (fst (writeFilesToWebContainer workdir (fun _ _ => false) entries))).
Proof.
  split; apply populate_no_failures; discriminate.
Qed.

End WriterTheorems.

(** ** The remote restore and the hook *)

Section RemoteRestoreFacts.
Import Js Model Reconciler Coordinator Sandbox ProjectRestore.
Context {DB : Type} {store : LocalHistoryStore DB}.
Implicit Type h : Hook DB.

Lemma restoreFromRemote_toasts mixedId o h :
  (forall e, remoteRestore o <> Threw e) ->
  toasts (restoreFromRemote mixedId o h) = toasts h.
Proof.
  intros Hreturns. unfold restoreFromRemote, writeBack.
  destruct (remoteRestore o) as [[data|] | e]; [| reflexivity | now destruct (Hreturns e)].
  repeat case_match; reflexivity.
Qed.

(** The restore service turns every failure into [null]: a response that is
    not ok, a rejected fetch, a sandbox that does not boot while there are
    files to write.  The hook therefore never shows its restore-error toast
    for a failure inside the service: each such failure sends the caller
    home, with no messages set. *)
Theorem remote_failure_redirects_home
    (response : LoadResponse) (boot : Boot) (wb : Workbench)
    (freshId mixedId : string) (sandbox : outcome unit) h :
  let r := doRestoreProject response boot wb in
  let h' := restoreFromRemote mixedId (oracleOf freshId sandbox r) h in
  toasts h' = toasts h /\
  (result r = None <->
   loadProjectFromSupabase response = None \/
   exists data, response = LoadOk data /\ data_files data <> [] /\ boot = None) /\
  (result r = None ->
   navigatedHome h' = true /\
   initialMessages h' = initialMessages h /\
   chatId h' = chatId h /\
   autoStartTimer r = false).
Proof.
  simpl. split; [| split].
  - apply restoreFromRemote_toasts. intros e. discriminate.
  - unfold doRestoreProject, restoreFiles.
    destruct response as [data | status |]; simpl;
      [| split; [now left | reflexivity] | split; [now left | reflexivity]].
    destruct (data_files data) as [|entry rest] eqn:Hfiles; simpl.
    + split; [discriminate |]. intros [H | (data' & [= <-] & Hne & _)]; congruence.
    + destruct boot as [[workdir fails]|]; simpl.
      * split; [discriminate |]. intros [H | (data' & _ & _ & H)]; discriminate.
      * split; [| reflexivity]. intros _. right. exists data. now rewrite Hfiles.
  - intros Hnone. unfold restoreFromRemote, oracleOf. simpl. rewrite Hnone. simpl.
    repeat split.
    unfold doRestoreProject in *.
    destruct (loadProjectFromSupabase response); [| reflexivity].
    destruct (restoreFiles boot (data_files p) wb) as [[wb1 calls] [|]];
      [reflexivity | discriminate].
Qed.

(** A remote project with files but no messages is restored and then
    abandoned: the service fills the workbench store, writes the sandbox and
    sets the auto-start timer, and the hook, finding no messages, sends the
    caller home.  When instead the sandbox does not boot, the store already
    holds the project's files although the restore reports nothing. *)
Theorem remote_project_without_messages
    (data : ProjectData) (boot : Boot) (wb : Workbench)
    (freshId mixedId : string) (sandbox : outcome unit) h :
  data_files data <> [] ->
  let r := doRestoreProject (LoadOk data) boot wb in
  wb_files (workbench r) = data_files data /\
  wb_documents (workbench r) = data_files data /\
  (forall workdir fails,
     boot = Some (workdir, fails) ->
     data_messages data = [] ->
     autoStartTimer r = true /\
     sandboxCalls r = fst (writeFilesToWebContainer workdir fails (data_files data)) /\
     navigatedHome (restoreFromRemote mixedId (oracleOf freshId sandbox r) h) = true /\
     initialMessages (restoreFromRemote mixedId (oracleOf freshId sandbox r) h)
     = initialMessages h) /\
  (boot = None -> result r = None /\ sandboxCalls r = []).
Proof.
  intros Hfiles. simpl. unfold doRestoreProject, restoreFiles. simpl.
  destruct (data_files data) as [|entry rest] eqn:Hf; [congruence |]. simpl.
  destruct boot as [[workdir fails]|]; simpl.
  - split; [now destruct (data_workbench data) |].
    split; [now destruct (data_workbench data) |].
    split; [| discriminate].
    intros workdir' fails' [= <- <-] Hmessages.
    unfold restoreFromRemote, oracleOf. simpl. rewrite Hmessages.
    repeat split.
  - repeat split; discriminate.
Qed.

End RemoteRestoreFacts.

(** ** The projects route *)

Section ProjectsFacts.
Import Js Model ProjectsRoute.

Lemma insertable_spec (row : ProjectRow) (table : list ProjectRow) :
  insertable row table = true <->
  forall p, In p table -> p_id p <> p_id row /\ p_url_id p <> p_url_id row.
Proof.
  unfold insertable. rewrite forallb_forall. split; intros Hall p Hp.
  - specialize (Hall p Hp). apply andb_true_iff in Hall as [H1 H2].
    apply negb_true_iff, String.eqb_neq in H1, H2. now split.
  - destruct (Hall p Hp) as [H1 H2].
    apply andb_true_iff. split; apply negb_true_iff, String.eqb_neq; assumption.
Qed.

Lemma filter_none {A : Type} (P : A -> Prop) `{forall x, Decision (P x)} (l : list A) :
  (forall x, In x l -> ~ P x) -> filter P l = [].
Proof.
  induction l as [|x l IH]; intros Hall; [reflexivity |].
  rewrite filter_cons. destruct (decide (P x)) as [HP | _].
  - exfalso. apply (Hall x); [now left | exact HP].
  - apply IH. intros y Hy. apply Hall. now right.
Qed.

Lemma touch_other (projectId : string) (now : nat) (table : list ProjectRow) :
  (forall p, In p table -> p_id p <> projectId) -> touch projectId now table = table.
Proof.
  induction table as [|p table IH]; intros Hall; [reflexivity |].
  simpl. destruct (String.eqb_spec (p_id p) projectId) as [Heq | _].
  - exfalso. apply (Hall p); [now left | exact Heq].
  - f_equal. apply IH. intros q Hq. apply Hall. now right.
Qed.

(** Creating a project is idempotent per owner and url id: once a create
    has inserted the project, another create for the same owner and url id,
    whatever title, generated id and time come with it, inserts nothing; it
    answers with the same project, only its [last_opened_at] moved, so
    [ensureProject] yields the same project id both times. *)
Theorem create_is_idempotent
    (uid u : string) (title description title' description' : option string)
    (freshId freshId' : string) (now now' : nat)
    (table table1 : list ProjectRow) (project : ProjectRow) :
  create (Some uid) (Some u) title description freshId now table
  = (Created project, table1) ->
  let touched := mkProjectRow (p_id project) (p_clerk_user_id project) (p_url_id project)
                              (p_title project) (p_description project) now' in
  create (Some uid) (Some u) title' description' freshId' now' table1
  = (Existed touched, table ++ [touched]) /\
  table1 = table ++ [project] /\
  ensureProject (Existed touched) = ensureProject (Created project).
Proof.
  unfold create. intros Hcreate.
  destruct (truthyString uid) eqn:Huid; [| discriminate].
  destruct (truthyString u) eqn:Hu; [| discriminate].
  destruct (single (filter _ table)) as [existing|] eqn:Hexisting.
  { destruct (single _) in Hcreate; discriminate Hcreate. }
  match type of Hcreate with
  | (if insertable ?row _ then _ else _) = _ => set (new := row) in *
  end.
  destruct (insertable new table) eqn:Hins; [| discriminate].
  injection Hcreate as <- <-.
  pose proof (proj1 (insertable_spec new table) Hins) as Hfresh. clear Hins.
  rename Hfresh into Hins.
  simpl. split; [| split; reflexivity].
  assert (Hfilter : filter (fun p => p_url_id p = u /\ p_clerk_user_id p = uid)
                           (table ++ [new]) = [new]).
  { rewrite filter_app, filter_none.
    - rewrite filter_cons. simpl. destruct (decide _) as [_ | Hn]; [reflexivity |].
      exfalso. apply Hn. now split.
    - intros p Hp [Hurl _]. destruct (Hins p Hp) as [_ Hne]. now apply Hne. }
  rewrite Hfilter. simpl.
  assert (Htouch : touch freshId now' (table ++ [new])
                   = table ++ [mkProjectRow freshId uid u (p_title new)
                                            (p_description new) now']).
  { unfold touch. rewrite map_app. fold (touch freshId now' table).
    rewrite touch_other by (intros p Hp; apply (Hins p Hp)).
    simpl. now rewrite String.eqb_refl. }
  rewrite Htouch.
  rewrite filter_app, filter_none.
  - rewrite filter_cons. simpl. destruct (decide _) as [_ | Hn]; [reflexivity |].
    exfalso. now apply Hn.
  - intros p Hp Hid. destruct (Hins p Hp) as [Hne _]. now apply Hne.
Qed.

(** A url id that another user's project holds cannot be created: the
    insert meets the table's [url_id UNIQUE], the route answers with a
    storage error and the table stays as it is, so [ensureProject] yields
    no project id. *)
Theorem create_rejects_foreign_url_id
    (uid u : string) (title description : option string)
    (freshId : string) (now : nat) (table : list ProjectRow) (other : ProjectRow) :
  truthyString uid = true ->
  truthyString u = true ->
  In other table ->
  p_url_id other = u ->
  (forall p, In p table -> p_url_id p = u -> p_clerk_user_id p <> uid) ->
  create (Some uid) (Some u) title description freshId now table
  = (StorageError, table) /\
  ensureProject (fst (create (Some uid) (Some u) title description freshId now table))
  = None.
Proof.
  intros Huid Hu Hin Hurl Hforeign.
  assert (Hcreate : create (Some uid) (Some u) title description freshId now table
                    = (StorageError, table)).
  { unfold create. rewrite Huid, Hu.
    rewrite filter_none by (intros p Hp [Hpu Hpo]; now apply (Hforeign p Hp)).
    simpl.
    match goal with
    | |- (if insertable ?row _ then _ else _) = _ => set (new := row)
    end.
    destruct (insertable new table) eqn:Hins; [| reflexivity].
    exfalso.
    destruct (proj1 (insertable_spec new table) Hins other Hin) as [_ Hne].
    now apply Hne. }
  now rewrite Hcreate.
Qed.

(** The delete intent never asks whether a row matched.  When the database
    reports no error the answer is [Deleted], for the owner's project, for
    another user's and for one that does not exist alike: exactly the rows
    with that id owned by the caller are gone, and nothing changes when no
    such row exists.  When the database reports an error (as for a
    [project_id] that is not a UUID) the answer is a storage error and
    nothing is removed. *)
Theorem delete_only_own_project (uid pid : string) (deleteFails : bool)
    (table : list ProjectRow) :
  truthyString uid = true ->
  truthyString pid = true ->
  fst (delete (Some uid) (Some pid) deleteFails table)
  = (if deleteFails then StorageError else Deleted) /\
  (forall p, In p (snd (delete (Some uid) (Some pid) deleteFails table)) <->
             In p table /\
             ~ (deleteFails = false /\ p_id p = pid /\ p_clerk_user_id p = uid)) /\
  (deleteFails = true \/
   (forall p, In p table -> p_id p = pid -> p_clerk_user_id p <> uid) ->
   snd (delete (Some uid) (Some pid) deleteFails table) = table).
Proof.
  intros Huid Hpid. unfold delete. rewrite Huid, Hpid.
  destruct deleteFails; simpl.
  - split; [reflexivity | split; [| reflexivity]].
    intros p. split; [| tauto].
    intros Hin. split; [exact Hin |]. intros [Hfails _]. discriminate Hfails.
  - split; [reflexivity | split].
    + intros p. rewrite <- !list_elem_of_In, list_elem_of_filter. tauto.
    + intros [Hfails | Hforeign]; [discriminate Hfails |].
      induction table as [|p table IH]; [reflexivity |].
      rewrite filter_cons. destruct (decide _) as [_ | Hn].
      * f_equal. apply IH. intros q Hq. apply Hforeign. now right.
      * exfalso. apply Hn. intros [Hid Hown].
        apply (Hforeign p); [now left | | ]; assumption.
Qed.

End ProjectsFacts.

(** ** The messages route *)

Section MessagesFacts.
Import Js Model MessageHistory MessagesRoute.

Lemma messages_upsert_lookup (projectId : string) (messages : list SyncedMessage)
    (table : gmap (string * string) MessageRow) (key : string * string) :
  upsert projectId messages table !! key
  = match last (filter (fun msg => (projectId, sync_id msg) = key) messages) with
    | Some msg => Some (toRow msg)
    | None => table !! key
    end.
Proof.
  unfold upsert.
  exact (foldl_insert_lookup (fun msg => (projectId, sync_id msg)) toRow
           messages table key).
Qed.

Lemma transformedMessages_In (projectId : string)
    (table : gmap (string * string) MessageRow) (m : Message) :
  In m (transformedMessages projectId table) <->
  exists row, table !! (projectId, id m) = Some row /\ m = toMessage (id m) row.
Proof.
  unfold transformedMessages. rewrite <- list_elem_of_In, list_elem_of_omap. split.
  - intros ([[pid mid] row] & Hin & Hsome). simpl in Hsome.
    destruct (decide (pid = projectId)) as [-> |]; [| discriminate].
    injection Hsome as <-. simpl. exists row.
    split; [now apply elem_of_map_to_list | reflexivity].
  - intros (row & Hlook & Hm). exists ((projectId, id m), row). split.
    + now apply elem_of_map_to_list.
    + simpl. destruct (decide (projectId = projectId)); [| congruence].
      now rewrite Hm.
Qed.

(** The messages the hook syncs come back from the load route as they
    were: after the messages route has saved the payload built from a list
    of messages with distinct ids, every message of the list without
    ['no-store'] is among the messages the load route returns for the
    project, with its id, role, content, parts, tool invocations and
    annotations. *)
Theorem synced_messages_round_trip
    (userId : option string) (projectId : string) (messages : list Message)
    (db : Database) (count : nat) (m : Message) :
  NoDup (map id messages) ->
  fst (action userId (Some projectId)
         (map toSynced (filter (fun m => storable m = true) messages)) false db)
  = Saved count ->
  In m messages ->
  includesTag "no-store" m = false ->
  let db' := snd (action userId (Some projectId)
                    (map toSynced (filter (fun m => storable m = true) messages))
                    false db) in
  chat_messages db' !! (projectId, id m) = Some (toRow (toSynced m)) /\
  toMessage (id m) (toRow (toSynced m)) = m /\
  In m (transformedMessages projectId (chat_messages db')).
Proof.
  intros Hnodup Hsaved Hin Hclean. simpl.
  set (payload := map toSynced (filter (fun m => storable m = true) messages)) in *.
  assert (Hdb : chat_messages (snd (action userId (Some projectId) payload false db))
                = upsert projectId payload (chat_messages db)).
  { unfold action in *.
    destruct userId as [uid|]; [| discriminate].
    destruct (truthyString uid && truthyString projectId); [| discriminate].
    destruct (FilesRoute.single _); [reflexivity | discriminate]. }
  assert (Hround : toMessage (id m) (toRow (toSynced m)) = m) by now destruct m.
  assert (Hrow : upsert projectId payload (chat_messages db) !! (projectId, id m)
                 = Some (toRow (toSynced m))).
  { rewrite messages_upsert_lookup.
    assert (Hm : In (toSynced m) payload).
    { subst payload. apply in_map. apply storable_filter. now split. }
    destruct (last_filter_some (fun msg => (projectId, sync_id msg) = (projectId, id m))
                payload (toSynced m) Hm eq_refl) as [msg Hlast].
    rewrite Hlast. apply last_filter_In in Hlast as [Hmsg Hkey].
    subst payload. apply in_map_iff in Hmsg as (m' & <- & Hm').
    apply storable_filter in Hm' as [Hm' _].
    injection Hkey as Hid. simpl in Hid.
    assert (m' = m) as ->; [| reflexivity].
    clear - Hnodup Hin Hm' Hid.
    induction messages as [|x rest IH]; [destruct Hin |].
    inversion Hnodup as [|? ? Hnotin Hrest]; subst.
    destruct Hin as [<- | Hin], Hm' as [<- | Hm']; try reflexivity.
    - exfalso. apply Hnotin. rewrite <- Hid. apply list_elem_of_In. now apply in_map.
    - exfalso. apply Hnotin. rewrite Hid. apply list_elem_of_In. now apply in_map.
    - now apply IH. }
  rewrite Hdb. repeat split; [exact Hrow | exact Hround |].
  apply transformedMessages_In. exists (toRow (toSynced m)). now split.
Qed.

(** The messages route only adds and replaces: a post leaves every row it
    does not name as it was, those of other projects and those of this
    project alike, so the messages cut off by a rewind stay in the remote
    store; and posting the same messages again changes nothing. *)
Theorem messages_are_never_removed
    (userId projectId : option string) (messages : list SyncedMessage)
    (upsertFails : bool) (db : Database) :
  (forall project message_id,
     (projectId <> Some project \/
      forall msg, In msg messages -> sync_id msg <> message_id) ->
     chat_messages (snd (action userId projectId messages upsertFails db))
       !! (project, message_id)
     = chat_messages db !! (project, message_id)) /\
  (forall key, is_Some (chat_messages db !! key) ->
     is_Some (chat_messages (snd (action userId projectId messages upsertFails db))
                !! key)) /\
  snd (action userId projectId messages false
         (snd (action userId projectId messages false db)))
  = snd (action userId projectId messages false db).
Proof.
  assert (Hshape :
            forall fails,
              snd (action userId projectId messages fails db) = db \/
              exists pid, projectId = Some pid /\
                snd (action userId projectId messages fails db)
                = mkDatabase (projects db) (upsert pid messages (chat_messages db))).
  { intros fails. unfold action.
    destruct userId as [uid|]; [| now left].
    destruct projectId as [pid|]; [| now left].
    destruct (truthyString uid && truthyString pid); [| now left].
    destruct (FilesRoute.single _); [| now left].
    destruct fails; [now left | right; eauto]. }
  split; [| split].
  - intros project message_id Hout.
    destruct (Hshape upsertFails) as [-> | (pid & -> & ->)]; [reflexivity |].
    simpl. rewrite messages_upsert_lookup.
    destruct (last _) as [msg|] eqn:Hlast; [| reflexivity].
    exfalso. apply last_filter_In in Hlast as [Hin Hkey].
    injection Hkey as Hp Hid. subst.
    destruct Hout as [Hother | Hnone]; [congruence | now apply (Hnone msg)].
  - intros key Hsome.
    destruct (Hshape upsertFails) as [-> | (pid & -> & ->)]; [exact Hsome |].
    simpl. rewrite messages_upsert_lookup. now destruct (last _).
  - unfold action.
    destruct userId as [uid|]; [| reflexivity].
    destruct projectId as [pid|]; [| reflexivity].
    destruct (truthyString uid && truthyString pid) eqn:Hauth; [| reflexivity].
    destruct (FilesRoute.single (filter _ (projects db))) as [project|] eqn:Hproject;
      [| simpl; now rewrite Hproject].
    simpl. rewrite Hproject. simpl. f_equal.
    apply map_eq. intros key. rewrite !messages_upsert_lookup.
    now destruct (last _).
Qed.

End MessagesFacts.

(** ** The further properties at concrete inputs *)

Section MoreConcrete.
Import Js Model Reconciler Coordinator Samples MoreSamples.

(** Log [m0 m1 m2] with a snapshot whose [chatIndex] names no message. *)
Lemma unknown_snapshot_shows_history_witness :
  visibleMessages (detector := noCommands) "fresh" log3 (Some (snapshotAt "zz")) None
  = log3 /\
  archivedMessages log3 (Some (snapshotAt "zz")) None = [].
Proof.
  assert (Habsent : forall m, In m log3 ->
                      id m <> chatIndex (validSnapshot (Some (snapshotAt "zz")))).
  { intros m [<- | [<- | [<- | []]]]; discriminate. }
  destruct (unknown_snapshot_shows_history (detector := noCommands) "fresh" log3
              (Some (snapshotAt "zz")) None Habsent)
    as (_ & Harchived & Hvisible).
  split; [rewrite Hvisible; reflexivity | exact Harchived].
Defined.


(** Log [m0 m1 m2 m3], snapshot at [m2], rewind to [m1]. *)
Lemma rewind_before_snapshot_witness :
  archivedMessages log4 (Some (snapshotAt "m2")) (Some "m1") = [] /\
  visibleMessages (detector := noCommands) "fresh" log4 (Some (snapshotAt "m2"))
                  (Some "m1")
  = [msg "m0"; msg "m1"].
Proof.
  assert (Hbefore : 0 <= findIndex (hasId "m1") log4
                    < snapshotIndex log4 (Some (snapshotAt "m2"))).
  { change (0 <= 1 < 2). lia. }
  destruct (rewind_before_snapshot (detector := noCommands) "fresh" log4
              (Some (snapshotAt "m2")) "m1" eq_refl Hbefore)
    as (_ & Harchived & Hvisible).
  split; [exact Harchived | rewrite Hvisible; reflexivity].
Defined.

(** Three activations of a hook without a database. *)
Lemma no_database_never_queries_witness :
  querySequences (foldl (fun acc i => restoreEffect i acc)
                        withoutDatabase [Some "7"; None; Some "8"]) = 0%nat /\
  ready (foldl (fun acc i => restoreEffect i acc)
               withoutDatabase [Some "7"; None; Some "8"]) = true.
Proof.
  destruct (no_database_never_queries
              [Some "7"; None; Some "8"] withoutDatabase eq_refl eq_refl)
    as (Hqueries & _ & Hready).
  split; [exact Hqueries | apply Hready; discriminate].
Defined.

(** Chat ["9"] is unknown locally and the project is missing remotely. *)
Lemma remote_fallback_failures_witness :
  ready (settle (store := memoryStore) (detector := noCommands) "9" None quietOracle
                (mounted (mkStore ∅ ∅))) = true /\
  navigatedHome (settle (store := memoryStore) (detector := noCommands) "9" None
                        quietOracle (mounted (mkStore ∅ ∅))) = true.
Proof.
  assert (Hempty : forall data, remoteRestore quietOracle = Returned (Some data) ->
                                remote_messages data = []).
  { intros data H. discriminate H. }
  assert (Hunknown : getMessages (LocalHistoryStore := memoryStore) (mkStore ∅ ∅) "9"
                     = Returned None) by (vm_compute; reflexivity).
  destruct (remote_fallback_failures (store := memoryStore) (detector := noCommands)
              "9" None quietOracle (mkStore ∅ ∅) None (mounted (mkStore ∅ ∅))
              eq_refl Hunknown eq_refl Hempty)
    as (Hready & _ & _ & _ & _ & Hhome & _).
  split; [exact Hready | exact Hhome].
Defined.

(** A failing store: the restore of ["7"] rejects, ["8"] takes the lock,
    the timer of the first restore fires, ["9"] starts beside it. *)
Lemma stale_timer_releases_later_lock_witness :
  querySequences
    (restoreEffect (Some "9")
       (releaseLock
          (restoreEffect (Some "8")
             (settle (store := brokenStore) (detector := noCommands) "7" None
                     quietOracle
                     (restoreEffect (Some "7") (mounted tt))))))
  = 3%nat.
Proof.
  destruct (stale_timer_releases_later_lock (store := brokenStore)
              (detector := noCommands) "7" (Some "8") (Some "9") None quietOracle
              "transaction failed" tt (mounted tt)
              eq_refl eq_refl eq_refl eq_refl eq_refl eq_refl)
    as (_ & _ & _ & _ & _ & Hraced).
  exact Hraced.
Defined.

(** Storing one message annotated ['no-store'] on the open chat. *)
Lemma store_only_no_store_rejects_witness :
  MessageHistory.rejected
    (snd (MessageHistory.storeMessageHistory (store := memoryStore) storeOracle
            [noStoreMsg "x"] openChat)) = true /\
  MessageHistory.remotePosts
    (snd (MessageHistory.storeMessageHistory (store := memoryStore) storeOracle
            [noStoreMsg "x"] openChat)) = [].
Proof.
  assert (Hall : forall m, In m [noStoreMsg "x"] -> includesTag "no-store" m = true).
  { intros m [<- | []]. reflexivity. }
  destruct (store_only_no_store_rejects (store := memoryStore) storeOracle
              [noStoreMsg "x"] storeWithChat openChat eq_refl
              ltac:(discriminate) Hall)
    as (Hrejected & _ & _ & Hposts & _).
  split; [exact Hrejected | exact Hposts].
Defined.

(** The first message of a chat that has no id yet. *)
Lemma new_chat_stored_without_snapshot_witness :
  MessageHistory.snapshotTaken
    (snd (MessageHistory.storeMessageHistory (store := logStore) storeOracle
            [msg "a"] (mounted ∅))) = None /\
  chatId (fst (MessageHistory.storeMessageHistory (store := logStore) storeOracle
                 [msg "a"] (mounted ∅))) = Some "8" /\
  db (fst (MessageHistory.storeMessageHistory (store := logStore) storeOracle
             [msg "a"] (mounted ∅))) = Some {[ "8" := [msg "a"] ]}.
Proof.
  destruct (new_chat_stored_without_snapshot (store := logStore) storeOracle
              [msg "a"] ∅ {[ "8" := [msg "a"] ]} (msg "a") (mounted ∅)
              eq_refl eq_refl eq_refl eq_refl eq_refl (fun _ _ => eq_refl))
    as (Hsnapshot & Hchat & _ & Hdb).
  split; [exact Hsnapshot | split; [exact Hchat | exact Hdb]].
Defined.

(** A file service that has synced its files is started for project ["q"]. *)
Lemma start_keeps_last_synced_witness :
  snd (SyncAgent.start (stateJson := filesJson) (bodyJson := filesBodyJson) "files"
         FileSyncService.mkFilesBody "q" someFiles RespOk 0%nat syncedFileService) = [] /\
  SyncAgent.projectId
    (fst (SyncAgent.start (stateJson := filesJson) (bodyJson := filesBodyJson) "files"
            FileSyncService.mkFilesBody "q" someFiles RespOk 0%nat syncedFileService))
  = Some "q".
Proof.
  destruct (start_keeps_last_synced (stateJson := filesJson) (bodyJson := filesBodyJson)
              "files" FileSyncService.mkFilesBody "q" someFiles RespOk 0%nat
              syncedFileService eq_refl eq_refl)
    as (Hnone & Hproject & _).
  split; [exact Hnone | exact Hproject].
Defined.

(** [forceSave] of the file service that has synced its files, refused. *)
Lemma forceSave_always_writes_witness :
  length (snd (SyncAgent.forceSave (stateJson := filesJson) (bodyJson := filesBodyJson)
                 "files" FileSyncService.mkFilesBody RespNotOk 0%nat
                 syncedFileService)) = 1%nat /\
  SyncAgent.lastSynced
    (fst (SyncAgent.forceSave (stateJson := filesJson) (bodyJson := filesBodyJson)
            "files" FileSyncService.mkFilesBody RespNotOk 0%nat syncedFileService))
  = "".
Proof.
  destruct (forceSave_always_writes (stateJson := filesJson)
              (bodyJson := filesBodyJson) "files" FileSyncService.mkFilesBody
              "p" someFiles RespNotOk 0%nat syncedFileService
              (conj eq_refl (conj eq_refl eq_refl)) ltac:(discriminate))
    as (Hwrites & Hmark & _).
  split; [rewrite Hwrites; reflexivity | exact Hmark].
Defined.

(** Posting a folder entry leaves the row at its path as it was (absent). *)
Lemma save_touches_only_posted_files_witness :
  FilesRoute.project_files
    (snd (FilesRoute.action (Some "u1") (Some "p1") postedFiles false oneProject))
    !! ("p1", "src") = None.
Proof.
  assert (Hfolder : Some "p1" <> Some "p1" \/
                    postedFiles !! "src" = None \/
                    exists entry, postedFiles !! "src" = Some entry /\
                                  FilesRoute.fd_type entry <> "file").
  { right. right. exists (FilesRoute.mkFileData "folder" None None).
    split; [reflexivity | discriminate]. }
  rewrite (save_touches_only_posted_files (Some "u1") (Some "p1") postedFiles false
             oneProject "p1" "src" Hfolder).
  reflexivity.
Defined.

(** The text file [index.js] of the posted file map, saved and loaded. *)
Lemma text_content_round_trips_witness :
  exists fileMap : gmap string Dirent,
    FilesRoute.loader (Some "u1") (Some "p1") false
      (snd (FilesRoute.action (Some "u1") (Some "p1") postedFiles false oneProject))
    = FilesRoute.Loaded (FilesRoute.mkProject "p1" "url-1" "u1") fileMap /\
    fileMap !! "index.js" = Some (File "let x" false).
Proof.
  pose (saved := snd (FilesRoute.action (Some "u1") (Some "p1") postedFiles false
                                        oneProject)).
  exists (FilesRoute.toFileMap
            (FilesRoute.filesOf "p1" (FilesRoute.project_files saved))).
  assert (Hload : FilesRoute.loader (Some "u1") (Some "p1") false saved
                  = FilesRoute.Loaded (FilesRoute.mkProject "p1" "url-1" "u1")
                      (FilesRoute.toFileMap
                         (FilesRoute.filesOf "p1" (FilesRoute.project_files saved))))
    by reflexivity.
  split; [exact Hload |].
  exact (text_content_round_trips (Some "u1") "p1" postedFiles oneProject 2%nat
           "index.js" "let x" None eq_refl eq_refl ltac:(discriminate)
           _ _ _ _ Hload eq_refl).
Defined.

(** Loading the project of [oneProject] by its url id. *)
Lemma load_only_own_project_witness :
  exists fileMap : gmap string Dirent,
    FilesRoute.loader (Some "u1") (Some "url-1") false oneProject
    = FilesRoute.Loaded (FilesRoute.mkProject "p1" "url-1" "u1") fileMap /\
    fileMap !! "index.js" = None.
Proof.
  exists (FilesRoute.toFileMap
            (FilesRoute.filesOf "p1" (FilesRoute.project_files oneProject))).
  assert (Hload : FilesRoute.loader (Some "u1") (Some "url-1") false oneProject
                  = FilesRoute.Loaded (FilesRoute.mkProject "p1" "url-1" "u1")
                      (FilesRoute.toFileMap
                         (FilesRoute.filesOf "p1" (FilesRoute.project_files oneProject))))
    by reflexivity.
  split; [exact Hload |].
  destruct (load_only_own_project (Some "u1") (Some "url-1") oneProject _ _ Hload)
    as (_ & _ & _ & Hfiles).
  rewrite (Hfiles "index.js"). reflexivity.
Defined.

(** A remote project with files and no message, the sandbox booted. *)
Lemma remote_project_without_messages_witness :
  ProjectRestore.wb_files
    (ProjectRestore.workbench
       (ProjectRestore.doRestoreProject (ProjectRestore.LoadOk filesOnlyProject)
          (Some ("/home/project", fun _ _ => false)) emptyWorkbench))
  = ProjectRestore.data_files filesOnlyProject /\
  navigatedHome
    (restoreFromRemote (store := memoryStore) "p1"
       (ProjectRestore.oracleOf "fresh" (Returned tt)
          (ProjectRestore.doRestoreProject (ProjectRestore.LoadOk filesOnlyProject)
             (Some ("/home/project", fun _ _ => false)) emptyWorkbench))
       (mounted (mkStore ∅ ∅))) = true.
Proof.
  destruct (remote_project_without_messages (store := memoryStore) filesOnlyProject
              (Some ("/home/project", fun _ _ => false)) emptyWorkbench
              "fresh" "p1" (Returned tt) (mounted (mkStore ∅ ∅))
              ltac:(discriminate))
    as (Hfiles & _ & Hbooted & _).
  split; [exact Hfiles |].
  destruct (Hbooted "/home/project" (fun _ _ => false) eq_refl eq_refl)
    as (_ & _ & Hhome & _).
  exact Hhome.
Defined.

(** Creating project [url-1] twice for user [u1]. *)
Lemma create_is_idempotent_witness :
  ProjectsRoute.create (Some "u1") (Some "url-1") (Some "Other title") None "id-2" 9
    [ownProject]
  = (ProjectsRoute.Existed
       (ProjectsRoute.mkProjectRow "id-1" "u1" "url-1" "Untitled Project" None 9),
     [ProjectsRoute.mkProjectRow "id-1" "u1" "url-1" "Untitled Project" None 9]).
Proof.
  destruct (create_is_idempotent "u1" "url-1" None None (Some "Other title") None
              "id-1" "id-2" 5 9 [] [ownProject] ownProject eq_refl)
    as (Hagain & _ & _).
  exact Hagain.
Defined.

(** User [u2] asks for the url id that [u1]'s project holds. *)
Lemma create_rejects_foreign_url_id_witness :
  ProjectsRoute.create (Some "u2") (Some "url-1") None None "id-2" 9 [ownProject]
  = (ProjectsRoute.StorageError, [ownProject]).
Proof.
  assert (Hforeign : forall p, In p [ownProject] -> ProjectsRoute.p_url_id p = "url-1" ->
                               ProjectsRoute.p_clerk_user_id p <> "u2").
  { intros p [<- | []] _. discriminate. }
  destruct (create_rejects_foreign_url_id "u2" "url-1" None None "id-2" 9
              [ownProject] ownProject eq_refl eq_refl (or_introl eq_refl) eq_refl
              Hforeign)
    as (Hcreate & _).
  exact Hcreate.
Defined.

(** User [u2] deletes [u1]'s project, named by its UUID, and the database
    reports no error: the answer is [Deleted], the row stays. *)
Lemma delete_only_own_project_witness :
  ProjectsRoute.delete (Some "u2") (Some "3f2a9c1e-5b7d-4e21-9a60-0c4d8e7f1b23")
                       false [uuidProject]
  = (ProjectsRoute.Deleted, [uuidProject]).
Proof.
  destruct (delete_only_own_project "u2" "3f2a9c1e-5b7d-4e21-9a60-0c4d8e7f1b23"
              false [uuidProject] eq_refl eq_refl)
    as (Hanswer & _ & Hkept).
  assert (Hforeign : forall p, In p [uuidProject] ->
                       ProjectsRoute.p_id p = "3f2a9c1e-5b7d-4e21-9a60-0c4d8e7f1b23" ->
                       ProjectsRoute.p_clerk_user_id p <> "u2").
  { intros p [<- | []] _. discriminate. }
  rewrite (surjective_pairing (ProjectsRoute.delete _ _ _ _)).
  now rewrite Hanswer, (Hkept (or_intror Hforeign)).
Defined.

(** Messages [a], [b] (annotated ['no-store']) and [c], synced and loaded. *)
Lemma synced_messages_round_trip_witness :
  In (msg "c")
     (MessagesRoute.transformedMessages "p1"
        (MessagesRoute.chat_messages
           (snd (MessagesRoute.action (Some "u1") (Some "p1")
                   (map MessageHistory.toSynced
                        (filter (fun m => MessageHistory.storable m = true) mixedLog))
                   false messagesDb)))).
Proof.
  assert (Hdistinct : NoDup (map id mixedLog)).
  { apply (bool_decide_unpack _). reflexivity. }
  destruct (synced_messages_round_trip (Some "u1") "p1" mixedLog messagesDb 2%nat
              (msg "c") Hdistinct eq_refl (or_intror (or_intror (or_introl eq_refl)))
              eq_refl)
    as (_ & _ & Hloaded).
  exact Hloaded.
Defined.

End MoreConcrete.
